(** * gitbackup node lifecycle: a shallow embedding of [spawn_node.py] and of the
    provider scripts [providers/scaleway.py] and [providers/hetzner.py].

    Python values are modelled as follows.
    - [str] is a list of Unicode code points ([N]); string constants of the
      source are written as Rocq string literals and decoded from UTF-8 by [u].
    - JSON documents (HTTP bodies, [json.dumps] arguments) are values of [json].
    - A Python computation is a function from the state of the outside world to
      an [outcome], the new state and the list of external actions it performed
      (the trace): see [M]. *)

From Stdlib Require Import ZArith NArith List String Ascii Bool Lia.
From stdpp Require Import base option list gmap.
Import ListNotations.

Local Open Scope N_scope.

(** ** Python strings *)

Module Py.

(** A Python [str]: the sequence of its code points. *)
Abbreviation str := (list N).

Fixpoint utf8_go (need : nat) (acc : N) (bs : list N) : str :=
  match bs with
  | [] => []
  | b :: bs' =>
      match need with
      | O =>
          if b <? 128 then b :: utf8_go 0 0 bs'
          else if b <? 224 then utf8_go 1 (b - 192) bs'
          else if b <? 240 then utf8_go 2 (b - 224) bs'
          else utf8_go 3 (b - 240) bs'
      | S O => (acc * 64 + (b - 128)) :: utf8_go 0 0 bs'
      | S n => utf8_go n (acc * 64 + (b - 128)) bs'
      end
  end.

(** The Python string whose UTF-8 encoding is [s]. *)
Definition utf8 (s : string) : str :=
  utf8_go 0 0 (map N_of_ascii (list_ascii_of_string s)).

(** A string constant of the source. [u "text"] stands for the code points of
    the literal, decoded once, when the constant is read. *)
Definition lit (s : str) : str := s.
Arguments lit : simpl never.

Notation "'u' s" :=
  (lit ltac:(let v := eval vm_compute in (utf8 s) in exact v))
  (at level 10, s at level 0, only parsing).

Definition nl : str := [10].
Definition dq : str := [34].

(** [c.isspace()] as [str.split()] uses it. *)
Definition isspace (c : N) : bool :=
  ((9 <=? c) && (c <=? 13)) || ((28 <=? c) && (c <=? 32))
  || (c =? 133) || (c =? 160) || (c =? 5760)
  || ((8192 <=? c) && (c <=? 8202))
  || (c =? 8232) || (c =? 8233) || (c =? 8239) || (c =? 8287) || (c =? 12288).

(** [s.split(sep)] for a one-character separator. *)
Fixpoint split_on (sep : N) (s : str) : list str :=
  match s with
  | [] => [[]]
  | c :: s' =>
      if c =? sep then [] :: split_on sep s'
      else match split_on sep s' with
           | l :: ls => (c :: l) :: ls
           | [] => [[c]]
           end
  end.

(** [s.split()]: maximal runs of non-whitespace characters. *)
Fixpoint split_ws (s : str) : list str :=
  match s with
  | [] => []
  | c :: s' =>
      if isspace c then split_ws s'
      else match s' with
           | [] => [[c]]
           | d :: _ =>
               if isspace d then [c] :: split_ws s'
               else match split_ws s' with
                    | w :: ws => (c :: w) :: ws
                    | [] => [[c]]
                    end
           end
  end.

(** [s.startswith(p)]. *)
Fixpoint startswith (p s : str) : bool :=
  match p, s with
  | [], _ => true
  | _ :: _, [] => false
  | a :: p', b :: s' => (a =? b) && startswith p' s'
  end.

(** [sub in s]. *)
Fixpoint contains (sub s : str) : bool :=
  startswith sub s
  || match s with
     | [] => false
     | _ :: s' => contains sub s'
     end.

(** [s.count(c)] for a one-character [c]. *)
Fixpoint count (c : N) (s : str) : nat :=
  match s with
  | [] => O
  | d :: s' => if d =? c then S (count c s') else count c s'
  end.

(** [sep.join(parts)]. *)
Fixpoint join (sep : str) (parts : list str) : str :=
  match parts with
  | [] => []
  | [p] => p
  | p :: rest => p ++ sep ++ join sep rest
  end.

(** Truthiness of a string and of an optional string ([None] is falsy). *)
Definition truthy_str (s : str) : bool :=
  match s with [] => false | _ => true end.

Definition truthy_opt (o : option str) : bool :=
  match o with Some s => truthy_str s | None => false end.

(** [s.lstrip(chars)], [s.rstrip(chars)] and [s.strip(chars)], the set of
    characters to remove given as a predicate. *)
Fixpoint lstrip_by (f : N -> bool) (s : str) : str :=
  match s with
  | [] => []
  | c :: s' => if f c then lstrip_by f s' else s
  end.

Definition rstrip_by (f : N -> bool) (s : str) : str := rev (lstrip_by f (rev s)).

Definition strip_by (f : N -> bool) (s : str) : str := rstrip_by f (lstrip_by f s).

(** [s.strip()] and [s.strip(chars)]. *)
Definition strip (s : str) : str := strip_by isspace s.

Definition strip_chars (chars s : str) : str :=
  strip_by (fun c => existsb (N.eqb c) chars) s.

(** [s.split(sep, 1)] for a one-character separator: one part when [sep]
    does not occur, two otherwise. *)
Fixpoint split1 (sep : N) (s : str) : list str :=
  match s with
  | [] => [[]]
  | c :: s' =>
      if c =? sep then [[]; s']
      else match split1 sep s' with
           | l :: ls => (c :: l) :: ls
           | [] => [[c]]
           end
  end.

End Py.
Import Py.

(** ** Address lookup in a provider listing ([get_vm_ip], the part after the
    listing was obtained) *)

Definition dot : N := 46.

(** [for part in parts: if part.count('.') == 3: return part]. *)
Fixpoint first_ip_part (parts : list str) : option str :=
  match parts with
  | [] => None
  | part :: rest =>
      if Nat.eqb (count dot part) 3 then Some part else first_ip_part rest
  end.

(** [for line in lines: if name in line: ... return part]; falls through to
    the next line when the inner loop found no part. *)
Fixpoint scan_lines (name : str) (lines : list str) : option str :=
  match lines with
  | [] => None
  | line :: rest =>
      if contains name line then
        match first_ip_part (split_ws line) with
        | Some part => Some part
        | None => scan_lines name rest
        end
      else scan_lines name rest
  end.

Definition ip_of_listing (stdout name : str) : option str :=
  scan_lines name (split_on 10 stdout).

(** ** JSON values and [json.dumps] *)

Module Json.

(** A JSON document as Python holds it. Dictionaries keep insertion order.
    [JFloat] carries the [repr] of the float, which is what [json.dumps]
    emits. *)
#[warnings="-register-all"] Inductive json :=
| JNull
| JBool (b : bool)
| JInt (z : Z)
| JFloat (repr : str)
| JStr (s : str)
| JList (l : list json)
| JDict (d : list (str * json)).

Fixpoint digits (d : Decimal.uint) : str :=
  match d with
  | Decimal.Nil => []
  | Decimal.D0 d' => 48 :: digits d'
  | Decimal.D1 d' => 49 :: digits d'
  | Decimal.D2 d' => 50 :: digits d'
  | Decimal.D3 d' => 51 :: digits d'
  | Decimal.D4 d' => 52 :: digits d'
  | Decimal.D5 d' => 53 :: digits d'
  | Decimal.D6 d' => 54 :: digits d'
  | Decimal.D7 d' => 55 :: digits d'
  | Decimal.D8 d' => 56 :: digits d'
  | Decimal.D9 d' => 57 :: digits d'
  end.

(** [str(n)] for an integer. *)
Definition dec (z : Z) : str :=
  match z with
  | Z0 => u "0"
  | Zpos p => digits (Pos.to_uint p)
  | Zneg p => u "-" ++ digits (Pos.to_uint p)
  end.

(** [f"{z:0{w}d}"] for a non-negative [z]. *)
Definition zpad (w : nat) (z : Z) : str :=
  let d := dec z in
  repeat 48 (w - length d)%nat ++ d.

Definition hexdigit (n : N) : N :=
  if n <? 10 then 48 + n else 87 + n.

(** [\uXXXX], lower-case hexadecimal. *)
Definition uescape (c : N) : str :=
  u "\u" ++ [hexdigit (c / 4096 mod 16); hexdigit (c / 256 mod 16);
             hexdigit (c / 16 mod 16); hexdigit (c mod 16)].

(** One character of a string under [json.dumps] with [ensure_ascii=True]. *)
Definition escape_char (c : N) : str :=
  if c =? 34 then u "\" ++ dq
  else if c =? 92 then u "\\"
  else if c =? 10 then u "\n"
  else if c =? 13 then u "\r"
  else if c =? 9 then u "\t"
  else if c =? 8 then u "\b"
  else if c =? 12 then u "\f"
  else if (32 <=? c) && (c <=? 126) then [c]
  else if c <? 65536 then uescape c
  else let v := c - 65536 in
       uescape (55296 + (v / 1024) mod 1024) ++ uescape (56320 + v mod 1024).

Definition encode_string (s : str) : str :=
  dq ++ flat_map escape_char s ++ dq.

(** The line break and indentation [json.dumps] puts before an item at
    nesting depth [level], and its separators. *)
Definition newline_indent (indent : option nat) (level : nat) : str :=
  match indent with
  | Some n => nl ++ repeat 32 (n * level)%nat
  | None => []
  end.

Definition item_separator (indent : option nat) : str :=
  match indent with
  | Some _ => u ","
  | None => u ", "
  end.

(** [json.dumps(j, indent=indent)] at nesting depth [level]. *)
Fixpoint dumps_at (indent : option nat) (level : nat) (j : json) : str :=
  match j with
  | JNull => u "null"
  | JBool true => u "true"
  | JBool false => u "false"
  | JInt z => dec z
  | JFloat r => r
  | JStr s => encode_string s
  | JList [] => u "[]"
  | JList (x :: xs) =>
      u "[" ++ newline_indent indent (S level)
      ++ dumps_at indent (S level) x
      ++ (fix items (l : list json) : str :=
            match l with
            | [] => []
            | y :: l' =>
                item_separator indent ++ newline_indent indent (S level)
                ++ dumps_at indent (S level) y ++ items l'
            end) xs
      ++ newline_indent indent level ++ u "]"
  | JDict [] => u "{}"
  | JDict ((k, x) :: xs) =>
      u "{" ++ newline_indent indent (S level)
      ++ encode_string k ++ u ": " ++ dumps_at indent (S level) x
      ++ (fix items (l : list (str * json)) : str :=
            match l with
            | [] => []
            | (k', y) :: l' =>
                item_separator indent ++ newline_indent indent (S level)
                ++ encode_string k' ++ u ": " ++ dumps_at indent (S level) y
                ++ items l'
            end) xs
      ++ newline_indent indent level ++ u "}"
  end.

Definition dumps (indent : option nat) (j : json) : str := dumps_at indent 0 j.

(** Truthiness of a JSON value ([if x:]). *)
Definition truthy (j : json) : bool :=
  match j with
  | JNull => false
  | JBool b => b
  | JInt z => negb (z =? 0)%Z
  | JFloat r => negb (bool_decide (r = u "0.0") || bool_decide (r = u "-0.0"))
  | JStr s => truthy_str s
  | JList l => match l with [] => false | _ => true end
  | JDict d => match d with [] => false | _ => true end
  end.

(** Lookup in a dictionary literal. *)
Fixpoint assoc (k : str) (d : list (str * json)) : option json :=
  match d with
  | [] => None
  | (k', v) :: d' => if bool_decide (k' = k) then Some v else assoc k d'
  end.

End Json.
Import Json.

(** ** Computations: outcome, state and trace *)

(** A Python exception below [Exception]: its class name and [str(e)]. *)
Record exn := Exn { exn_class : str; exn_str : str }.

(** How a call ends: it returns, an exception propagates, [sys.exit(code)]
    propagates ([SystemExit] is caught by a bare [except:] but not by
    [except Exception]), or the model ran out of fuel in an unbounded loop. *)
Inductive outcome (A : Type) :=
| Ret (a : A)
| Raise (e : exn)
| Exit (code : Z)
| Diverge.
Arguments Ret {A} a.
Arguments Raise {A} e.
Arguments Exit {A} code.
Arguments Diverge {A}.

Inductive provider := scaleway | hetzner.

Inductive http_method := GET | POST | PUT | DELETE.

(** The Cloudflare URLs of [spawn_node.py], below
    [https://api.cloudflare.com/client/v4/zones/{CLOUDFLARE_ZONE_ID}/]. *)
Inductive cf_url :=
| DnsRecordsByName (fqdn : str)   (* dns_records?name={fqdn} *)
| DnsRecords                      (* dns_records *)
| DnsRecord (record_id : json).   (* dns_records/{record_id} *)

(** What [requests] hands back: [r.status_code], [r.text], and the document
    [r.json()] parses the text to ([None] when it raises). *)
Record response := Response {
  status_code : Z; text : str; document : option json
}.

(** External actions, in the order they happen, each with what it answered:
    [(stdout, stderr, returncode)] for a subprocess, [inl e] for a call that
    raised [e]. *)
Inductive event :=
| EvPrint (line : str)                              (* print(line) *)
| EvProvider (p : provider) (args : list str)
    (out : str * str * Z)                           (* python3 <script> args *)
| EvSsh (target cmd : str) (out : str * str * Z)    (* ssh ... target cmd *)
| EvSleep (secs : Z)                                (* time.sleep(secs) *)
| EvConnect (host : str) (port : Z) (res : exn + Z) (* sock.connect_ex *)
| EvCloudflare (m : http_method) (url : cf_url) (token : option str)
    (payload : option json) (res : exn + response)  (* requests.<m>(url, ...) *)
| EvNotify (url : str) (payload : json)
    (res : exn + Z)                                 (* requests.post(webhook) *)
| EvApi (m : http_method) (url : str) (payload : option json)
    (res : exn + response)                          (* provider API *)
| EvExists (path : str) (res : bool)                (* Path(path).exists() *)
| EvOpen (path : str) (res : exn + (exn + str)).    (* open(path) *)

(** A computation over a state [S]: outcome, new state, trace. *)
Definition M (S A : Type) : Type := S -> outcome A * S * list event.

Definition ret {S A} (a : A) : M S A := fun s => (Ret a, s, []).

Definition bind {S A B} (m : M S A) (k : A -> M S B) : M S B :=
  fun s =>
    match m s with
    | (Ret a, s1, t1) =>
        match k a s1 with
        | (r, s2, t2) => (r, s2, t1 ++ t2)
        end
    | (Raise e, s1, t1) => (Raise e, s1, t1)
    | (Exit c, s1, t1) => (Exit c, s1, t1)
    | (Diverge, s1, t1) => (Diverge, s1, t1)
    end.

Definition raise {S A} (e : exn) : M S A := fun s => (Raise e, s, []).
Definition sys_exit {S A} (c : Z) : M S A := fun s => (Exit c, s, []).
Definition diverge {S A} : M S A := fun s => (Diverge, s, []).
Definition emit {S} (e : event) : M S unit := fun s => (Ret tt, s, [e]).
Definition print {S} (line : str) : M S unit := emit (EvPrint line).

(** [try: m  except: h] (a bare [except:], which also catches [SystemExit]). *)
Definition try_except {S A} (m : M S A) (h : M S A) : M S A :=
  fun s =>
    match m s with
    | (Raise _, s1, t1) | (Exit _, s1, t1) =>
        match h s1 with
        | (r, s2, t2) => (r, s2, t1 ++ t2)
        end
    | r => r
    end.

(** [try: m  except Exception as e: h e]. *)
Definition try_except_Exception {S A} (m : M S A) (h : exn -> M S A) : M S A :=
  fun s =>
    match m s with
    | (Raise e, s1, t1) =>
        match h e s1 with
        | (r, s2, t2) => (r, s2, t1 ++ t2)
        end
    | r => r
    end.

(** Lift a fallible pure step. *)
Definition lift {S A} (r : exn + A) : M S A :=
  match r with
  | inl e => raise e
  | inr a => ret a
  end.

Declare Scope py_scope.
Delimit Scope py_scope with py.
Notation "'let*' x ':=' m 'in' k" := (bind m (fun x => k))
  (at level 10, x pattern, m at level 100, k at level 200) : py_scope.
Notation "m '>>' k" := (bind m (fun _ => k))
  (at level 90, right associativity) : py_scope.
Local Open Scope py_scope.

Definition result {S A} (r : outcome A * S * list event) : outcome A := r.1.1.
Definition final {S A} (r : outcome A * S * list event) : S := r.1.2.
Definition trace {S A} (r : outcome A * S * list event) : list event := r.2.

(** Dynamic typing of JSON values: each raises what Python raises. *)
Definition KeyError_ (k : str) : exn := Exn (u "KeyError") k.
Definition TypeError_ : exn := Exn (u "TypeError") (u "bad operand type").
Definition AttributeError_ : exn := Exn (u "AttributeError") (u "no such attribute").
Definition IndexError_ : exn := Exn (u "IndexError") (u "index out of range").
Definition JSONDecodeError_ : exn := Exn (u "JSONDecodeError") (u "Expecting value").

(** [j.get(k, default)]. *)
Definition py_get (j : json) (k : str) (default : json) : exn + json :=
  match j with
  | JDict d => inr (match assoc k d with Some v => v | None => default end)
  | _ => inl AttributeError_
  end.

(** [j[0]]. *)
Definition py_index0 (j : json) : exn + json :=
  match j with
  | JList (x :: _) => inr x
  | JList [] => inl IndexError_
  | JStr (c :: _) => inr (JStr [c])
  | JStr [] => inl IndexError_
  | JDict _ => inl (KeyError_ (u "0"))
  | _ => inl TypeError_
  end.

(** [j[k]] for a string key [k]. *)
Definition py_getitem (j : json) (k : str) : exn + json :=
  match j with
  | JDict d => match assoc k d with Some v => inr v | None => inl (KeyError_ k) end
  | _ => inl TypeError_
  end.

(** [for x in j]. *)
Definition py_iter (j : json) : exn + list json :=
  match j with
  | JList l => inr l
  | JDict d => inr (map (fun kv => JStr kv.1) d)
  | JStr s => inr (map (fun c => JStr [c]) s)
  | _ => inl TypeError_
  end.

(** [j.values()] and [j.items()]. *)
Definition py_values (j : json) : exn + list json :=
  match j with
  | JDict d => inr (map snd d)
  | _ => inl AttributeError_
  end.

Definition py_items (j : json) : exn + list (str * json) :=
  match j with
  | JDict d => inr d
  | _ => inl AttributeError_
  end.

(** [j == "s"]. *)
Definition py_eq_str (j : json) (s : str) : bool :=
  match j with
  | JStr s' => bool_decide (s' = s)
  | _ => false
  end.

(** [str(j)], as an f-string formats a value; [repr] stands for Python's
    rendering of lists and dictionaries. *)
Definition py_str (repr : json -> str) (j : json) : str :=
  match j with
  | JNull => u "None"
  | JBool true => u "True"
  | JBool false => u "False"
  | JInt z => dec z
  | JFloat r => r
  | JStr s => s
  | _ => repr j
  end.

(** [s.ljust(w)] and [f"{j:<w}"]. *)
Definition ljust (w : nat) (s : str) : str := s ++ repeat 32 (w - length s)%nat.

Definition py_format_left (w : nat) (j : json) : exn + str :=
  match j with
  | JStr s => inr (ljust w s)
  | JInt z => inr (ljust w (dec z))
  | JBool b => inr (ljust w (if b then u "1" else u "0"))
  | JFloat r => inr (ljust w r)
  | _ => inl TypeError_
  end.

(** [d[k] = v] on a dictionary literal. *)
Fixpoint dict_set (k : str) (v : json) (d : list (str * json)) : list (str * json) :=
  match d with
  | [] => [(k, v)]
  | (k', v') :: d' =>
      if bool_decide (k' = k) then (k, v) :: d' else (k', v') :: dict_set k v d'
  end.

(** [r.json()]. *)
Definition response_json (r : response) : exn + json :=
  match document r with
  | Some j => inr j
  | None => inl JSONDecodeError_
  end.

(** ** [datetime] *)

Record datetime := Datetime {
  year : Z; month : Z; day : Z; hour : Z; minute : Z; second : Z; microsecond : Z
}.

(** [d.isoformat()]. *)
Definition isoformat (d : datetime) : str :=
  zpad 4 (year d) ++ u "-" ++ zpad 2 (month d) ++ u "-" ++ zpad 2 (day d)
  ++ u "T" ++ zpad 2 (hour d) ++ u ":" ++ zpad 2 (minute d) ++ u ":" ++ zpad 2 (second d)
  ++ (if (microsecond d =? 0)%Z then [] else u "." ++ zpad 6 (microsecond d)).

(** [d.strftime('%Y-%m-%d')] (four-digit years). *)
Definition strftime_ymd (d : datetime) : str :=
  zpad 4 (year d) ++ u "-" ++ zpad 2 (month d) ++ u "-" ++ zpad 2 (day d).

(** ** The host of [spawn_node.py] *)

(** Everything [spawn_node.py] reaches outside the process. [W] is the state
    of the provider scripts, the Cloudflare API, the network, the node and the
    clock; [N] is the state of the notification endpoint.
    - [provider_proc p args]: [subprocess.run(['python3', script, *args])],
      giving [(stdout, stderr, returncode)];
    - [ssh_proc target cmd]: [subprocess.run(['ssh', ..., target, cmd])];
    - [cloudflare m url token payload]: a [requests] call with the header
      [Authorization: Bearer {token}]; [inl e] when it raises;
    - [connect_ex host port]: the socket probe of [wait_for_ssh]; [inl e] when
      any of its calls raises;
    - [time_time]: [time.time()], in microseconds;
    - [webhook_post url payload]: [requests.post(url, json=payload)], giving
      the status code; [inl e] when it raises. *)
Record host (W N : Type) := Host {
  provider_proc : provider -> list str -> W -> (str * str * Z) * W;
  ssh_proc : str -> str -> W -> (str * str * Z) * W;
  cloudflare : http_method -> cf_url -> option str -> option json -> W -> (exn + response) * W;
  connect_ex : str -> Z -> W -> (exn + Z) * W;
  time_time : W -> Z * W;
  time_sleep : Z -> W -> W;
  datetime_now : W -> datetime * W;
  webhook_post : str -> json -> N -> (exn + Z) * N
}.
Arguments provider_proc {W N} _ _ _ _.
Arguments ssh_proc {W N} _ _ _ _.
Arguments cloudflare {W N} _ _ _ _ _ _.
Arguments connect_ex {W N} _ _ _ _.
Arguments time_time {W N} _ _.
Arguments time_sleep {W N} _ _ _.
Arguments datetime_now {W N} _ _.
Arguments webhook_post {W N} _ _ _ _.

(** [PROVIDERS]. *)
Record provider_info := ProviderInfo {
  script : str; cost : json; zone : str; type_ : str
}.

Definition PROVIDERS (p : provider) : provider_info :=
  match p with
  | scaleway => ProviderInfo (u "providers/scaleway.py") (JFloat (u "1.8")) (u "fr-par-1") (u "STARDUST1-S")
  | hetzner => ProviderInfo (u "providers/hetzner.py") (JFloat (u "3.49")) (u "fsn1") (u "CX22")
  end.

(** The provider as the string the command line gives. *)
Definition provider_name (p : provider) : str :=
  match p with
  | scaleway => u "scaleway"
  | hetzner => u "hetzner"
  end.

(** ** Environment files *)

(** What [load_env] finds at a location:
    - [NoFile]: nothing, [loc.exists()] is false;
    - [Unreadable e]: a location that [loc.exists()] or [open(loc)] refuses
      with [e];
    - [Lines ls]: a file whose iteration [for line in f] yields [ls], each
      line with its line break (the last one possibly without), and ends;
    - [Broken ls e]: a file whose iteration yields [ls] and then raises [e]
      (bytes that do not decode, or an error of the device). *)
Inductive file :=
| NoFile
| Unreadable (e : exn)
| Lines (ls : list str)
| Broken (ls : list str) (e : exn).

(** The two quote characters, which [load_env] strips from a value. *)
Definition quotes : str := dq ++ u "'".

Module SpawnNode.

(** The body of the loop over the lines of a file in [load_env]. *)
Definition load_line (env : gmap str str) (line : str) : exn + gmap str str :=
  let line := strip line in
  if truthy_str line && negb (startswith (u "#") line) && contains (u "=") line then
    match split1 61 line with
    | [key; val] => inr (<[key := strip_chars quotes val]> env)
    | _ => inl (Exn (u "ValueError") (u "not enough values to unpack (expected 2, got 1)"))
    end
  else inr env.

Fixpoint load_lines (env : gmap str str) (lines : list str) : exn + gmap str str :=
  match lines with
  | [] => inr env
  | line :: rest =>
      match load_line env line with
      | inl e => inl e
      | inr env' => load_lines env' rest
      end
  end.

Fixpoint load_files (fs : str -> file) (locations : list str) (env : gmap str str)
    : exn + gmap str str :=
  match locations with
  | [] => inr env
  | loc :: rest =>
      match fs loc with
      | NoFile => load_files fs rest env
      | Unreadable e => inl e
      | Lines ls =>
          match load_lines env ls with
          | inl e => inl e
          | inr env' => load_files fs rest env'
          end
      | Broken ls e =>
          match load_lines env ls with
          | inl e' => inl e'
          | inr _ => inl e
          end
      end
  end.

(** [load_env()]; [here] is [Path(__file__).parent / '.env']. *)
Definition load_env (fs : str -> file) (here : str) : exn + gmap str str :=
  load_files fs [here; u "/home/claude/brain/.env"] ∅.

Section Orchestrator.
Context {W N : Type}.
(** The host, and [ENV], the dictionary [load_env()] built at import time. *)
Variable H : host W N.
Variable ENV : gmap str str.

Abbreviation St := (W * N)%type.

(** A call into the world, recorded with its answer; a silent read of the
    world; a call into the notification endpoint. *)
Definition in_world {A} (f : W -> A * W) (ev : A -> event) : M St A :=
  fun s => let '(a, w) := f s.1 in (Ret a, (w, s.2), [ev a]).

Definition read_world {A} (f : W -> A * W) : M St A :=
  fun s => let '(a, w) := f s.1 in (Ret a, (w, s.2), []).

Definition in_sink {A} (f : N -> A * N) (ev : A -> event) : M St A :=
  fun s => let '(a, n) := f s.2 in (Ret a, (s.1, n), [ev a]).

Definition sleep (secs : Z) : M St unit :=
  fun s => (Ret tt, (time_sleep H secs s.1, s.2), [EvSleep secs]).

Definition now : M St datetime := read_world (datetime_now H).

Definition requests (m : http_method) (url : cf_url) (token : option str)
    (payload : option json) : M St response :=
  let* r := in_world (cloudflare H m url token payload) (EvCloudflare m url token payload) in
  lift r.

(** [discord_notify(message, webhook_url)]. *)
Definition discord_notify (message : str) (webhook_url : option str) : M St bool :=
  let webhook :=
    if truthy_opt webhook_url then webhook_url
    else ENV !! u "DISCORD_BACKUP_WEBHOOK" in
  match webhook with
  | Some url =>
      if truthy_str url then
        let payload := JDict [(u "content", JStr message)] in
        try_except_Exception
          (let* r := in_sink (webhook_post H url payload) (EvNotify url payload) in
           let* status := lift r in
           ret (status =? 204)%Z)
          (fun e =>
             print (u "⚠️  Discord notification failed: " ++ exn_str e) >>
             ret false)
      else
        print (u "⚠️  No Discord webhook configured, skipping notification") >>
        ret false
  | None =>
      print (u "⚠️  No Discord webhook configured, skipping notification") >>
      ret false
  end.

(** [run_provider_cmd(provider, cmd, *args)]. *)
Definition run_provider_cmd (p : provider) (cmd : str) (args : list str)
    : M St (str * str * Z) :=
  in_world (provider_proc H p (cmd :: args)) (EvProvider p (cmd :: args)).

(** [get_vm_ip(provider, name)]. *)
Definition get_vm_ip (p : provider) (name : str) : M St (option str) :=
  let* (stdout, _, _) := run_provider_cmd p (u "list") [] in
  ret (ip_of_listing stdout name).

Definition dns_record (name ip : str) : json :=
  JDict [(u "type", JStr (u "A")); (u "name", JStr name); (u "content", JStr ip);
         (u "ttl", JInt 300); (u "proxied", JBool false)].

(** [create_dns(name, ip)]; the value returned is used for its truthiness. *)
Definition create_dns (name ip : str) : M St json :=
  let token := ENV !! u "CLOUDFLARE_API_TOKEN" in
  if negb (truthy_opt token) then
    print (u "❌ CLOUDFLARE_API_TOKEN not found") >>
    ret (JBool false)
  else
    let* r := requests GET (DnsRecordsByName (name ++ u ".giobi.com")) token None in
    let* j := lift (response_json r) in
    let* existing := lift (py_get j (u "result") (JList [])) in
    let* r :=
      if truthy existing then
        let* first := lift (py_index0 existing) in
        let* record_id := lift (py_getitem first (u "id")) in
        requests PUT (DnsRecord record_id) token (Some (dns_record name ip))
      else
        requests POST DnsRecords token (Some (dns_record name ip)) in
    let* j := lift (response_json r) in
    lift (py_get j (u "success") (JBool false)).

(** [delete_dns(name)]. *)
Definition delete_dns (name : str) : M St bool :=
  let token := ENV !! u "CLOUDFLARE_API_TOKEN" in
  let* r := requests GET (DnsRecordsByName (name ++ u ".giobi.com")) token None in
  let* j := lift (response_json r) in
  let* existing := lift (py_get j (u "result") (JList [])) in
  if truthy existing then
    let* first := lift (py_index0 existing) in
    let* record_id := lift (py_getitem first (u "id")) in
    let* _ := requests DELETE (DnsRecord record_id) token None in
    ret true
  else ret false.

(** The loop of [wait_for_ssh]; [fuel] bounds the iterations of the model. *)
Fixpoint wait_for_ssh_loop (fuel : nat) (host : str) (timeout start : Z) : M St bool :=
  match fuel with
  | O => diverge
  | S fuel' =>
      let* t := read_world (time_time H) in
      if (t - start <? timeout * 1000000)%Z then
        let* found :=
          try_except
            (let* r := in_world (connect_ex H host 22) (EvConnect host 22) in
             let* code := lift r in
             ret (code =? 0)%Z)
            (ret false) in
        if found then ret true
        else sleep 5 >> wait_for_ssh_loop fuel' host timeout start
      else ret false
  end.

(** [wait_for_ssh(host, timeout=120)]. *)
Definition wait_for_ssh (fuel : nat) (host : str) (timeout : Z) : M St bool :=
  let* start := read_world (time_time H) in
  wait_for_ssh_loop fuel host timeout start.

(** [ssh_run(host, cmd, user='root')]. *)
Definition ssh_run (host cmd : str) (user : str) : M St (str * str * Z) :=
  in_world (ssh_proc H (user ++ u "@" ++ host) cmd) (EvSsh (user ++ u "@" ++ host) cmd).

(** The shell texts of [bootstrap_node]. *)
Definition setup_user : str := u "
useradd -m -s /bin/bash giobi 2>/dev/null || true
usermod -aG sudo giobi
echo 'giobi ALL=(ALL) NOPASSWD:ALL' > /etc/sudoers.d/giobi
chmod 440 /etc/sudoers.d/giobi
mkdir -p /home/giobi/.ssh
curl -s https://github.com/giobi.keys > /home/giobi/.ssh/authorized_keys
chmod 700 /home/giobi/.ssh
chmod 600 /home/giobi/.ssh/authorized_keys
chown -R giobi:giobi /home/giobi/.ssh
".

Definition env_content (name hostname provider github_token discord_webhook created : str) : str :=
  u "# " ++ name ++ u " backup node config
NODE_NAME=" ++ name ++ u "
HOSTNAME=" ++ hostname ++ u "
PROVIDER=" ++ provider ++ u "
GITHUB_TOKEN=" ++ github_token ++ u "
DISCORD_WEBHOOK_URL=" ++ discord_webhook ++ u "
CREATED=" ++ created ++ u "
".

Definition daily_script : str := u "#!/bin/bash
source /home/giobi/.env

# Run backup
cd /home/giobi/gitbackup
./backup.sh > /tmp/backup.log 2>&1
RESULT=$?

# Count repos
REPOS=$(ls -1 /home/giobi/backup 2>/dev/null | wc -l)
DISK=$(df -h / | awk 'NR==2 {print $3 " ++ dq ++ u "/" ++ dq ++ u " $2}')
UPTIME=$(uptime -p)

# Send heartbeat to Discord
if [ -n " ++ dq ++ u "$DISCORD_WEBHOOK_URL" ++ dq ++ u " ]; then
    if [ $RESULT -eq 0 ]; then
        MSG=" ++ dq ++ u "💚 **$NODE_NAME** heartbeat | $REPOS repos | Disk: $DISK | $UPTIME" ++ dq ++ u "
    else
        MSG=" ++ dq ++ u "💔 **$NODE_NAME** backup FAILED | Check logs" ++ dq ++ u "
    fi
    curl -s -H " ++ dq ++ u "Content-Type: application/json" ++ dq ++ u " -d " ++ dq ++ u "{\" ++ dq ++ u "content\" ++ dq ++ u ": \" ++ dq ++ u "$MSG\" ++ dq ++ u "}" ++ dq ++ u " " ++ dq ++ u "$DISCORD_WEBHOOK_URL" ++ dq ++ u "
fi
".

Definition system_script : str := u "#!/bin/bash
cat << EOFJ > /var/www/html/system.json
{
  " ++ dq ++ u "hostname" ++ dq ++ u ": " ++ dq ++ u "$(hostname)" ++ dq ++ u ",
  " ++ dq ++ u "uptime" ++ dq ++ u ": " ++ dq ++ u "$(uptime -p)" ++ dq ++ u ",
  " ++ dq ++ u "load" ++ dq ++ u ": " ++ dq ++ u "$(cat /proc/loadavg | cut -d' ' -f1-3)" ++ dq ++ u ",
  " ++ dq ++ u "memory_mb" ++ dq ++ u ": {
    " ++ dq ++ u "total" ++ dq ++ u ": $(free -m | awk '/Mem:/ {print $2}'),
    " ++ dq ++ u "used" ++ dq ++ u ": $(free -m | awk '/Mem:/ {print $3}'),
    " ++ dq ++ u "free" ++ dq ++ u ": $(free -m | awk '/Mem:/ {print $4}')
  },
  " ++ dq ++ u "disk_gb" ++ dq ++ u ": {
    " ++ dq ++ u "total" ++ dq ++ u ": $(df -BG / | awk 'NR==2 {print $2}' | tr -d 'G'),
    " ++ dq ++ u "used" ++ dq ++ u ": $(df -BG / | awk 'NR==2 {print $3}' | tr -d 'G'),
    " ++ dq ++ u "free" ++ dq ++ u ": $(df -BG / | awk 'NR==2 {print $4}' | tr -d 'G')
  },
  " ++ dq ++ u "repos" ++ dq ++ u ": $(ls -1 /home/giobi/backup 2>/dev/null | wc -l),
  " ++ dq ++ u "ip" ++ dq ++ u ": " ++ dq ++ u "$(hostname -I | awk '{print $1}')" ++ dq ++ u ",
  " ++ dq ++ u "updated" ++ dq ++ u ": " ++ dq ++ u "$(date -Iseconds)" ++ dq ++ u "
}
EOFJ
".

Definition nginx_conf (name : str) : str := u "server {
    listen 80 default_server;
    root /var/www/html;
    server_name _;

    location /env { alias /var/www/html/env.json; default_type application/json; }
    location /system { alias /var/www/html/system.json; default_type application/json; }
    location / { return 200 '{" ++ dq ++ u "node" ++ dq ++ u ": " ++ dq ++ name ++ dq ++ u ", " ++ dq ++ u "endpoints" ++ dq ++ u ": [" ++ dq ++ u "/env" ++ dq ++ u ", " ++ dq ++ u "/system" ++ dq ++ u "]}'; default_type application/json; }
}".

(** [f"cat > {path} << 'EOF'\n{text}\nEOF"]. *)
Definition heredoc (path text : str) : str :=
  u "cat > " ++ path ++ u " << 'EOF'
" ++ text ++ u "
EOF".

(** The dictionary behind the identity document [/var/www/html/env.json]. *)
Definition env_dict (name hostname : str) (p : provider) (created : str) : json :=
  JDict [(u "node", JStr name);
         (u "hostname", JStr hostname);
         (u "provider", JStr (provider_name p));
         (u "zone", JStr (zone (PROVIDERS p)));
         (u "type", JStr (type_ (PROVIDERS p)));
         (u "purpose", JStr (u "gitbackup-node"));
         (u "cost_monthly_eur", cost (PROVIDERS p));
         (u "created", JStr created);
         (u "owner", JStr (u "giobi"));
         (u "ssh", JStr (u "giobi@" ++ hostname));
         (u "services", JList [JStr (u "gitbackup"); JStr (u "heartbeat")]);
         (u "status", JStr (u "active"))].

Definition gitbackup_dict (github_token : str) : json :=
  JDict [(u "github_token", JStr github_token);
         (u "github_username", JStr (u "giobi"));
         (u "backup_dir", JStr (u "/home/giobi/backup"))].

(** [ENV.get(key, '')]. *)
Definition env_get (key : str) : str :=
  match ENV !! key with Some v => v | None => [] end.

(** [bootstrap_node(name, ip, provider)]: every [ssh_run] result is dropped. *)
Definition bootstrap_node (name ip : str) (p : provider) : M St bool :=
  let hostname := name ++ u ".giobi.com" in
  let root := u "root" in
  print (u "🔧 Bootstrapping " ++ hostname ++ u "...") >>
  (* Create user giobi with sudo *)
  ssh_run ip setup_user root >>
  print (u "  ✅ User giobi created") >>
  (* Install packages *)
  ssh_run ip (u "apt-get update -qq && apt-get install -y -qq git curl nginx python3-requests") root >>
  print (u "  ✅ Packages installed") >>
  (* Set hostname *)
  ssh_run ip (u "hostnamectl set-hostname " ++ name) root >>
  (* Create .env with tokens *)
  let discord_webhook := env_get (u "DISCORD_BACKUP_WEBHOOK") in
  let github_token := env_get (u "GITHUB_TOKEN") in
  let* created := now in
  ssh_run ip (heredoc (u "/home/giobi/.env")
                (env_content name hostname (provider_name p) github_token discord_webhook
                   (isoformat created))) root >>
  ssh_run ip (u "chown giobi:giobi /home/giobi/.env && chmod 600 /home/giobi/.env") root >>
  print (u "  ✅ .env configured") >>
  (* Clone gitbackup *)
  ssh_run ip (u "sudo -u giobi git clone https://github.com/giobi/gitbackup.git /home/giobi/gitbackup 2>/dev/null || true") root >>
  ssh_run ip (u "mkdir -p /home/giobi/backup && chown giobi:giobi /home/giobi/backup") root >>
  print (u "  ✅ gitbackup cloned") >>
  (* Create daily backup script with Discord notification *)
  ssh_run ip (heredoc (u "/home/giobi/daily-backup.sh") daily_script) root >>
  ssh_run ip (u "chmod +x /home/giobi/daily-backup.sh && chown giobi:giobi /home/giobi/daily-backup.sh") root >>
  (* Setup cron *)
  ssh_run ip (u "(crontab -u giobi -l 2>/dev/null; echo " ++ dq ++ u "0 3 * * * /home/giobi/daily-backup.sh" ++ dq ++ u ") | crontab -u giobi -") root >>
  print (u "  ✅ Daily backup cron configured") >>
  (* Setup /env and /system endpoints *)
  let* today := now in
  let env_json := dumps (Some 2%nat) (env_dict name hostname p (strftime_ymd today)) in
  ssh_run ip (heredoc (u "/var/www/html/env.json") env_json) root >>
  (* System JSON update script *)
  ssh_run ip (heredoc (u "/usr/local/bin/update-system-json.sh") system_script) root >>
  ssh_run ip (u "chmod +x /usr/local/bin/update-system-json.sh && /usr/local/bin/update-system-json.sh") root >>
  ssh_run ip (u "(crontab -l 2>/dev/null; echo " ++ dq ++ u "*/5 * * * * /usr/local/bin/update-system-json.sh" ++ dq ++ u ") | crontab -") root >>
  (* Nginx config *)
  ssh_run ip (heredoc (u "/etc/nginx/sites-available/default") (nginx_conf name)) root >>
  ssh_run ip (u "nginx -t && systemctl reload nginx") root >>
  print (u "  ✅ Nginx endpoints configured") >>
  (* Configure gitbackup *)
  let gitbackup_config := dumps None (gitbackup_dict github_token) in
  ssh_run ip (heredoc (u "/home/giobi/gitbackup/env.json") gitbackup_config) root >>
  ssh_run ip (u "chown giobi:giobi /home/giobi/gitbackup/env.json && chmod 600 /home/giobi/gitbackup/env.json") root >>
  print (u "  ✅ gitbackup configured") >>
  ret true.

(** The loop [for _ in range(12)] of [spawn_node]: [n] iterations are left and
    [last] is the current value of [ip]. *)
Fixpoint poll_ip (n : nat) (last : option str) (p : provider) (name : str)
    : M St (option str) :=
  match n with
  | O => ret last
  | S n' =>
      let* ip := get_vm_ip p name in
      if truthy_opt ip then ret ip
      else sleep 5 >> poll_ip n' ip p name
  end.

(** [spawn_node(name, provider)]. *)
Definition spawn_node (fuel : nat) (name : str) (p : provider) : M St bool :=
  print (u "
🚀 Spawning " ++ name ++ u " on " ++ provider_name p ++ u "...
") >>
  (* 1. Create VM *)
  print (u "1️⃣  Creating VM...") >>
  let* (stdout, stderr, code) := run_provider_cmd p (u "create") [name] in
  print stdout >>
  if negb (code =? 0)%Z then
    print (u "❌ Failed to create VM: " ++ stderr) >>
    ret false
  else
  (* 2. Wait for VM and get IP *)
  print (u "2️⃣  Waiting for VM to start...") >>
  sleep 15 >>
  let* ip := poll_ip 12 None p name in
  match ip with
  | None =>
      print (u "❌ Could not get VM IP") >>
      ret false
  | Some ip =>
  if negb (truthy_str ip) then
    print (u "❌ Could not get VM IP") >>
    ret false
  else
  print (u "   IP: " ++ ip) >>
  (* 3. Create DNS *)
  print (u "3️⃣  Creating DNS " ++ name ++ u ".giobi.com...") >>
  let* created := create_dns name ip in
  (if truthy created then print (u "   ✅ DNS created")
   else print (u "   ⚠️  DNS creation failed (may already exist)")) >>
  (* 4. Wait for SSH *)
  print (u "4️⃣  Waiting for SSH...") >>
  let* up := wait_for_ssh fuel ip 120 in
  if negb up then
    print (u "❌ SSH timeout") >>
    ret false
  else
  print (u "   ✅ SSH ready") >>
  sleep 5 >>
  (* 5. Bootstrap *)
  print (u "5️⃣  Bootstrapping node...") >>
  let* ok := bootstrap_node name ip p in
  if negb ok then
    print (u "❌ Bootstrap failed") >>
    ret false
  else
  (* 6. Notify *)
  let hostname := name ++ u ".giobi.com" in
  let msg := u "🟢 **" ++ name ++ u "** is ALIVE!
• Provider: " ++ provider_name p ++ u "
• IP: " ++ ip ++ u "
• SSH: `ssh giobi@" ++ hostname ++ u "`
• Endpoints: http://" ++ hostname ++ u "/env" in
  discord_notify msg None >>
  print (u "
✅ " ++ hostname ++ u " is ready!") >>
  print (u "   SSH: ssh giobi@" ++ hostname) >>
  print (u "   Web: http://" ++ hostname ++ u "/env") >>
  ret true
  end.

(** [destroy_node(name, provider)]. *)
Definition destroy_node (name : str) (p : provider) : M St bool :=
  let hostname := name ++ u ".giobi.com" in
  print (u "
🗑️  Destroying " ++ hostname ++ u "...
") >>
  (* Notify before destruction *)
  discord_notify (u "🔴 **" ++ name ++ u "** shutting down...") None >>
  (* Get IP for final info *)
  let* ip := get_vm_ip p name in
  (* Destroy VM *)
  let* (stdout, stderr, code) := run_provider_cmd p (u "destroy") [] in
  print stdout >>
  (* Delete DNS *)
  delete_dns name >>
  print (u "   ✅ DNS deleted") >>
  (* Final notification *)
  let was := match ip with
             | Some a => if truthy_str a then a else u "unknown"
             | None => u "unknown"
             end in
  discord_notify (u "💀 **" ++ name ++ u "** destroyed
• Was at: " ++ was) None >>
  print (u "
✅ " ++ hostname ++ u " destroyed") >>
  ret true.

(** The parsed command line: [args.name], [args.provider], [args.destroy]. *)
Record cli_args := CliArgs {
  arg_name : str; arg_provider : provider; arg_destroy : bool
}.

(** [main()] after [parser.parse_args()]: the value the lifecycle returns is
    dropped. *)
Definition main (fuel : nat) (args : cli_args) : M St unit :=
  if arg_destroy args then
    destroy_node (arg_name args) (arg_provider args) >> ret tt
  else
    spawn_node fuel (arg_name args) (arg_provider args) >> ret tt.

End Orchestrator.

(** The exit status of the interpreter after [main()]: 0 when it returned, 1
    after an uncaught exception, the argument of [sys.exit]; none while the
    process is still running. *)
Definition exit_status {A} (r : outcome A) : option Z :=
  match r with
  | Ret _ => Some 0%Z
  | Raise _ => Some 1%Z
  | Exit c => Some c
  | Diverge => None
  end.

End SpawnNode.

(** ** The provider scripts *)

(** Everything a provider script reaches outside the process; [C] is the state
    of the vendor's API and of the file system.
    - [http m url token payload]: the [requests] call of [api_request], with
      the credential [token] in its header; [inl e] when it raises;
    - [path_exists path]: [Path(path).exists()];
    - [open_file path]: [open(path)], and inside it what [f.read()] gives;
    - [repr]: Python's rendering of a list or dictionary inside an f-string. *)
Record cloud (C : Type) := Cloud {
  http : http_method -> str -> str -> option json -> C -> (exn + response) * C;
  path_exists : str -> C -> bool * C;
  open_file : str -> C -> (exn + (exn + str)) * C;
  cloud_sleep : Z -> C -> C;
  repr : json -> str
}.
Arguments http {C} _ _ _ _ _ _.
Arguments path_exists {C} _ _ _.
Arguments open_file {C} _ _ _.
Arguments cloud_sleep {C} _ _ _.
Arguments repr {C} _ _.

(** [for x in l: f x]. *)
Fixpoint for_each {S A} (l : list A) (f : A -> M S unit) : M S unit :=
  match l with
  | [] => ret tt
  | x :: l' => f x >> for_each l' f
  end.

(** [for s in servers: if s["name"] == name: server_id = s["id"]; break]. *)
Fixpoint find_server (name : str) (servers : list json) (server_id : json) : exn + json :=
  match servers with
  | [] => inr server_id
  | s :: rest =>
      match py_getitem s (u "name") with
      | inl e => inl e
      | inr n => if py_eq_str n name then py_getitem s (u "id")
                 else find_server name rest server_id
      end
  end.

(** [sys.argv[2] if len(sys.argv) > 2 else None]. *)
Definition argv2 (argv : list str) : option str :=
  match argv with
  | _ :: _ :: a :: _ => Some a
  | _ => None
  end.

Definition opt_json (o : option str) : json :=
  match o with
  | Some s => JStr s
  | None => JNull
  end.

Definition ValueError_ (msg : str) : exn := Exn (u "ValueError") msg.

Definition method_name (m : http_method) : str :=
  match m with
  | GET => u "GET"
  | POST => u "POST"
  | PUT => u "PUT"
  | DELETE => u "DELETE"
  end.

Module Scaleway.

(** The value of a line that starts with [key=]: [line.strip().split('=', 1)[1]]
    without the quotes around it. *)
Definition line_value (line : str) : exn + str :=
  match split1 61 (strip line) with
  | _ :: v :: _ => inr (strip_chars quotes v)
  | _ => inl IndexError_
  end.

Definition keys : list str :=
  [u "SCALEWAY_ACCESS_KEY"; u "SCALEWAY_SECRET_KEY";
   u "SCALEWAY_ORGANIZATION_ID"; u "SCALEWAY_PROJECT_ID"].

(** [for key in keys: if line.startswith(f'{key}='): creds[key] = ...]. *)
Fixpoint load_keys (ks : list str) (creds : gmap str str) (line : str)
    : exn + gmap str str :=
  match ks with
  | [] => inr creds
  | key :: rest =>
      if startswith (key ++ u "=") line then
        match line_value line with
        | inl e => inl e
        | inr v => load_keys rest (<[key := v]> creds) line
        end
      else load_keys rest creds line
  end.

Fixpoint load_lines (creds : gmap str str) (lines : list str) : exn + gmap str str :=
  match lines with
  | [] => inr creds
  | line :: rest =>
      match load_keys keys creds line with
      | inl e => inl e
      | inr creds' => load_lines creds' rest
      end
  end.

Fixpoint load_files (fs : str -> file) (locations : list str) (creds : gmap str str)
    : exn + gmap str str :=
  match locations with
  | [] => inr creds
  | loc :: rest =>
      match fs loc with
      | NoFile => load_files fs rest creds
      | Unreadable e => inl e
      | Lines ls =>
          match load_lines creds ls with
          | inl e => inl e
          | inr creds' => load_files fs rest creds'
          end
      | Broken ls e =>
          match load_lines creds ls with
          | inl e' => inl e'
          | inr _ => inl e
          end
      end
  end.

(** [for key in keys: if key not in creds: creds[key] = os.environ.get(key)]
    (a key bound to [None] is a missing key here). *)
Fixpoint fallback (environ : gmap str str) (ks : list str) (creds : gmap str str)
    : gmap str str :=
  match ks with
  | [] => creds
  | key :: rest =>
      fallback environ rest
        (match creds !! key with
         | Some _ => creds
         | None => match environ !! key with
                   | Some v => <[key := v]> creds
                   | None => creds
                   end
         end)
  end.

(** [load_env()]; [repo] is [Path(__file__).parent.parent / '.env'] and
    [home] is [Path.home() / '.env']. *)
Definition load_env (fs : str -> file) (repo home : str) (environ : gmap str str)
    : exn + gmap str str :=
  match load_files fs [repo; u "/home/claude/brain/.env"; home] ∅ with
  | inl e => inl e
  | inr creds => inr (fallback environ keys creds)
  end.

Section Script.
Context {C : Type}.
(** The vendor, and [CREDS], the dictionary [load_env()] built at import time
    (a key bound to [None] is a missing key here). *)
Variable K : cloud C.
Variable CREDS : gmap str str.

Definition BASE_URL : str := u "https://api.scaleway.com/instance/v1/zones/fr-par-1".
Definition BLOCK_URL : str := u "https://api.scaleway.com/block/v1/zones/fr-par-1".

Definition VM_CONFIG : list (str * json) :=
  [(u "name", JStr (u "gitbackup-node"));
   (u "commercial_type", JStr (u "STARDUST1-S"));
   (u "image", JStr (u "ubuntu_jammy"));
   (u "dynamic_ip_required", JBool true)].

Definition fmt (j : json) : str := py_str (repr K) j.

Definition sleep (secs : Z) : M C unit :=
  fun c => (Ret tt, cloud_sleep K secs c, [EvSleep secs]).

Definition request (m : http_method) (url token : str) (payload : option json)
    : M C response :=
  fun c =>
    match http K m url token payload c with
    | (inr r, c') => (Ret r, c', [EvApi m url payload (inr r)])
    | (inl e, c') => (Raise e, c', [EvApi m url payload (inl e)])
    end.

(** [api_request(method, endpoint, data, base_url)]. *)
Definition api_request (method : http_method) (endpoint : str)
    (data : option json) (base_url : option str) : M C json :=
  match CREDS !! u "SCALEWAY_SECRET_KEY" with
  | Some token =>
      if truthy_str token then
        let url := (match base_url with
                    | Some b => if truthy_str b then b else BASE_URL
                    | None => BASE_URL
                    end) ++ u "/" ++ endpoint in
        let* r :=
          match method with
          | GET => request GET url token None
          | POST => request POST url token data
          | DELETE => request DELETE url token None
          | PUT => raise (ValueError_ (u "Unknown method: " ++ method_name method))
          end in
        if (400 <=? status_code r)%Z then
          print (u "❌ API Error " ++ dec (status_code r) ++ u ": " ++ text r) >>
          sys_exit 1
        else if truthy_str (text r) then lift (response_json r)
        else ret (JDict [])
      else
        print (u "❌ SCALEWAY_SECRET_KEY not found in .env") >> sys_exit 1
  | None =>
      print (u "❌ SCALEWAY_SECRET_KEY not found in .env") >> sys_exit 1
  end.

(** [list_servers()]. *)
Definition list_servers : M C unit :=
  let* data := api_request GET (u "servers") None None in
  let* servers := lift (py_get data (u "servers") (JList [])) in
  if negb (truthy servers) then print (u "No servers found")
  else
    print (u "
" ++ ljust 20 (u "Name") ++ u " " ++ ljust 12 (u "State") ++ u " "
       ++ ljust 16 (u "IP") ++ u " " ++ ljust 15 (u "Type")) >>
    print (repeat 45 65) >>
    let* items := lift (py_iter servers) in
    for_each items (fun s =>
      let* pub := lift (py_get s (u "public_ip") JNull) in
      let* ip :=
        if truthy pub then
          let* d := lift (py_get s (u "public_ip") (JDict [])) in
          lift (py_get d (u "address") (JStr (u "N/A")))
        else ret (JStr (u "N/A")) in
      let* name := lift (py_getitem s (u "name")) in
      let* c1 := lift (py_format_left 20 name) in
      let* state := lift (py_getitem s (u "state")) in
      let* c2 := lift (py_format_left 12 state) in
      let* c3 := lift (py_format_left 16 ip) in
      let* ty := lift (py_getitem s (u "commercial_type")) in
      let* c4 := lift (py_format_left 15 ty) in
      print (c1 ++ u " " ++ c2 ++ u " " ++ c3 ++ u " " ++ c4)).

(** [create_server(cloud_init_file)]; the value returned is not used. *)
Definition create_server (cloud_init_file : option str) : M C json :=
  let config := VM_CONFIG in
  let config :=
    if truthy_opt (CREDS !! u "SCALEWAY_PROJECT_ID") then
      dict_set (u "project") (opt_json (CREDS !! u "SCALEWAY_PROJECT_ID")) config
    else if truthy_opt (CREDS !! u "SCALEWAY_ORGANIZATION_ID") then
      dict_set (u "organization") (opt_json (CREDS !! u "SCALEWAY_ORGANIZATION_ID")) config
    else config in
  (* Load cloud-init if provided *)
  (match cloud_init_file with
   | Some path =>
       if truthy_str path then
         let* there := (fun c => let '(b, c') := path_exists K path c in
                                 (Ret b, c', [EvExists path b])) in
         if there : bool then
           let* f := (fun c => let '(r, c') := open_file K path c in
                               (Ret r, c', [EvOpen path r])) in
           let* _ := lift f in
           ret tt
         else ret tt
       else ret tt
   | None => ret tt
   end) >>
  let* name := lift (py_getitem (JDict config) (u "name")) in
  let* ty := lift (py_getitem (JDict config) (u "commercial_type")) in
  print (u "🚀 Creating server: " ++ fmt name ++ u " (" ++ fmt ty ++ u ")") >>
  let* data := api_request POST (u "servers") (Some (JDict config)) None in
  let* server := lift (py_get data (u "server") (JDict [])) in
  print (u "✅ Server created!") >>
  let* id := lift (py_get server (u "id") JNull) in
  print (u "   ID: " ++ fmt id) >>
  let* state := lift (py_get server (u "state") JNull) in
  print (u "   State: " ++ fmt state) >>
  (* Need to start the server after creation *)
  (if truthy id then
     print (u "🔄 Starting server...") >>
     let* id := lift (py_getitem server (u "id")) in
     api_request POST (u "servers/" ++ fmt id ++ u "/action")
       (Some (JDict [(u "action", JStr (u "poweron"))])) None >>
     print (u "✅ Server starting...")
   else ret tt) >>
  ret server.

(** [for vol in volumes.values(): if vol.get("volume_type") == "sbs_volume":
    volume_ids.append(vol.get("id"))]. *)
Fixpoint sbs_volume_ids (vols : list json) : exn + list json :=
  match vols with
  | [] => inr []
  | vol :: rest =>
      match py_get vol (u "volume_type") JNull with
      | inl e => inl e
      | inr ty =>
          if py_eq_str ty (u "sbs_volume") then
            match py_get vol (u "id") JNull with
            | inl e => inl e
            | inr id =>
                match sbs_volume_ids rest with
                | inl e => inl e
                | inr ids => inr (id :: ids)
                end
            end
          else sbs_volume_ids rest
      end
  end.

(** The loop [for i in range(30)] of [destroy_server]: [n] iterations left. *)
Fixpoint wait_stopped (n : nat) (server_id : json) : M C unit :=
  match n with
  | O => ret tt
  | S n' =>
      sleep 1 >>
      let* data := api_request GET (u "servers/" ++ fmt server_id) None None in
      let* server := lift (py_get data (u "server") (JDict [])) in
      let* state := lift (py_get server (u "state") JNull) in
      if py_eq_str state (u "stopped") then ret tt
      else
        print (u "   Waiting... (" ++ fmt state ++ u ")") >>
        wait_stopped n' server_id
  end.

(** [destroy_server(server_id, cleanup_volumes)]. *)
Definition destroy_server (server_id : json) (cleanup_volumes : bool) : M C unit :=
  let* server_id :=
    if negb (truthy server_id) then
      (* Find gitbackup-node *)
      let* data := api_request GET (u "servers") None None in
      let* servers := lift (py_get data (u "servers") (JList [])) in
      let* items := lift (py_iter servers) in
      lift (find_server (u "gitbackup-node") items server_id)
    else ret server_id in
  if negb (truthy server_id) then print (u "❌ No server found to destroy")
  else
    (* Get volume IDs before destroying *)
    let* volume_ids :=
      if cleanup_volumes then
        let* server := api_request GET (u "servers/" ++ fmt server_id) None None in
        let* inner := lift (py_get server (u "server") (JDict [])) in
        let* volumes := lift (py_get inner (u "volumes") (JDict [])) in
        let* vols := lift (py_values volumes) in
        lift (sbs_volume_ids vols)
      else ret [] in
    (* First poweroff *)
    print (u "⏹️  Powering off server " ++ fmt server_id ++ u "...") >>
    try_except
      (api_request POST (u "servers/" ++ fmt server_id ++ u "/action")
         (Some (JDict [(u "action", JStr (u "poweroff"))])) None >> ret tt)
      (ret tt) >>
    (* Wait for poweroff to complete *)
    wait_stopped 30 server_id >>
    print (u "🗑️  Destroying server " ++ fmt server_id ++ u "...") >>
    api_request DELETE (u "servers/" ++ fmt server_id) None None >>
    print (u "✅ Server destroyed") >>
    (* Cleanup orphan SBS volumes *)
    if cleanup_volumes && match volume_ids with [] => false | _ => true end then
      print (u "⏳ Waiting for volumes to detach...") >>
      sleep 5 >>
      for_each volume_ids (fun vol_id =>
        print (u "🗑️  Deleting orphan volume " ++ fmt vol_id ++ u "...") >>
        try_except
          (api_request DELETE (u "volumes/" ++ fmt vol_id) None (Some BLOCK_URL) >>
           print (u "✅ Volume " ++ fmt vol_id ++ u " deleted"))
          (print (u "⚠️  Could not delete volume " ++ fmt vol_id
                  ++ u " (may need manual cleanup)")))
    else ret tt.

(** [create_snapshot(server_id)]. *)
Definition create_snapshot (server_id : json) : M C unit :=
  let* server_id :=
    if negb (truthy server_id) then
      let* data := api_request GET (u "servers") None None in
      let* servers := lift (py_get data (u "servers") (JList [])) in
      let* items := lift (py_iter servers) in
      lift (find_server (u "gitbackup-node") items server_id)
    else ret server_id in
  if negb (truthy server_id) then print (u "❌ No server found to snapshot")
  else
    (* Get server details for volume ID *)
    let* server := api_request GET (u "servers/" ++ fmt server_id) None None in
    let* inner := lift (py_get server (u "server") (JDict [])) in
    let* volumes := lift (py_get inner (u "volumes") (JDict [])) in
    if negb (truthy volumes) then print (u "❌ No volumes found on server")
    else
      (* Snapshot each volume *)
      let* items := lift (py_items volumes) in
      for_each items (fun '(vol_key, vol) =>
        let* vol_id := lift (py_get vol (u "id") JNull) in
        let* vol_type := lift (py_get vol (u "volume_type") (JStr (u "l_ssd"))) in
        print (u "📸 Creating snapshot of volume " ++ fmt vol_id ++ u " (type: "
               ++ fmt vol_type ++ u ")...") >>
        let snapshot_data :=
          [(u "volume_id", vol_id); (u "name", JStr (u "gitbackup-snapshot-" ++ vol_key))] in
        if py_eq_str vol_type (u "sbs_volume") then
          (* Use Block Storage API for SBS volumes *)
          let snapshot_data :=
            if truthy_opt (CREDS !! u "SCALEWAY_PROJECT_ID") then
              dict_set (u "project_id") (opt_json (CREDS !! u "SCALEWAY_PROJECT_ID")) snapshot_data
            else snapshot_data in
          let* data := api_request POST (u "snapshots") (Some (JDict snapshot_data)) (Some BLOCK_URL) in
          let* snap := lift (py_get data (u "snapshot") (JDict [])) in
          let* id := lift (py_get snap (u "id") JNull) in
          print (u "✅ SBS Snapshot created: " ++ fmt id)
        else
          (* Use Instance API for local volumes *)
          let snapshot_data :=
            if truthy_opt (CREDS !! u "SCALEWAY_PROJECT_ID") then
              dict_set (u "project") (opt_json (CREDS !! u "SCALEWAY_PROJECT_ID")) snapshot_data
            else snapshot_data in
          let* data := api_request POST (u "snapshots") (Some (JDict snapshot_data)) None in
          let* snap := lift (py_get data (u "snapshot") (JDict [])) in
          let* id := lift (py_get snap (u "id") JNull) in
          print (u "✅ Local Snapshot created: " ++ fmt id)).

(** [main()], with [sys.argv] as argument. *)
Definition main (argv : list str) : M C unit :=
  match argv with
  | _ :: cmd :: _ =>
      if bool_decide (cmd = u "list") then list_servers
      else if bool_decide (cmd = u "create") then create_server (argv2 argv) >> ret tt
      else if bool_decide (cmd = u "destroy") then destroy_server (opt_json (argv2 argv)) true
      else if bool_decide (cmd = u "snapshot") then create_snapshot (opt_json (argv2 argv))
      else print (u "Unknown command: " ++ cmd) >> sys_exit 1
  | _ =>
      print (u "Usage: scaleway.py <command>") >>
      print (u "Commands: list, create, destroy, snapshot") >>
      sys_exit 1
  end.

End Script.
End Scaleway.

Module Hetzner.

(** The loop over the lines of a file in [load_env]: the first line that
    starts with [HETZNER_API_TOKEN=] decides. *)
Fixpoint first_token (lines : list str) : exn + option str :=
  match lines with
  | [] => inr None
  | line :: rest =>
      if startswith (u "HETZNER_API_TOKEN=") line then
        match split1 61 (strip line) with
        | _ :: v :: _ => inr (Some (strip_chars quotes v))
        | _ => inl IndexError_
        end
      else first_token rest
  end.

Fixpoint load_files (fs : str -> file) (locations : list str) : exn + option str :=
  match locations with
  | [] => inr None
  | loc :: rest =>
      match fs loc with
      | NoFile => load_files fs rest
      | Unreadable e => inl e
      | Lines ls =>
          match first_token ls with
          | inl e => inl e
          | inr (Some t) => inr (Some t)
          | inr None => load_files fs rest
          end
      | Broken ls e =>
          match first_token ls with
          | inl e' => inl e'
          | inr (Some t) => inr (Some t)
          | inr None => inl e
          end
      end
  end.

(** [load_env()]; [repo] is [Path(__file__).parent.parent / '.env'] and
    [home] is [Path.home() / '.env']. *)
Definition load_env (fs : str -> file) (repo home : str) (environ : gmap str str)
    : exn + option str :=
  match load_files fs [repo; u "/home/claude/brain/.env"; home] with
  | inl e => inl e
  | inr (Some t) => inr (Some t)
  | inr None => inr (environ !! u "HETZNER_API_TOKEN")
  end.

Section Script.
Context {C : Type}.
(** The vendor, and [API_TOKEN], what [load_env()] found at import time. *)
Variable K : cloud C.
Variable API_TOKEN : option str.

Definition BASE_URL : str := u "https://api.hetzner.cloud/v1".

Definition VM_CONFIG : list (str * json) :=
  [(u "name", JStr (u "gitbackup-node"));
   (u "server_type", JStr (u "cx22"));
   (u "image", JStr (u "ubuntu-22.04"));
   (u "location", JStr (u "fsn1"));
   (u "start_after_create", JBool true)].

Definition fmt (j : json) : str := py_str (repr K) j.

Definition request (m : http_method) (url token : str) (payload : option json)
    : M C response :=
  fun c =>
    match http K m url token payload c with
    | (inr r, c') => (Ret r, c', [EvApi m url payload (inr r)])
    | (inl e, c') => (Raise e, c', [EvApi m url payload (inl e)])
    end.

(** [api_request(method, endpoint, data)]. *)
Definition api_request (method : http_method) (endpoint : str)
    (data : option json) : M C json :=
  match API_TOKEN with
  | Some token =>
      if truthy_str token then
        let url := BASE_URL ++ u "/" ++ endpoint in
        let* r :=
          match method with
          | GET => request GET url token None
          | POST => request POST url token data
          | DELETE => request DELETE url token None
          | PUT => raise (ValueError_ (u "Unknown method: " ++ method_name method))
          end in
        if (400 <=? status_code r)%Z then
          print (u "❌ API Error " ++ dec (status_code r) ++ u ": " ++ text r) >>
          sys_exit 1
        else if truthy_str (text r) then lift (response_json r)
        else ret (JDict [])
      else
        print (u "❌ HETZNER_API_TOKEN not found in .env") >> sys_exit 1
  | None =>
      print (u "❌ HETZNER_API_TOKEN not found in .env") >> sys_exit 1
  end.

(** [list_servers()]. *)
Definition list_servers : M C unit :=
  let* data := api_request GET (u "servers") None in
  let* servers := lift (py_get data (u "servers") (JList [])) in
  if negb (truthy servers) then print (u "No servers found")
  else
    print (u "
" ++ ljust 20 (u "Name") ++ u " " ++ ljust 12 (u "Status") ++ u " "
       ++ ljust 16 (u "IP") ++ u " " ++ ljust 10 (u "Type")) >>
    print (repeat 45 60) >>
    let* items := lift (py_iter servers) in
    for_each items (fun s =>
      let* net := lift (py_get s (u "public_net") (JDict [])) in
      let* v4 := lift (py_get net (u "ipv4") (JDict [])) in
      let* ip := lift (py_get v4 (u "ip") (JStr (u "N/A"))) in
      let* name := lift (py_getitem s (u "name")) in
      let* c1 := lift (py_format_left 20 name) in
      let* status := lift (py_getitem s (u "status")) in
      let* c2 := lift (py_format_left 12 status) in
      let* c3 := lift (py_format_left 16 ip) in
      let* st := lift (py_getitem s (u "server_type")) in
      let* ty := lift (py_getitem st (u "name")) in
      let* c4 := lift (py_format_left 10 ty) in
      print (c1 ++ u " " ++ c2 ++ u " " ++ c3 ++ u " " ++ c4)).

(** [create_server(cloud_init_file)]; the value returned is not used. *)
Definition create_server (cloud_init_file : option str) : M C json :=
  let config := VM_CONFIG in
  (* Load cloud-init if provided *)
  let* config :=
    match cloud_init_file with
    | Some path =>
        if truthy_str path then
          let* there := (fun c => let '(b, c') := path_exists K path c in
                                  (Ret b, c', [EvExists path b])) in
          if there : bool then
            let* f := (fun c => let '(r, c') := open_file K path c in
                                (Ret r, c', [EvOpen path r])) in
            let* contents := lift f in
            let* user_data := lift contents in
            ret (dict_set (u "user_data") (JStr user_data) config)
          else ret config
        else ret config
    | None => ret config
    end in
  let* name := lift (py_getitem (JDict config) (u "name")) in
  let* ty := lift (py_getitem (JDict config) (u "server_type")) in
  print (u "🚀 Creating server: " ++ fmt name ++ u " (" ++ fmt ty ++ u ")") >>
  let* data := api_request POST (u "servers") (Some (JDict config)) in
  let* server := lift (py_get data (u "server") (JDict [])) in
  let* net := lift (py_get server (u "public_net") (JDict [])) in
  let* v4 := lift (py_get net (u "ipv4") (JDict [])) in
  let* ip := lift (py_get v4 (u "ip") (JStr (u "pending"))) in
  print (u "✅ Server created!") >>
  let* id := lift (py_getitem server (u "id")) in
  print (u "   ID: " ++ fmt id) >>
  print (u "   IP: " ++ fmt ip) >>
  let* pw := lift (py_get data (u "root_password") (JStr (u "N/A"))) in
  print (u "   Root password: " ++ fmt pw) >>
  ret server.

(** [destroy_server(server_id)]. *)
Definition destroy_server (server_id : json) : M C unit :=
  let* server_id :=
    if negb (truthy server_id) then
      (* Find gitbackup-node *)
      let* data := api_request GET (u "servers") None in
      let* servers := lift (py_get data (u "servers") (JList [])) in
      let* items := lift (py_iter servers) in
      lift (find_server (u "gitbackup-node") items server_id)
    else ret server_id in
  if negb (truthy server_id) then print (u "❌ No server found to destroy")
  else
    print (u "🗑️  Destroying server " ++ fmt server_id ++ u "...") >>
    api_request DELETE (u "servers/" ++ fmt server_id) None >>
    print (u "✅ Server destroyed").

(** [create_snapshot(server_id)]. *)
Definition create_snapshot (server_id : json) : M C unit :=
  let* server_id :=
    if negb (truthy server_id) then
      let* data := api_request GET (u "servers") None in
      let* servers := lift (py_get data (u "servers") (JList [])) in
      let* items := lift (py_iter servers) in
      lift (find_server (u "gitbackup-node") items server_id)
    else ret server_id in
  if negb (truthy server_id) then print (u "❌ No server found to snapshot")
  else
    print (u "📸 Creating snapshot of server " ++ fmt server_id ++ u "...") >>
    let* data :=
      api_request POST (u "servers/" ++ fmt server_id ++ u "/actions/create_image")
        (Some (JDict [(u "description", JStr (u "gitbackup-snapshot"));
                      (u "type", JStr (u "snapshot"))])) in
    let* image := lift (py_get data (u "image") (JDict [])) in
    let* id := lift (py_get image (u "id") JNull) in
    print (u "✅ Snapshot created: " ++ fmt id).

(** [main()], with [sys.argv] as argument. *)
Definition main (argv : list str) : M C unit :=
  match argv with
  | _ :: cmd :: _ =>
      if bool_decide (cmd = u "list") then list_servers
      else if bool_decide (cmd = u "create") then create_server (argv2 argv) >> ret tt
      else if bool_decide (cmd = u "destroy") then destroy_server (opt_json (argv2 argv))
      else if bool_decide (cmd = u "snapshot") then create_snapshot (opt_json (argv2 argv))
      else print (u "Unknown command: " ++ cmd) >> sys_exit 1
  | _ =>
      print (u "Usage: hetzner.py <command>") >>
      print (u "Commands: list, create, destroy, snapshot") >>
      sys_exit 1
  end.

End Script.
End Hetzner.

(** * Observations on runs, and example hosts *)

Local Open Scope py_scope.
Import SpawnNode.

(** As the claim words it: the first line that contains the name decides. *)
Fixpoint scan_lines_claimed (name : str) (lines : list str) : option str :=
  match lines with
  | [] => None
  | line :: rest =>
      if contains name line then first_ip_part (split_ws line)
      else scan_lines_claimed name rest
  end.

Definition ip_of_listing_claimed (stdout name : str) : option str :=
  scan_lines_claimed name (split_on 10 stdout).

Definition has_dots3 (part : str) : Prop := count dot part = 3%nat.

Definition substring (sub s : str) : Prop := exists pre post, s = pre ++ sub ++ post.

(** A line the lookup can answer from: it contains the name and has a part
    with three dots. *)
Definition addressed (name line : str) : Prop :=
  substring name line /\ ~ Forall (fun p => ~ has_dots3 p) (split_ws line).

Section MonadVocabulary.
Context {S : Type}.

Definition tail_of {A B} (m : M S A) (k : A -> M S B) (s : S) : list event :=
  match result (m s) with
  | Ret a => trace (k a (final (m s)))
  | _ => []
  end.

(** [emits P m]: every action [m] performs satisfies [P], from any state. *)
Definition emits {A} (P : event -> Prop) (m : M S A) : Prop :=
  forall s, Forall P (trace (m s)).

End MonadVocabulary.

Definition is_create (e : event) : bool :=
  match e with
  | EvProvider _ (cmd :: _) _ => bool_decide (cmd = u "create")
  | _ => false
  end.

Definition creates (t : list event) : nat := length (List.filter is_create t).

Definition is_list (e : event) : bool :=
  match e with
  | EvProvider _ [cmd] _ => bool_decide (cmd = u "list")
  | _ => false
  end.

Definition is_dns (e : event) : bool :=
  match e with
  | EvCloudflare _ _ _ _ _ => true
  | _ => false
  end.

(** The provider calls and the sleeps of a trace: its schedule. *)
Definition scheduled (e : event) : bool :=
  match e with
  | EvProvider _ _ _ | EvSleep _ => true
  | _ => false
  end.

(** A listing from which [get_vm_ip] finds no address for [name]. *)
Definition no_address (name : str) (out : str * str * Z) : Prop :=
  truthy_opt (ip_of_listing out.1.1 name) = false.

(** A poll that found nothing, and the wait after it. *)
Definition missed (p : provider) (out : str * str * Z) : list event :=
  [EvProvider p [u "list"] out; EvSleep 5].

(** The commands of a trace that went over SSH. *)
Definition ssh_commands (t : list event) : list str :=
  flat_map (fun e => match e with EvSsh _ cmd _ => [cmd] | _ => [] end) t.

(** The remote commands of [bootstrap_node] in order, each with the step of the
    bootstrap sequence it belongs to (1 user and keys, 2 packages, 3 host name,
    4 credential file, 5 clone, 6 daily task, 7 identity document, 8 liveness
    task, 9 HTTP responder, 10 backup configuration). *)
Definition bootstrap_plan (ENV : gmap str str) (name : str) (p : provider)
    (created today : datetime) : list (nat * str) :=
  let hostname := name ++ u ".giobi.com" in
  let github_token := SpawnNode.env_get ENV (u "GITHUB_TOKEN") in
  let discord_webhook := SpawnNode.env_get ENV (u "DISCORD_BACKUP_WEBHOOK") in
  [(1, setup_user);
   (2, u "apt-get update -qq && apt-get install -y -qq git curl nginx python3-requests");
   (3, u "hostnamectl set-hostname " ++ name);
   (4, heredoc (u "/home/giobi/.env")
         (env_content name hostname (provider_name p) github_token discord_webhook
            (isoformat created)));
   (4, u "chown giobi:giobi /home/giobi/.env && chmod 600 /home/giobi/.env");
   (5, u "sudo -u giobi git clone https://github.com/giobi/gitbackup.git /home/giobi/gitbackup 2>/dev/null || true");
   (5, u "mkdir -p /home/giobi/backup && chown giobi:giobi /home/giobi/backup");
   (6, heredoc (u "/home/giobi/daily-backup.sh") daily_script);
   (6, u "chmod +x /home/giobi/daily-backup.sh && chown giobi:giobi /home/giobi/daily-backup.sh");
   (6, u "(crontab -u giobi -l 2>/dev/null; echo " ++ dq ++ u "0 3 * * * /home/giobi/daily-backup.sh" ++ dq ++ u ") | crontab -u giobi -");
   (7, heredoc (u "/var/www/html/env.json")
         (dumps (Some 2) (env_dict name hostname p (strftime_ymd today))));
   (8, heredoc (u "/usr/local/bin/update-system-json.sh") system_script);
   (8, u "chmod +x /usr/local/bin/update-system-json.sh && /usr/local/bin/update-system-json.sh");
   (8, u "(crontab -l 2>/dev/null; echo " ++ dq ++ u "*/5 * * * * /usr/local/bin/update-system-json.sh" ++ dq ++ u ") | crontab -");
   (9, heredoc (u "/etc/nginx/sites-available/default") (nginx_conf name));
   (9, u "nginx -t && systemctl reload nginx");
   (10, heredoc (u "/home/giobi/gitbackup/env.json") (dumps None (gitbackup_dict github_token)));
   (10, u "chown giobi:giobi /home/giobi/gitbackup/env.json && chmod 600 /home/giobi/gitbackup/env.json")]%nat.

Definition is_ssh (e : event) : bool :=
  match e with
  | EvSsh _ _ _ => true
  | _ => false
  end.

(** Characters [json.dumps] leaves as they are. *)
Definition plain (c : N) : Prop := 32 <= c <= 126 /\ c <> 34 /\ c <> 92.

(** The same host with another notification endpoint. *)
Definition with_sink {W D D'} (H : host W D)
    (post : str -> json -> D' -> (exn + Z) * D') : host W D' :=
  Host W D' (provider_proc H) (ssh_proc H) (cloudflare H) (connect_ex H)
    (time_time H) (time_sleep H) (datetime_now H) post.

(** [ENV] with the webhook set to [url], or removed. *)
Definition reconfigure (o : option str) (ENV : gmap str str) : gmap str str :=
  match o with
  | Some url => <[u "DISCORD_BACKUP_WEBHOOK" := url]> ENV
  | None => delete (u "DISCORD_BACKUP_WEBHOOK") ENV
  end.

(** What a notification leaves in the trace: the delivery itself and the two
    warnings of [discord_notify]. *)
Definition notification_event (e : event) : bool :=
  match e with
  | EvNotify _ _ _ => true
  | EvPrint l =>
      startswith (u "⚠️  Discord notification failed: ") l
      || bool_decide (l = u "⚠️  No Discord webhook configured, skipping notification")
  | _ => false
  end.

(** The trace without what notifications leave in it. *)
Definition lifecycle_trace (t : list event) : list event :=
  List.filter (fun e => negb (notification_event e)) t.

(** Two outcomes agree, up to [R] on the values returned. *)
Definition outcome_rel {A B} (R : A -> B -> Prop) (x : outcome A) (y : outcome B) : Prop :=
  match x, y with
  | Ret a, Ret b => R a b
  | Raise e1, Raise e2 => e1 = e2
  | Exit c1, Exit c2 => c1 = c2
  | Diverge, Diverge => True
  | _, _ => False
  end.

Section SimulationVocabulary.
Context {W D1 D2 : Type}.

(** [sim R m1 m2]: from the same world, whatever the notification endpoints
    hold, [m1] and [m2] end alike, leave the same world and do the same
    things, notifications apart. *)
Definition sim {A B} (R : A -> B -> Prop) (m1 : M (W * D1) A) (m2 : M (W * D2) B) : Prop :=
  forall w n1 n2,
    outcome_rel R (result (m1 (w, n1))) (result (m2 (w, n2))) /\
    (final (m1 (w, n1))).1 = (final (m2 (w, n2))).1 /\
    lifecycle_trace (trace (m1 (w, n1))) = lifecycle_trace (trace (m2 (w, n2))).

(** [wsim m1 m2]: they end alike. *)
Definition wsim {A} (m1 : M (W * D1) A) (m2 : M (W * D2) A) : Prop :=
  forall w n1 n2, result (m1 (w, n1)) = result (m2 (w, n2)).

End SimulationVocabulary.

(** What [api_request] makes of the answer to its HTTP call, and what it
    prints about it. *)
Definition api_answer (res : exn + response) : outcome json :=
  match res with
  | inl e => Raise e
  | inr r =>
      if (400 <=? status_code r)%Z then Exit 1
      else if truthy_str (text r) then
        match document r with
        | Some j => Ret j
        | None => Raise JSONDecodeError_
        end
      else Ret (JDict [])
  end.

Definition api_log (res : exn + response) : list event :=
  match res with
  | inr r =>
      if (400 <=? status_code r)%Z
      then [EvPrint (u "❌ API Error " ++ dec (status_code r) ++ u ": " ++ text r)]
      else []
  | inl _ => []
  end.

(** The payload [api_request] sends with each method. *)
Definition sent (m : http_method) (data : option json) : option json :=
  match m with
  | POST => data
  | _ => None
  end.

(** The API calls and the sleeps of a trace. *)
Definition calls (t : list event) : list event :=
  List.filter (fun e => match e with EvApi _ _ _ _ | EvSleep _ => true | _ => false end) t.





Section ScalewayVocabulary.
Context {C : Type} (K : cloud C) (CREDS : gmap str str) (tok : str).

Definition base_of (base_url : option str) : str :=
  match base_url with
  | Some b => if truthy_str b then b else Scaleway.BASE_URL
  | None => Scaleway.BASE_URL
  end.











Definition servers_url : str := Scaleway.BASE_URL ++ u "/" ++ u "servers".

(** The server [destroy_server] settles on when it is given none: the one
    named [gitbackup-node] in the listing [d]. *)
Definition found (sid d : json) : exn + json :=
  match py_get d (u "servers") (JList []) with
  | inl e => inl e
  | inr servers =>
      match py_iter servers with
      | inl e => inl e
      | inr items => find_server (u "gitbackup-node") items sid
      end
  end.


End ScalewayVocabulary.


Definition hetzner_servers_url : str := Hetzner.BASE_URL ++ u "/" ++ u "servers".



(** A vendor for the examples: every [GET] answers one document that holds a
    listing and the details of server 42 with one block volume; every other
    call answers 200 without a body; no file exists. *)
Definition demo_document : json :=
  JDict [(u "servers", JList [JDict [(u "name", JStr (u "gitbackup-node")); (u "id", JInt 42)]]);
         (u "server", JDict [(u "state", JStr (u "stopped"));
                             (u "volumes", JDict [(u "0", JDict [(u "volume_type", JStr (u "sbs_volume"));
                                                                 (u "id", JStr (u "v0"))])])])].

Definition demo_vendor : cloud unit :=
  Cloud unit
    (fun m url token payload c =>
       (inr (match m with
             | GET => Response 200 (u "{...}") (Some demo_document)
             | _ => Response 200 [] None
             end), c))
    (fun path c => (false, c))
    (fun path c => (inl (Exn (u "FileNotFoundError") path), c))
    (fun secs c => c)
    (fun j => u "?").

Definition demo_creds : gmap str str := {[ u "SCALEWAY_SECRET_KEY" := u "secret" ]}.

(** What the [create] command of a provider script may do when it is given
    [name] as its argument: print, look for a file called [name] and open it,
    and [POST] either a server called [gitbackup-node] whose fields are among
    [allowed], or a power-on. *)
Definition create_event (allowed : list (str * json) -> Prop) (name : str) (e : event) : Prop :=
  match e with
  | EvPrint _ => True
  | EvExists path _ | EvOpen path _ => path = name
  | EvApi m url payload _ =>
      m = POST /\
      (payload = Some (JDict [(u "action", JStr (u "poweron"))])
       \/ exists fields, payload = Some (JDict fields) /\ allowed fields /\
                         assoc (u "name") fields = Some (JStr (u "gitbackup-node")))
  | _ => False
  end.

Definition scaleway_fields (CREDS : gmap str str) (fields : list (str * json)) : Prop :=
  fields = Scaleway.VM_CONFIG
  \/ fields = dict_set (u "project") (opt_json (CREDS !! u "SCALEWAY_PROJECT_ID")) Scaleway.VM_CONFIG
  \/ fields = dict_set (u "organization") (opt_json (CREDS !! u "SCALEWAY_ORGANIZATION_ID"))
                Scaleway.VM_CONFIG.

Definition hetzner_fields (fields : list (str * json)) : Prop :=
  fields = Hetzner.VM_CONFIG
  \/ exists user_data, fields = dict_set (u "user_data") (JStr user_data) Hetzner.VM_CONFIG.


(** A host for the examples. The provider's [create] exits with
    [create_code]; its listing shows [b1] at 10.0.0.7; every SSH command
    exits with [ssh_code]; every Cloudflare call answers [dns]; port 22 is
    open; the clock stands still; the webhook answers 204. *)
Definition demo_host (create_code ssh_code : Z) (dns : exn + response) : host unit unit :=
  Host unit unit
    (fun p args w =>
       (match args with
        | cmd :: _ =>
            if bool_decide (cmd = u "list") then (u "b1 running 10.0.0.7", [], 0%Z)
            else if bool_decide (cmd = u "create") then ([], u "boom", create_code)
            else ([], [], 0%Z)
        | [] => ([], [], 2%Z)
        end, w))
    (fun target cmd w => (([], [], ssh_code), w))
    (fun m url token payload w => (dns, w))
    (fun host port w => (inr 0%Z, w))
    (fun w => (0%Z, w))
    (fun secs w => w)
    (fun w => (Datetime 2026 1 2 3 4 5 0, w))
    (fun url payload n => (inr 204%Z, n)).

Definition no_records : exn + response :=
  inr (Response 200 (u "{}") (Some (JDict [(u "result", JList [])]))).

Definition connection_error : exn := Exn (u "ConnectionError") (u "unreachable").

Definition with_token : gmap str str := {[ u "CLOUDFLARE_API_TOKEN" := u "t" ]}.

(** The records a Cloudflare look-up answered, as [create_dns] and
    [delete_dns] read them: [r.json().get('result', [])]. *)
Definition dns_records_of (lookup : exn + response) : exn + json :=
  match lookup with
  | inl e => inl e
  | inr r =>
      match response_json r with
      | inl e => inl e
      | inr j => py_get j (u "result") (JList [])
      end
  end.

(** The id of the first of them: [existing[0]['id']]. *)
Definition first_record_id (existing : json) : exn + json :=
  match py_index0 existing with
  | inl e => inl e
  | inr first => py_getitem first (u "id")
  end.

Definition is_cloudflare (e : event) : bool :=
  match e with
  | EvCloudflare _ _ _ _ _ => true
  | _ => false
  end.

Definition is_connect (e : event) : bool :=
  match e with
  | EvConnect _ _ _ => true
  | _ => false
  end.

(** One round of [wait_for_ssh] that did not find the port open. *)
Definition failed_probe (host : str) (answer : exn + Z) : list event :=
  [EvConnect host 22 answer; EvSleep 5].

(** A host with a clock, in microseconds, that every sleep advances: its
    state is the time. Nothing answers on port 22. *)
Definition ticking_host : host Z unit :=
  Host Z unit
    (fun p args w => (([], [], 0%Z), w))
    (fun target cmd w => (([], [], 0%Z), w))
    (fun m url token payload w => (inl (Exn (u "ConnectionError") []), w))
    (fun host port w => (inr 111%Z, w))
    (fun w => (w, w))
    (fun secs w => (w + secs * 1000000)%Z)
    (fun w => (Datetime 2026 1 2 3 4 5 0, w))
    (fun url payload n => (inr 204%Z, n)).

(** [halts m]: from no state is [m] still running when the fuel of the
    model is spent. *)
Definition halts {S A} (m : M S A) : Prop := forall s, result (m s) <> Diverge.

(** A whitespace-separated token with exactly three dots. *)
Definition dotted_token (t : str) : Prop :=
  count dot t = 3%nat /\ t <> [] /\ Forall (fun c => isspace c = false) t.


(** What a destroy on provider [p] may do: print, run the provider's [list]
    and [destroy] without arguments, call Cloudflare and notify. *)
Definition destroy_event (p : provider) (e : event) : Prop :=
  match e with
  | EvProvider p' args _ => p' = p /\ (args = [u "list"] \/ args = [u "destroy"])
  | EvPrint _ | EvCloudflare _ _ _ _ _ | EvNotify _ _ _ => True
  | _ => False
  end.

Definition is_api (e : event) : bool :=
  match e with
  | EvApi _ _ _ _ => true
  | _ => false
  end.

(** [fails m]: [m] never returns. It raises, exits, or is still running when
    the fuel of the model is spent. *)
Definition fails {S A} (m : M S A) : Prop := forall s a, result (m s) <> Ret a.

(** What [create_snapshot] may ask of the API: look-ups, and the creation of
    a snapshot or an image. *)
Definition snapshot_event (e : event) : Prop :=
  match e with
  | EvPrint _ => True
  | EvApi m _ payload _ =>
      (m = GET /\ payload = None) \/
      (m = POST /\ exists fields, payload = Some (JDict fields) /\
                     (assoc (u "volume_id") fields <> None \/
                      assoc (u "type") fields = Some (JStr (u "snapshot"))))
  | _ => False
  end.

(** A key [load_env] of [spawn_node.py] reads back as it is written: not
    empty, without [=], and starting with neither white space nor [#]. *)
Definition clean_key (k : str) : Prop :=
  ~ In 61 k /\ exists c k', k = c :: k' /\ isspace c = false /\ c <> 35.

(** A value any [load_env] reads back as it is written: neither its first
    nor its last character is white space or a quote. *)
Definition plain_end (c : N) : Prop := isspace c = false /\ c <> 34 /\ c <> 39.

Definition clean_value (v : str) : Prop :=
  (forall c v', v = c :: v' -> plain_end c) /\
  (forall v' c, v = v' ++ [c] -> plain_end c).

(** No quote, a double quote, or a single quote around a value. *)
Definition quote_mark (q : str) : Prop := q = [] \/ q = [34] \/ q = [39].

(** The lines a file yields; a missing file has none. *)
Definition lines_of (f : file) : list str :=
  match f with
  | Lines ls | Broken ls _ => ls
  | _ => []
  end.

(** A location that raises nothing: no file, or a file read to its end. *)
Definition readable (f : file) : Prop :=
  match f with
  | Unreadable _ | Broken _ _ => False
  | _ => True
  end.

(** A location that raises [e]: when it is examined or opened, or while its
    lines are read. *)
Definition refuses (f : file) (e : exn) : Prop :=
  f = Unreadable e \/ exists ls, f = Broken ls e.

(** What a script has written to its standard output: every printed line
    with its line break. *)
Definition stdout_of (t : list event) : str :=
  flat_map (fun e => match e with EvPrint l => l ++ nl | _ => [] end) t.

(** A row of the Scaleway listing. *)
Definition scaleway_row (name state ip type : str) : str :=
  ljust 20 name ++ u " " ++ ljust 12 state ++ u " " ++ ljust 16 ip ++ u " "
  ++ ljust 15 type.

(** The address [list_servers] of [scaleway.py] shows for a server. *)
Definition scaleway_address (s : json) : exn + json :=
  match py_get s (u "public_ip") JNull with
  | inl e => inl e
  | inr pub =>
      if truthy pub then
        match py_get s (u "public_ip") (JDict []) with
        | inl e => inl e
        | inr d => py_get d (u "address") (JStr (u "N/A"))
        end
      else inr (JStr (u "N/A"))
  end.

(** The server [s] is listed as [row]: its fields are strings without a line
    break. *)
Definition scaleway_listed (s : json) (row : str) : Prop :=
  exists name state ip type,
    py_getitem s (u "name") = inr (JStr name) /\
    py_getitem s (u "state") = inr (JStr state) /\
    scaleway_address s = inr (JStr ip) /\
    py_getitem s (u "commercial_type") = inr (JStr type) /\
    row = scaleway_row name state ip type /\ ~ In 10 row.

(** A field of a row that [split()] gives back as it is. *)
Definition token (t : str) : Prop := t <> [] /\ Forall (fun c => isspace c = false) t.

(** The body of the loop of [list_servers] in [scaleway.py]. *)
Definition scaleway_print_server {C} (s : json) : M C unit :=
  let* pub := lift (py_get s (u "public_ip") JNull) in
  let* ip :=
    if truthy pub then
      let* d := lift (py_get s (u "public_ip") (JDict [])) in
      lift (py_get d (u "address") (JStr (u "N/A")))
    else ret (JStr (u "N/A")) in
  let* name := lift (py_getitem s (u "name")) in
  let* c1 := lift (py_format_left 20 name) in
  let* state := lift (py_getitem s (u "state")) in
  let* c2 := lift (py_format_left 12 state) in
  let* c3 := lift (py_format_left 16 ip) in
  let* ty := lift (py_getitem s (u "commercial_type")) in
  let* c4 := lift (py_format_left 15 ty) in
  print (c1 ++ u " " ++ c2 ++ u " " ++ c3 ++ u " " ++ c4).

(** The two lines above the rows of the Scaleway listing. *)
Definition scaleway_header : str :=
  ljust 20 (u "Name") ++ u " " ++ ljust 12 (u "State") ++ u " "
  ++ ljust 16 (u "IP") ++ u " " ++ ljust 15 (u "Type").

Definition scaleway_rule : str := repeat 45 65.

(** A vendor whose listing shows one running server. *)
Definition listing_document : json :=
  JDict [(u "servers",
          JList [JDict [(u "name", JStr (u "gitbackup-node"));
                        (u "state", JStr (u "running"));
                        (u "public_ip", JDict [(u "address", JStr (u "51.15.0.9"))]);
                        (u "commercial_type", JStr (u "STARDUST1-S"))]])].

Definition listing_vendor : cloud unit :=
  Cloud unit
    (fun m url token payload c => (inr (Response 200 (u "{...}") (Some listing_document)), c))
    (fun path c => (false, c))
    (fun path c => (inl (Exn (u "FileNotFoundError") path), c))
    (fun secs c => c)
    (fun j => u "?").

(** A file system with one environment file, beside the script. *)
Definition one_env_file (path : str) : file :=
  if bool_decide (path = u "/opt/gitbackup/.env")
  then Lines [u "# tokens
"; u "GITHUB_TOKEN=abc
"]
  else NoFile.

(** A file system with one environment file, the brain's. *)
Definition brain_env_file (path : str) : file :=
  if bool_decide (path = u "/home/claude/brain/.env")
  then Lines [u "# tokens
"; u "GITHUB_TOKEN=abc
"]
  else NoFile.


Definition decode_error : exn :=
  Exn (u "UnicodeDecodeError") (u "invalid start byte").

(** A file system whose file beside the script yields one line and then
    cannot be decoded. *)
Definition broken_env_file (path : str) : file :=
  if bool_decide (path = u "/opt/gitbackup/.env")
  then Broken [u "GITHUB_TOKEN=abc
"] decode_error
  else NoFile.

(** Reading [s] from left to right, [at_start] telling whether a line
    begins here: [None] when some line begins with [E], otherwise whether a
    line begins after [s]. *)
Fixpoint no_line_from_E (at_start : bool) (s : str) : option bool :=
  match s with
  | [] => Some at_start
  | c :: s' =>
      if at_start && (c =? 69) then None
      else no_line_from_E (c =? 10) s'
  end.

(** How [create_server] treats its argument [path], as the name of a
    cloud-init file: [probe] is what looking for the file and opening it
    leave in the trace, and [got] is what came of it: no file ([inr None]),
    a file and what reading it gave ([inr (Some r)]), or the exception of
    [open]. An empty [path] is not looked for. *)
Inductive cloud_init (path : str) : list event -> exn + option (exn + str) -> Prop :=
| cloud_init_empty :
    truthy_str path = false -> cloud_init path [] (inr None)
| cloud_init_missing :
    truthy_str path = true -> cloud_init path [EvExists path false] (inr None)
| cloud_init_refused e :
    truthy_str path = true ->
    cloud_init path [EvExists path true; EvOpen path (inl e)] (inl e)
| cloud_init_opened r :
    truthy_str path = true ->
    cloud_init path [EvExists path true; EvOpen path (inr r)] (inr (Some r)).

(** A host that keeps what is run on the node: its world is the list of the
    remote commands, the last one first. The provider creates and lists [b1]
    at 10.0.0.7, every remote command exits with 0, Cloudflare knows no
    record, port 22 is open, the clock stands still and the webhook
    answers 204. *)
Definition logging_host : host (list str) unit :=
  Host (list str) unit
    (fun p args w =>
       (match args with
        | cmd :: _ =>
            if bool_decide (cmd = u "list") then (u "b1 running 10.0.0.7", [], 0%Z)
            else ([], [], 0%Z)
        | [] => ([], [], 2%Z)
        end, w))
    (fun target cmd w => (([], [], 0%Z), cmd :: w))
    (fun m url token payload w =>
       (inr (Response 200 (u "{}") (Some (JDict [(u "result", JList [])]))), w))
    (fun host port w => (inr 0%Z, w))
    (fun w => (0%Z, w))
    (fun secs w => w)
    (fun w => (Datetime 2026 1 2 3 4 5 0, w))
    (fun url payload n => (inr 204%Z, n)).

Definition with_webhook : gmap str str :=
  {[ u "DISCORD_BACKUP_WEBHOOK" := u "https://discord.example/hook" ]}.


(** * Properties *)

Lemma startswith_spec p s : startswith p s = true <-> exists post, s = p ++ post.
Proof.
  revert s. induction p as [|a p IH]; intros s; simpl.
  - split; eauto.
  - destruct s as [|b s].
    + split; [discriminate | intros [post Hp]; discriminate].
    + rewrite andb_true_iff, N.eqb_eq, IH. split.
      * intros [-> [post ->]]. eauto.
      * intros [post Hp]. injection Hp as -> ->. eauto.
Qed.

Lemma contains_spec sub s : contains sub s = true <-> substring sub s.
Proof.
  unfold substring. induction s as [|c s IH]; simpl.
  - rewrite orb_false_r, startswith_spec. split.
    + intros [post Hp]. exists [], post. exact Hp.
    + intros [pre [post Hp]]. destruct pre; [eauto | discriminate].
  - rewrite orb_true_iff, startswith_spec, IH. split.
    + intros [[post Hp] | [pre [post Hp]]].
      * exists [], post. exact Hp.
      * exists (c :: pre), post. simpl. by rewrite Hp.
    + intros [pre [post Hp]]. destruct pre as [|d pre].
      * left. eauto.
      * right. injection Hp as -> ->. eauto.
Qed.

Lemma first_ip_part_Some parts t :
  first_ip_part parts = Some t <->
  exists p1 p2, parts = p1 ++ t :: p2 /\ has_dots3 t /\ Forall (fun p => ~ has_dots3 p) p1.
Proof.
  unfold has_dots3. induction parts as [|p parts IH]; simpl.
  - split; [discriminate | intros (p1 & p2 & Hp & _)]. by destruct p1.
  - destruct (Nat.eqb_spec (count dot p) 3) as [E|E].
    + split.
      * intros [= ->]. exists [], parts. auto.
      * intros (p1 & p2 & Hp & Ht & Hall). destruct p1 as [|q p1].
        -- by injection Hp as ->.
        -- injection Hp as -> ->. inversion Hall; subst. contradiction.
    + rewrite IH. split.
      * intros (p1 & p2 & -> & Ht & Hall). exists (p :: p1), p2. auto.
      * intros (p1 & p2 & Hp & Ht & Hall). destruct p1 as [|q p1].
        -- injection Hp as -> ->. contradiction.
        -- injection Hp as -> ->. inversion Hall; subst. eauto.
Qed.

Lemma first_ip_part_None parts :
  first_ip_part parts = None <-> Forall (fun p => ~ has_dots3 p) parts.
Proof.
  unfold has_dots3. induction parts as [|p parts IH]; simpl.
  - split; auto.
  - destruct (Nat.eqb_spec (count dot p) 3) as [E|E].
    + split; [discriminate | intros Hall; inversion Hall; subst; contradiction].
    + rewrite IH. split; [auto | intros Hall; by inversion Hall].
Qed.

Lemma scan_lines_Some name lines t :
  scan_lines name lines = Some t <->
  exists before line after,
    lines = before ++ line :: after /\ substring name line /\
    first_ip_part (split_ws line) = Some t /\
    Forall (fun l => ~ addressed name l) before.
Proof.
  unfold addressed. induction lines as [|l lines IH]; simpl.
  - split; [discriminate | intros (b & x & a & Hl & _)]. by destruct b.
  - destruct (contains name l) eqn:Hc.
    + destruct (first_ip_part (split_ws l)) as [t'|] eqn:Hf.
      * split.
        -- intros [= ->]. exists [], l, lines. repeat split; auto. by apply contains_spec.
        -- intros (b & x & a & Hl & Hs & Hx & Hall). destruct b as [|y b].
           ++ injection Hl as -> ->. congruence.
           ++ injection Hl as -> ->. inversion Hall as [|? ? Hy ?]; subst.
              exfalso. apply Hy. split; [by apply contains_spec|].
              intros Hn. apply first_ip_part_None in Hn. congruence.
      * rewrite IH. split.
        -- intros (b & x & a & -> & Hs & Hx & Hall). exists (l :: b), x, a.
           repeat split; auto. constructor; auto.
           intros [_ Hn]. apply Hn. by apply first_ip_part_None.
        -- intros (b & x & a & Hl & Hs & Hx & Hall). destruct b as [|y b].
           ++ injection Hl as -> ->. congruence.
           ++ injection Hl as -> ->. inversion Hall; subst. eauto 10.
    + rewrite IH. split.
      * intros (b & x & a & -> & Hs & Hx & Hall). exists (l :: b), x, a.
        repeat split; auto. constructor; auto.
        intros [Hn _]. apply contains_spec in Hn. congruence.
      * intros (b & x & a & Hl & Hs & Hx & Hall). destruct b as [|y b].
        -- injection Hl as -> ->. apply contains_spec in Hs. congruence.
        -- injection Hl as -> ->. inversion Hall; subst. eauto 10.
Qed.

Lemma scan_lines_None name lines :
  scan_lines name lines = None <-> Forall (fun l => ~ addressed name l) lines.
Proof.
  unfold addressed. induction lines as [|l lines IH]; simpl.
  - split; auto.
  - destruct (contains name l) eqn:Hc.
    + destruct (first_ip_part (split_ws l)) as [t'|] eqn:Hf.
      * split; [discriminate|]. intros Hall. inversion Hall as [|? ? Hy ?]; subst.
        exfalso. apply Hy. split; [by apply contains_spec|].
        intros Hn. apply first_ip_part_None in Hn. congruence.
      * rewrite IH. split.
        -- intros Hall. constructor; auto. intros [_ Hn]. apply Hn.
           by apply first_ip_part_None.
        -- intros Hall. by inversion Hall.
    + rewrite IH. split.
      * intros Hall. constructor; auto. intros [Hn _].
        apply contains_spec in Hn. congruence.
      * intros Hall. by inversion Hall.
Qed.

Section MonadFacts.
Context {S : Type}.

Lemma trace_bind {A B} (m : M S A) (k : A -> M S B) s :
  trace (bind m k s) = trace (m s) ++ tail_of m k s.
Proof.
  unfold tail_of, bind, trace, result, final.
  destruct (m s) as [[[a|e|c|] s1] t1]; simpl; try by rewrite app_nil_r.
  by destruct (k a s1) as [[r s2] t2].
Qed.

Lemma result_bind {A B} (m : M S A) (k : A -> M S B) s :
  result (bind m k s) =
  match result (m s) with
  | Ret a => result (k a (final (m s)))
  | Raise e => Raise e
  | Exit c => Exit c
  | Diverge => Diverge
  end.
Proof.
  unfold bind, trace, result, final.
  destruct (m s) as [[[a|e|c|] s1] t1]; simpl; try done.
  by destruct (k a s1) as [[r s2] t2].
Qed.

Lemma final_bind {A B} (m : M S A) (k : A -> M S B) s :
  final (bind m k s) =
  match result (m s) with
  | Ret a => final (k a (final (m s)))
  | _ => final (m s)
  end.
Proof.
  unfold bind, trace, result, final.
  destruct (m s) as [[[a|e|c|] s1] t1]; simpl; try done.
  by destruct (k a s1) as [[r s2] t2].
Qed.

Lemma emits_ret {A} P (a : A) : emits P (@ret S A a).
Proof. intros s. constructor. Qed.

Lemma emits_raise {A} P e : emits P (@raise S A e).
Proof. intros s. constructor. Qed.

Lemma emits_exit {A} P c : emits P (@sys_exit S A c).
Proof. intros s. constructor. Qed.

Lemma emits_diverge {A} P : emits P (@diverge S A).
Proof. intros s. constructor. Qed.

Lemma emits_lift {A} P (r : exn + A) : emits P (@lift S A r).
Proof. destruct r; [apply emits_raise | apply emits_ret]. Qed.

Lemma emits_emit P e : P e -> emits P (@emit S e).
Proof. intros He s. by repeat constructor. Qed.

Lemma emits_bind {A B} P (m : M S A) (k : A -> M S B) :
  emits P m -> (forall a, emits P (k a)) -> emits P (bind m k).
Proof.
  intros Hm Hk s. rewrite trace_bind. apply Forall_app. split; [apply Hm|].
  unfold tail_of. destruct (result (m s)); try constructor. apply Hk.
Qed.

Lemma emits_try_except {A} P (m h : M S A) :
  emits P m -> emits P h -> emits P (try_except m h).
Proof.
  intros Hm Hh s. unfold try_except, trace. specialize (Hm s). unfold trace in Hm.
  destruct (m s) as [[[a|e|c|] s1] t1]; simpl in *; try done.
  - specialize (Hh s1). unfold trace in Hh. destruct (h s1) as [[r s2] t2].
    simpl in *. apply Forall_app. by split.
  - specialize (Hh s1). unfold trace in Hh. destruct (h s1) as [[r s2] t2].
    simpl in *. apply Forall_app. by split.
Qed.

Lemma emits_try_except_Exception {A} P (m : M S A) h :
  emits P m -> (forall e, emits P (h e)) -> emits P (try_except_Exception m h).
Proof.
  intros Hm Hh s. unfold try_except_Exception, trace. specialize (Hm s).
  unfold trace in Hm.
  destruct (m s) as [[[a|e|c|] s1] t1]; simpl in *; try done.
  specialize (Hh e s1). unfold trace in Hh. destruct (h e s1) as [[r s2] t2].
  simpl in *. apply Forall_app. by split.
Qed.

End MonadFacts.

Section OrchestratorFacts.
Context {W N : Type} (H : host W N) (ENV : gmap str str).

Lemma emits_in_world {A} P (f : W -> A * W) ev :
  (forall a, P (ev a)) -> emits P (in_world (N:=N) f ev).
Proof. intros He s. unfold in_world, trace. destruct (f s.1). by repeat constructor. Qed.

Lemma emits_read_world {A} P (f : W -> A * W) : emits P (read_world (N:=N) f).
Proof. intros s. unfold read_world, trace. destruct (f s.1). constructor. Qed.

Lemma emits_in_sink {A} P (f : N -> A * N) ev :
  (forall a, P (ev a)) -> emits P (in_sink (W:=W) f ev).
Proof. intros He s. unfold in_sink, trace. destruct (f s.2). by repeat constructor. Qed.

Lemma emits_sleep P secs : P (EvSleep secs) -> emits P (sleep H secs).
Proof. intros He s. by repeat constructor. Qed.

End OrchestratorFacts.

Ltac emits_step :=
  lazymatch goal with
  | |- emits _ (bind _ _) => apply emits_bind; [| intros ?]
  | |- emits _ (ret _) => apply emits_ret
  | |- emits _ (raise _) => apply emits_raise
  | |- emits _ (sys_exit _) => apply emits_exit
  | |- emits _ diverge => apply emits_diverge
  | |- emits _ (lift _) => apply emits_lift
  | |- emits _ (print _) => apply emits_emit
  | |- emits _ (emit _) => apply emits_emit
  | |- emits _ (try_except _ _) => apply emits_try_except
  | |- emits _ (try_except_Exception _ _) => apply emits_try_except_Exception; [| intros ?]
  | |- emits _ (in_world _ _) => apply emits_in_world; intros ?
  | |- emits _ (read_world _) => apply emits_read_world
  | |- emits _ (in_sink _ _) => apply emits_in_sink; intros ?
  | |- emits _ (sleep _ _) => apply emits_sleep
  | |- emits _ (if ?b then _ else _) => destruct b
  | |- emits _ (match ?x with _ => _ end) => destruct x
  | |- emits _ (let (_, _) := ?x in _) => destruct x
  end.

Section OrchestratorEmits.
Context {W N : Type} (H : host W N) (ENV : gmap str str).
Variable P : event -> Prop.
Hypothesis P_print : forall l, P (EvPrint l).

Lemma emits_discord_notify msg url :
  (forall w p r, P (EvNotify w p r)) -> emits P (discord_notify H ENV msg url).
Proof.
  intros HP. unfold discord_notify.
  repeat emits_step; auto.
Qed.

Lemma emits_run_provider_cmd p cmd args :
  (forall out, P (EvProvider p (cmd :: args) out)) -> emits P (run_provider_cmd H p cmd args).
Proof. intros HP. unfold run_provider_cmd. repeat emits_step; auto. Qed.

Lemma emits_get_vm_ip p name :
  (forall out, P (EvProvider p [u "list"] out)) -> emits P (get_vm_ip H p name).
Proof.
  intros HP. unfold get_vm_ip. emits_step.
  - by apply emits_run_provider_cmd.
  - repeat emits_step.
Qed.

Lemma emits_requests m url token payload :
  (forall r, P (EvCloudflare m url token payload r)) -> emits P (requests H m url token payload).
Proof. intros HP. unfold requests. repeat emits_step; auto. Qed.

Lemma emits_create_dns name ip :
  (forall m url token payload r, P (EvCloudflare m url token payload r)) ->
  emits P (create_dns H ENV name ip).
Proof.
  intros HP. unfold create_dns.
  repeat lazymatch goal with
         | |- emits _ (requests _ _ _ _ _) => apply emits_requests
         | _ => emits_step
         end; auto.
Qed.

Lemma emits_delete_dns name :
  (forall m url token payload r, P (EvCloudflare m url token payload r)) ->
  emits P (delete_dns H ENV name).
Proof.
  intros HP. unfold delete_dns.
  repeat lazymatch goal with
         | |- emits _ (requests _ _ _ _ _) => apply emits_requests
         | _ => emits_step
         end; auto.
Qed.

Lemma emits_wait_for_ssh fuel host timeout :
  (forall r, P (EvConnect host 22 r)) -> P (EvSleep 5) -> emits P (wait_for_ssh H fuel host timeout).
Proof.
  intros HC HS. unfold wait_for_ssh. apply emits_bind; [by repeat emits_step |].
  induction fuel as [|fuel IH]; intros start; simpl.
  - repeat emits_step.
  - repeat lazymatch goal with
           | |- emits _ (wait_for_ssh_loop _ _ _ _ _) => apply IH
           | _ => emits_step
           end; auto.
Qed.

Lemma emits_ssh_run host cmd user :
  (forall t c out, P (EvSsh t c out)) -> emits P (ssh_run H host cmd user).
Proof. intros HP. unfold ssh_run. repeat emits_step; auto. Qed.

Lemma emits_bootstrap_node name ip p :
  (forall t c out, P (EvSsh t c out)) -> emits P (bootstrap_node H ENV name ip p).
Proof.
  intros HP. unfold bootstrap_node, now.
  repeat lazymatch goal with
         | |- emits _ (ssh_run _ _ _ _) => apply emits_ssh_run
         | _ => emits_step
         end; auto.
Qed.

Lemma emits_poll_ip n last p name :
  (forall out, P (EvProvider p [u "list"] out)) -> P (EvSleep 5) -> emits P (poll_ip H n last p name).
Proof.
  intros HL HS. revert last. induction n as [|n IH]; intros last; simpl.
  - repeat emits_step.
  - repeat lazymatch goal with
           | |- emits _ (poll_ip _ _ _ _ _) => apply IH
           | |- emits _ (get_vm_ip _ _ _) => apply emits_get_vm_ip
           | _ => emits_step
           end; auto.
Qed.

End OrchestratorEmits.

(** One step of an [emits] proof over the functions of [spawn_node.py]. *)
Ltac emits_spawn :=
  lazymatch goal with
  | |- emits _ (poll_ip _ _ _ _ _) => apply emits_poll_ip
  | |- emits _ (get_vm_ip _ _ _) => apply emits_get_vm_ip
  | |- emits _ (create_dns _ _ _ _) => apply emits_create_dns
  | |- emits _ (delete_dns _ _ _) => apply emits_delete_dns
  | |- emits _ (wait_for_ssh _ _ _ _) => apply emits_wait_for_ssh
  | |- emits _ (bootstrap_node _ _ _ _ _) => apply emits_bootstrap_node
  | |- emits _ (discord_notify _ _ _ _) => apply emits_discord_notify
  | |- emits _ (run_provider_cmd _ _ _ _) => apply emits_run_provider_cmd
  | _ => emits_step
  end.

Section Steps.
Context {S : Type}.

Lemma bind_Ret {A B} (m : M S A) (k : A -> M S B) s a s1 t1 :
  m s = (Ret a, s1, t1) ->
  bind m k s = (result (k a s1), final (k a s1), t1 ++ trace (k a s1)).
Proof.
  intros E. unfold bind, result, final, trace. rewrite E.
  by destruct (k a s1) as [[r s2] t2].
Qed.

Lemma bind_print {B} l (k : unit -> M S B) s :
  bind (print l) k s = (result (k tt s), final (k tt s), EvPrint l :: trace (k tt s)).
Proof. by rewrite (bind_Ret _ _ s tt s [EvPrint l]). Qed.

Lemma trace_bind_print {B} l (k : unit -> M S B) s :
  trace (bind (print l) k s) = EvPrint l :: trace (k tt s).
Proof. by rewrite bind_print. Qed.

Lemma result_bind_print {B} l (k : unit -> M S B) s :
  result (bind (print l) k s) = result (k tt s).
Proof. by rewrite bind_print. Qed.

Lemma final_bind_print {B} l (k : unit -> M S B) s :
  final (bind (print l) k s) = final (k tt s).
Proof. by rewrite bind_print. Qed.

Lemma trace_bind_Ret {A B} (m : M S A) (k : A -> M S B) s a s1 t1 :
  m s = (Ret a, s1, t1) -> trace (bind m k s) = t1 ++ trace (k a s1).
Proof. intros E. by rewrite (bind_Ret _ _ _ _ _ _ E). Qed.

Lemma result_bind_Ret {A B} (m : M S A) (k : A -> M S B) s a s1 t1 :
  m s = (Ret a, s1, t1) -> result (bind m k s) = result (k a s1).
Proof. intros E. by rewrite (bind_Ret _ _ _ _ _ _ E). Qed.

Lemma final_bind_Ret {A B} (m : M S A) (k : A -> M S B) s a s1 t1 :
  m s = (Ret a, s1, t1) -> final (bind m k s) = final (k a s1).
Proof. intros E. by rewrite (bind_Ret _ _ _ _ _ _ E). Qed.

Lemma emits_at {A} P (m : M S A) s : emits P m -> Forall P (trace (m s)).
Proof. intros Hm. apply Hm. Qed.

Lemma bind_ret {A B} (a : A) (k : A -> M S B) s : bind (ret a) k s = k a s.
Proof.
  rewrite (bind_Ret _ _ s a s []); [|done]. unfold result, final, trace.
  by destruct (k a s) as [[r s2] t2].
Qed.

End Steps.

Lemma filter_none {A} (f : A -> bool) l :
  Forall (fun x => f x = false) l -> List.filter f l = [].
Proof. induction 1 as [|x l Hx _ IH]; simpl; [done|]. by rewrite Hx. Qed.

Section C7.
Context {W N : Type} (H : host W N) (ENV : gmap str str).

Lemma in_world_eq {A} (f : W -> A * W) ev (s : W * N) :
  in_world f ev s = (Ret (f s.1).1, ((f s.1).2, s.2), [ev (f s.1).1]).
Proof. unfold in_world. by destruct (f s.1). Qed.

Lemma tail_of_emits {S A B} P (m : M S A) (k : A -> M S B) s :
  (forall a, emits P (k a)) -> Forall P (tail_of m k s).
Proof. intros Hk. unfold tail_of. destruct (result (m s)); try constructor. apply Hk. Qed.

Lemma list_is_not_create p out : is_create (EvProvider p [u "list"] out) = false.
Proof. vm_compute. reflexivity. Qed.

(** Claim C7. Every run of [spawn_node], whatever the host answers and
    wherever the run ends, calls the provider's [create] exactly once. *)
Theorem create_once fuel name p s :
  creates (trace (spawn_node H ENV fuel name p s)) = 1%nat.
Proof.
  unfold spawn_node, creates.
  rewrite !trace_bind_print. cbn [List.filter is_create].
  rewrite trace_bind, List.filter_app, length_app.
  rewrite (filter_none _ (tail_of _ _ _)).
  - unfold run_provider_cmd. rewrite in_world_eq. reflexivity.
  - apply tail_of_emits. intros [[stdout stderr] code].
    pose proof (list_is_not_create p).
    repeat emits_spawn; try done.
Qed.
End C7.

Section C5.
Context {W N : Type} (H : host W N) (ENV : gmap str str).

Lemma get_vm_ip_eq p name (s : W * N) :
  get_vm_ip H p name s =
  let o := provider_proc H p [u "list"] s.1 in
  (Ret (ip_of_listing o.1.1.1 name), (o.2, s.2), [EvProvider p [u "list"] o.1]).
Proof.
  unfold get_vm_ip, run_provider_cmd.
  rewrite (bind_Ret _ _ _ _ _ _ (in_world_eq _ _ _)).
  destruct (provider_proc H p [u "list"] s.1) as [[[stdout stderr] code] w].
  reflexivity.
Qed.

Lemma sleep_eq secs (s : W * N) :
  sleep H secs s = (Ret tt, (time_sleep H secs s.1, s.2), [EvSleep secs]).
Proof. reflexivity. Qed.

(** The polling loop: [outs] are the listings that gave no address. *)
Lemma poll_ip_spec n p name last s :
  truthy_opt last = false ->
  exists outs, Forall (no_address name) outs /\
    ((length outs = n /\
      (exists ip, result (poll_ip H n last p name s) = Ret ip /\ truthy_opt ip = false) /\
      trace (poll_ip H n last p name s) = flat_map (missed p) outs)
     \/
     ((length outs < n)%nat /\ exists found ip,
        ip_of_listing found.1.1 name = Some ip /\ truthy_str ip = true /\
        result (poll_ip H n last p name s) = Ret (Some ip) /\
        trace (poll_ip H n last p name s)
        = flat_map (missed p) outs ++ [EvProvider p [u "list"] found])).
Proof.
  revert last s. induction n as [|n IH]; intros last s Hlast.
  - exists []. split; [constructor|]. left. repeat split. by exists last.
  - cbn [poll_ip].
    rewrite (bind_Ret _ _ _ _ _ _ (get_vm_ip_eq _ _ _)). cbn zeta.
    set (o := provider_proc H p [u "list"] s.1).
    destruct (truthy_opt (ip_of_listing o.1.1.1 name)) eqn:Hip.
    + exists []. split; [constructor|]. right. split; [simpl; lia|].
      destruct (ip_of_listing o.1.1.1 name) as [ip|] eqn:Hi; [|discriminate].
      exists o.1, ip. by repeat split.
    + rewrite (bind_Ret _ _ _ _ _ _ (sleep_eq _ _)).
      destruct (IH (ip_of_listing o.1.1.1 name)
                  (time_sleep H 5 (o.2, s.2).1, (o.2, s.2).2) Hip)
        as (outs & Hall & Hcase).
      exists (o.1 :: outs). split; [by constructor|].
      destruct Hcase as [(Hlen & Hres & Htr) | (Hlen & found & ip & Hf & Ht & Hres & Htr)].
      * left. unfold result, trace in *. simpl in *. rewrite Htr.
        repeat split; [lia | done].
      * right. split; [simpl; lia|]. exists found, ip.
        unfold result, trace in *. simpl in *. rewrite Htr. by repeat split.
Qed.

Lemma filter_filter_none {A} (f g : A -> bool) l :
  Forall (fun x => f x = false) l -> List.filter f (List.filter g l) = [].
Proof.
  intros Hl. apply filter_none. induction Hl as [|x l Hx _ IH]; simpl; [constructor|].
  destruct (g x); [by constructor | done].
Qed.

Lemma filter_list_scheduled t :
  List.filter is_list t = List.filter is_list (List.filter scheduled t).
Proof.
  induction t as [|e t IH]; simpl; [done|].
  destruct e; simpl; try done; try by rewrite IH.
Qed.

Lemma count_missed p outs :
  length (List.filter is_list (flat_map (missed p) outs)) = length outs.
Proof.
  induction outs as [|o outs IH]; simpl; [done|].
  change (is_list (EvProvider p [u "list"] o)) with true. simpl. by rewrite IH.
Qed.

Lemma scheduled_missed p outs :
  List.filter scheduled (flat_map (missed p) outs) = flat_map (missed p) outs.
Proof. induction outs as [|o outs IH]; simpl; [done|]. by rewrite IH. Qed.

Lemma dns_missed p outs : List.filter is_dns (flat_map (missed p) outs) = [].
Proof. induction outs as [|o outs IH]; simpl; done. Qed.

Lemma spawn_node_schedule fuel name p s :
  let r := spawn_node H ENV fuel name p s in
  exists out outs,
    Forall (no_address name) outs /\
    ((out.2 <> 0%Z /\ outs = [] /\
      List.filter scheduled (trace r) = [EvProvider p [u "create"; name] out] /\
      result r = Ret false /\ List.filter is_dns (trace r) = [])
     \/
     (out.2 = 0%Z /\ length outs = 12%nat /\
      List.filter scheduled (trace r)
      = EvProvider p [u "create"; name] out :: EvSleep 15 :: flat_map (missed p) outs /\
      result r = Ret false /\ List.filter is_dns (trace r) = [])
     \/
     (out.2 = 0%Z /\ (length outs < 12)%nat /\ exists found rest,
        ~ no_address name found /\
        List.filter scheduled (trace r)
        = EvProvider p [u "create"; name] out :: EvSleep 15
          :: flat_map (missed p) outs ++ EvProvider p [u "list"] found :: rest /\
        List.filter is_list rest = [])).
Proof.
  cbv zeta. unfold spawn_node.
  rewrite !trace_bind_print, !result_bind_print.
  unfold run_provider_cmd.
  rewrite (trace_bind_Ret _ _ _ _ _ _ (in_world_eq _ _ _)).
  rewrite (result_bind_Ret _ _ _ _ _ _ (in_world_eq _ _ _)).
  set (o := provider_proc H p [u "create"; name] s.1).
  exists o.1.
  destruct o as [[[stdout stderr] code] w]. cbn [fst snd].
  rewrite !trace_bind_print, !result_bind_print.
  destruct (Z.eqb_spec code 0) as [Hc|Hc]; cbn [negb].
  2:{ exists []. split; [constructor|]. left.
      rewrite !trace_bind_print, !result_bind_print. by repeat split. }
  rewrite !trace_bind_print, !result_bind_print.
  rewrite (trace_bind_Ret _ _ _ _ _ _ (sleep_eq _ _)).
  rewrite (result_bind_Ret _ _ _ _ _ _ (sleep_eq _ _)).
  set (s2 := (time_sleep H 15 (w, s.2).1, (w, s.2).2)).
  rewrite trace_bind, result_bind. unfold tail_of.
  destruct (poll_ip_spec 12 p name None s2 eq_refl) as (outs & Hall & Hcase).
  exists outs. split; [done|].
  destruct Hcase as [(Hlen & (ip & Hres & Hip) & Htr) | (Hlen & found & ip & Hf & Ht & Hres & Htr)].
  - right; left. rewrite Hres, Htr.
    destruct ip as [ip|]; [simpl in Hip; rewrite Hip|]; cbn [negb];
      rewrite !trace_bind_print, !result_bind_print;
      cbn [List.filter scheduled is_dns app];
      rewrite !List.filter_app, scheduled_missed, dns_missed.
      all: change (trace (ret false ?x)) with (@nil event);
        cbn [List.filter scheduled is_dns app]; rewrite app_nil_r; by repeat split.
  - right; right. rewrite Hres, Htr. rewrite Ht. cbn [negb].
    split; [done|]. split; [done|]. exists found.
    eexists. split.
    { unfold no_address. rewrite Hf. simpl. by rewrite Ht. }
    split.
    + cbn [List.filter scheduled app]. rewrite !List.filter_app, scheduled_missed.
      cbn [List.filter scheduled app]. rewrite <- !app_assoc. reflexivity.
    + apply filter_filter_none. apply emits_at.
      repeat emits_spawn; done.
Qed.

(** Claim C5. A spawn asks the provider for its listing at most 12 times.
    Either the create failed and nothing else is asked; or the spawn sleeps
    15 seconds and then lists, sleeping 5 seconds after every listing without
    an address: after 12 such listings it returns [False] and has made no
    Cloudflare call; or a listing among the first 12 shows an address and no
    listing follows it. *)
Theorem address_poll_bounded fuel name p s :
  let r := spawn_node H ENV fuel name p s in
  (length (List.filter is_list (trace r)) <= 12)%nat /\
  exists out outs,
    Forall (no_address name) outs /\
    ((out.2 <> 0%Z /\ outs = [] /\
      List.filter scheduled (trace r) = [EvProvider p [u "create"; name] out] /\
      result r = Ret false /\ List.filter is_dns (trace r) = [])
     \/
     (out.2 = 0%Z /\ length outs = 12%nat /\
      List.filter scheduled (trace r)
      = EvProvider p [u "create"; name] out :: EvSleep 15 :: flat_map (missed p) outs /\
      result r = Ret false /\ List.filter is_dns (trace r) = [])
     \/
     (out.2 = 0%Z /\ (length outs < 12)%nat /\ exists found rest,
        ~ no_address name found /\
        List.filter scheduled (trace r)
        = EvProvider p [u "create"; name] out :: EvSleep 15
          :: flat_map (missed p) outs ++ EvProvider p [u "list"] found :: rest /\
        List.filter is_list rest = [])).
Proof.
  cbv zeta. split; [|apply spawn_node_schedule].
  destruct (spawn_node_schedule fuel name p s) as (out & outs & Hall & Hcase).
  cbv zeta in Hcase. rewrite filter_list_scheduled.
  destruct Hcase as [(_ & _ & -> & _) | [(_ & Hlen & -> & _) | (_ & Hlen & found & rest & _ & -> & Hrest)]].
  - simpl. lia.
  - cbn [List.filter is_list]. rewrite count_missed. lia.
  - cbn [List.filter is_list]. rewrite List.filter_app, length_app, count_missed.
    change (is_list (EvProvider p [u "list"] found)) with true.
    cbn [List.filter]. rewrite Hrest. simpl. lia.
Qed.

End C5.

Section Bootstrap.
Context {W N : Type} (H : host W N) (ENV : gmap str str).

Lemma ssh_run_eq host cmd user (s : W * N) :
  ssh_run H host cmd user s =
  let o := ssh_proc H (user ++ u "@" ++ host) cmd s.1 in
  (Ret o.1, (o.2, s.2), [EvSsh (user ++ u "@" ++ host) cmd o.1]).
Proof. unfold ssh_run. by rewrite in_world_eq. Qed.

Lemma read_world_eq {A} (f : W -> A * W) (s : W * N) :
  read_world f s = (Ret (f s.1).1, ((f s.1).2, s.2), []).
Proof. unfold read_world. by destruct (f s.1). Qed.

End Bootstrap.

Ltac run_step :=
  match goal with
  | |- context [trace (bind ?m ?k ?s)] =>
      lazymatch m with
      | print ?l => rewrite (trace_bind_print l k s)
      | ssh_run ?H ?h ?c ?us => rewrite (trace_bind_Ret m k s _ _ _ (ssh_run_eq H h c us s))
      | read_world ?f => rewrite (trace_bind_Ret m k s _ _ _ (read_world_eq f s))
      | sleep ?H ?n => rewrite (trace_bind_Ret m k s _ _ _ (sleep_eq H n s))
      end
  | |- context [result (bind ?m ?k ?s)] =>
      lazymatch m with
      | print ?l => rewrite (result_bind_print l k s)
      | ssh_run ?H ?h ?c ?us => rewrite (result_bind_Ret m k s _ _ _ (ssh_run_eq H h c us s))
      | read_world ?f => rewrite (result_bind_Ret m k s _ _ _ (read_world_eq f s))
      | sleep ?H ?n => rewrite (result_bind_Ret m k s _ _ _ (sleep_eq H n s))
      end
  | |- context [final (bind ?m ?k ?s)] =>
      lazymatch m with
      | print ?l => rewrite (final_bind_print l k s)
      | ssh_run ?H ?h ?c ?us => rewrite (final_bind_Ret m k s _ _ _ (ssh_run_eq H h c us s))
      | read_world ?f => rewrite (final_bind_Ret m k s _ _ _ (read_world_eq f s))
      | sleep ?H ?n => rewrite (final_bind_Ret m k s _ _ _ (sleep_eq H n s))
      end
  end; cbn [fst snd].

Ltac run_bootstrap := repeat run_step.

Section BootstrapFacts.
Context {W N : Type} (H : host W N) (ENV : gmap str str).

Lemma bootstrap_node_result name ip p s :
  result (bootstrap_node H ENV name ip p s) = Ret true.
Proof. destruct s as [w n]. unfold bootstrap_node, now. run_bootstrap. reflexivity. Qed.

Lemma bootstrap_node_commands name ip p s :
  exists created today,
    ssh_commands (trace (bootstrap_node H ENV name ip p s))
    = map snd (bootstrap_plan ENV name p created today).
Proof.
  destruct s as [w n]. unfold bootstrap_node, now. run_bootstrap.
  eexists _, _. cbn [ssh_commands flat_map app map snd bootstrap_plan].
  reflexivity.
Qed.

End BootstrapFacts.

Lemma ssh_commands_app t1 t2 :
  ssh_commands (t1 ++ t2) = ssh_commands t1 ++ ssh_commands t2.
Proof. unfold ssh_commands. apply flat_map_app. Qed.

Lemma ssh_commands_none t :
  Forall (fun e => is_ssh e = false) t -> ssh_commands t = [].
Proof.
  induction 1 as [|e t He _ IH]; [done|]. destruct e; try discriminate; exact IH.
Qed.

Section Lifecycle.
Context {W N : Type} (H : host W N) (ENV : gmap str str).

Lemma discord_notify_returns msg url s :
  exists b, result (discord_notify H ENV msg url s) = Ret b
            /\ (final (discord_notify H ENV msg url s)).1 = s.1.
Proof.
  unfold discord_notify.
  destruct (if truthy_opt url then url else ENV !! u "DISCORD_BACKUP_WEBHOOK") as [w|];
    [destruct (truthy_str w)|]; try (by eexists).
  unfold try_except_Exception, in_sink, bind, lift, result, final. simpl.
  destruct (webhook_post H w _ s.2) as [[e|status] n']; simpl; by eexists.
Qed.

Lemma result_bind_returns {S A B} (m : M S A) (k : M S B) s :
  (exists a, result (m s) = Ret a) ->
  result (bind m (fun _ => k) s) = result (k (final (m s))).
Proof. intros [a Ha]. by rewrite result_bind, Ha. Qed.

Lemma trace_bind_returns {S A B} (m : M S A) (k : M S B) s :
  (exists a, result (m s) = Ret a) ->
  trace (bind m (fun _ => k) s) = trace (m s) ++ trace (k (final (m s))).
Proof. intros [a Ha]. rewrite trace_bind. unfold tail_of. by rewrite Ha. Qed.

Lemma discord_notify_result msg url s :
  exists b, result (discord_notify H ENV msg url s) = Ret b.
Proof. destruct (discord_notify_returns msg url s) as (b & Hb & _). eauto. Qed.

Ltac dead :=
  let Hs := fresh in
  intros Hs; exfalso; apply Hs; rewrite ?trace_bind_print; reflexivity.

(** Once the bootstrap has been reached the run ends in success. *)
Lemma spawn_node_after_ssh fuel name p s :
  ssh_commands (trace (spawn_node H ENV fuel name p s)) <> [] ->
  result (spawn_node H ENV fuel name p s) = Ret true.
Proof.
  destruct s as [w n]. unfold spawn_node.
  rewrite !trace_bind_print, !result_bind_print.
  unfold run_provider_cmd.
  rewrite (trace_bind_Ret _ _ _ _ _ _ (in_world_eq _ _ _)).
  rewrite (result_bind_Ret _ _ _ _ _ _ (in_world_eq _ _ _)).
  cbn [fst snd].
  destruct (provider_proc H p [u "create"; name] w) as [[[stdout stderr] code] w1].
  cbn [fst snd].
  rewrite !trace_bind_print, !result_bind_print.
  destruct (code =? 0)%Z; cbn [negb]; [|dead].
  rewrite !trace_bind_print, !result_bind_print.
  rewrite (trace_bind_Ret _ _ _ _ _ _ (sleep_eq _ _ _)).
  rewrite (result_bind_Ret _ _ _ _ _ _ (sleep_eq _ _ _)).
  cbn [fst snd app ssh_commands flat_map].
  rewrite trace_bind, result_bind, ssh_commands_app.
  rewrite (ssh_commands_none (trace (poll_ip _ _ _ _ _ _))).
  2:{ apply emits_at. repeat emits_spawn; done. }
  unfold tail_of.
  destruct (result (poll_ip H 12 None p name _)) as [[ip|]| | |]; try dead.
  destruct (truthy_str ip); cbn [negb]; [|dead].
  rewrite !trace_bind_print, !result_bind_print.
  cbn [fst snd app ssh_commands flat_map].
  rewrite trace_bind, result_bind, ssh_commands_app.
  rewrite (ssh_commands_none (trace (create_dns _ _ _ _ _))).
  2:{ apply emits_at. repeat emits_spawn; done. }
  unfold tail_of.
  destruct (result (create_dns H ENV name ip _)) as [created| | |]; try dead.
  destruct (truthy created).
  all: rewrite !trace_bind_print, !result_bind_print.
  all: cbn [fst snd app ssh_commands flat_map].
  all: rewrite trace_bind, result_bind, ssh_commands_app.
  all: rewrite (ssh_commands_none (trace (wait_for_ssh _ _ _ _ _)));
    [| apply emits_at; repeat emits_spawn; done].
  all: unfold tail_of.
  all: destruct (result (wait_for_ssh H fuel ip 120 _)) as [[|]| | |]; try dead.
  all: cbn [negb]; intros _.
  all: rewrite !result_bind_print.
  all: rewrite (result_bind_Ret _ _ _ _ _ _ (sleep_eq _ _ _)).
  all: rewrite !result_bind_print.
  all: rewrite result_bind, bootstrap_node_result; cbn [negb].
  all: rewrite result_bind_returns by apply discord_notify_result.
  all: rewrite !result_bind_print; reflexivity.
Qed.

Lemma wait_for_ssh_first_probe fuel host s :
  (forall w, ((time_time H (time_time H w).2).1 - (time_time H w).1 < 120000000)%Z) ->
  (forall w, (connect_ex H host 22 w).1 = inr 0%Z) ->
  result (wait_for_ssh H (S fuel) host 120 s) = Ret true.
Proof.
  intros Hclock Hconn. destruct s as [w n]. unfold wait_for_ssh.
  rewrite (result_bind_Ret _ _ _ _ _ _ (read_world_eq _ _)). cbn [fst snd wait_for_ssh_loop].
  rewrite (result_bind_Ret _ _ _ _ _ _ (read_world_eq _ _)). cbn [fst snd].
  specialize (Hclock w). apply Z.ltb_lt in Hclock.
  change (120 * 1000000)%Z with 120000000%Z. rewrite Hclock.
  unfold result, bind, try_except, in_world, lift. cbn [fst snd].
  specialize (Hconn (time_time H (time_time H w).2).2).
  destruct (connect_ex H host 22 _) as [r w']. simpl in Hconn. subst r. reflexivity.
Qed.

Lemma poll_ip_first n p name s :
  (forall w, truthy_opt (ip_of_listing (provider_proc H p [u "list"] w).1.1.1 name) = true) ->
  exists ip out,
    result (poll_ip H (S n) None p name s) = Ret (Some ip) /\ truthy_str ip = true /\
    trace (poll_ip H (S n) None p name s) = [EvProvider p [u "list"] out].
Proof.
  intros Hlist. cbn [poll_ip].
  rewrite (bind_Ret _ _ _ _ _ _ (get_vm_ip_eq _ _ _ _)). cbv zeta.
  specialize (Hlist s.1). rewrite Hlist.
  destruct (ip_of_listing _ name) as [ip|]; [|discriminate].
  exists ip, (provider_proc H p [u "list"] s.1).1. by repeat split.
Qed.

Lemma bootstrap_node_identity name ip p s :
  exists today out,
    EvSsh (u "root" ++ u "@" ++ ip)
      (heredoc (u "/var/www/html/env.json")
         (dumps (Some 2%nat) (env_dict name (name ++ u ".giobi.com") p (strftime_ymd today))))
      out
    ∈ trace (bootstrap_node H ENV name ip p s).
Proof.
  destruct s as [w n]. unfold bootstrap_node, now. run_bootstrap.
  eexists _, _. eapply (list_elem_of_lookup_2 _ 16). reflexivity.
Qed.

End Lifecycle.

Lemma escape_char_plain c : plain c -> escape_char c = [c].
Proof.
  intros (Hr & Hq & Hb). unfold escape_char.
  repeat match goal with
         | |- context [?a =? ?b] => destruct (N.eqb_spec a b); [lia|]
         end.
  destruct (N.leb_spec 32 c), (N.leb_spec c 126); simpl; try lia. reflexivity.
Qed.

Lemma encode_string_plain s : Forall plain s -> encode_string s = dq ++ s ++ dq.
Proof.
  intros Hs. unfold encode_string. f_equal. f_equal.
  induction Hs as [|c s Hc _ IH]; [done|]. simpl. by rewrite escape_char_plain, IH.
Qed.

Lemma env_json_prefix :
  u "{" ++ newline_indent (Some 2%nat) 1 ++ encode_string (u "node") ++ u ": "
  = u "{
  " ++ dq ++ u "node" ++ dq ++ u ": ".
Proof. vm_compute. reflexivity. Qed.

Lemma env_json_node name hostname p today :
  exists rest,
    dumps (Some 2%nat) (env_dict name hostname p today)
    = (u "{
  " ++ dq ++ u "node" ++ dq ++ u ": ") ++ encode_string name ++ rest.
Proof.
  unfold dumps, env_dict. cbn [dumps_at]. eexists.
  rewrite <- env_json_prefix, <- !app_assoc. reflexivity.
Qed.

Section Success.
Context {W D : Type} (H : host W D) (ENV : gmap str str).

Lemma result_if_print {S} (b : bool) l1 l2 (s : S) :
  result ((if b then print l1 else print l2) s) = Ret tt.
Proof. by destruct b. Qed.

Lemma final_if_print {S} (b : bool) l1 l2 (s : S) :
  final ((if b then print l1 else print l2) s) = s.
Proof. by destruct b. Qed.

(** Claim C2, amended. When the provider's create exits with 0, every listing
    shows an address for [name], the DNS upsert returns without raising, the
    first reading of the clock inside the loop is less than 120 seconds after
    the start and port 22 accepts the connection, [spawn_node] returns [True]
    and the document written to /var/www/html/env.json has ["node"] equal to
    [name] as its first field. *)
Theorem spawn_reaches_ready fuel name p s :
  (forall w, (provider_proc H p [u "create"; name] w).1.2 = 0%Z) ->
  (forall w, truthy_opt (ip_of_listing (provider_proc H p [u "list"] w).1.1.1 name) = true) ->
  (forall ip s', exists v, result (create_dns H ENV name ip s') = Ret v) ->
  (forall w, ((time_time H (time_time H w).2).1 - (time_time H w).1 < 120000000)%Z) ->
  (forall host w, (connect_ex H host 22 w).1 = inr 0%Z) ->
  let r := spawn_node H ENV (S fuel) name p s in
  result r = Ret true /\
  exists ip today out fields rest,
    EvSsh (u "root" ++ u "@" ++ ip)
      (heredoc (u "/var/www/html/env.json") (dumps (Some 2%nat) (JDict fields))) out
    ∈ trace r /\
    fields = match env_dict name (name ++ u ".giobi.com") p (strftime_ymd today) with
             | JDict d => d | _ => [] end /\
    assoc (u "node") fields = Some (JStr name) /\
    dumps (Some 2%nat) (JDict fields)
    = (u "{
  " ++ dq ++ u "node" ++ dq ++ u ": ") ++ encode_string name ++ rest.
Proof.
  intros Hcreate Hlist Hdns Hclock Hconn. cbv zeta.
  destruct s as [w n]. unfold spawn_node.
  rewrite !trace_bind_print, !result_bind_print.
  unfold run_provider_cmd.
  rewrite (trace_bind_Ret _ _ _ _ _ _ (in_world_eq _ _ _)).
  rewrite (result_bind_Ret _ _ _ _ _ _ (in_world_eq _ _ _)).
  cbn [fst snd].
  specialize (Hcreate w).
  destruct (provider_proc H p [u "create"; name] w) as [[[stdout stderr] code] w1].
  cbn [fst snd] in *. subst code. cbn [Z.eqb negb].
  repeat run_step.
  rewrite trace_bind, result_bind. unfold tail_of.
  destruct (poll_ip_first H 11 p name (time_sleep H 15 w1, n) Hlist)
    as (ip & out & Hres & Hip & Htr).
  rewrite Hres, Htr, Hip. cbn [negb].
  repeat run_step.
  rewrite trace_bind, result_bind. unfold tail_of.
  destruct (Hdns ip (final (poll_ip H 12 None p name (time_sleep H 15 w1, n))))
    as (created & Hc).
  rewrite Hc.
  rewrite trace_bind_returns, result_bind_returns
    by (eexists; apply result_if_print).
  repeat run_step.
  rewrite trace_bind, result_bind. unfold tail_of.
  rewrite (wait_for_ssh_first_probe H fuel ip _ Hclock (Hconn ip)). cbn [negb].
  repeat run_step.
  rewrite trace_bind, result_bind. unfold tail_of.
  rewrite bootstrap_node_result. cbn [negb].
  rewrite result_bind_returns by apply discord_notify_result.
  repeat run_step.
  split; [reflexivity|].
  match goal with
  | |- context [trace (bootstrap_node H ENV name ip p ?s0)] =>
      destruct (bootstrap_node_identity H ENV name ip p s0) as (today & o & Hin)
  end.
  destruct (env_json_node name (name ++ u ".giobi.com") p (strftime_ymd today)) as [rest Hrest].
  exists ip, today, o. eexists. exists rest.
  split; [|split; [reflexivity|split; [reflexivity | exact Hrest]]].
  repeat lazymatch goal with
         | |- _ ∈ trace (bootstrap_node _ _ _ _ _ _) ++ _ => apply elem_of_app; left; exact Hin
         | |- _ ∈ _ :: _ => apply list_elem_of_further
         | |- _ ∈ _ ++ _ => apply elem_of_app; right
         end.
Qed.

End Success.

Section Simulation.
Context {W D1 D2 : Type}.

Lemma outcome_rel_eq {A} (x y : outcome A) : outcome_rel eq x y -> x = y.
Proof. destruct x, y; simpl; try done; by intros ->. Qed.

Lemma sim_wsim {A} (m1 : M (W * D1) A) (m2 : M (W * D2) A) : sim eq m1 m2 -> wsim m1 m2.
Proof. intros Hs w n1 n2. apply outcome_rel_eq, Hs. Qed.

Lemma sim_ret {A B} (R : A -> B -> Prop) a b : R a b -> sim (W:=W) (D1:=D1) (D2:=D2) R (ret a) (ret b).
Proof. intros HR w n1 n2. by repeat split. Qed.

Lemma sim_raise {A B} (R : A -> B -> Prop) e : sim (W:=W) (D1:=D1) (D2:=D2) R (raise e) (raise e).
Proof. intros w n1 n2. by repeat split. Qed.

Lemma sim_diverge {A B} (R : A -> B -> Prop) : sim (W:=W) (D1:=D1) (D2:=D2) R diverge diverge.
Proof. intros w n1 n2. by repeat split. Qed.

Lemma sim_lift {A} (r : exn + A) : sim (W:=W) (D1:=D1) (D2:=D2) eq (lift r) (lift r).
Proof. destruct r; [apply sim_raise | by apply sim_ret]. Qed.

Lemma sim_print l : sim (W:=W) (D1:=D1) (D2:=D2) eq (print l) (print l).
Proof. intros w n1 n2. by repeat split. Qed.

Lemma sim_bind {A1 A2 B1 B2} (R : A1 -> A2 -> Prop) (R' : B1 -> B2 -> Prop)
    (m1 : M (W * D1) A1) (m2 : M (W * D2) A2) k1 k2 :
  sim R m1 m2 -> (forall a b, R a b -> sim R' (k1 a) (k2 b)) ->
  sim R' (bind m1 k1) (bind m2 k2).
Proof.
  intros Hm Hk w n1 n2. destruct (Hm w n1 n2) as (Hr & Hf & Ht).
  rewrite !result_bind, !trace_bind, !final_bind. unfold tail_of, lifecycle_trace in *.
  rewrite !List.filter_app, Ht.
  destruct (result (m1 (w, n1))) as [a| | |], (result (m2 (w, n2))) as [b| | |];
    simpl in Hr; try done.
  destruct (final (m1 (w, n1))) as [w1 n1'], (final (m2 (w, n2))) as [w2 n2'].
  simpl in Hf. subst w2.
  destruct (Hk a b Hr w1 n1' n2') as (Hr' & Hf' & Ht').
  unfold lifecycle_trace in Ht'. by rewrite Ht'.
Qed.

Lemma wsim_bind {A1 A2 B} (R : A1 -> A2 -> Prop)
    (m1 : M (W * D1) A1) (m2 : M (W * D2) A2) (k1 : A1 -> M _ B) k2 :
  sim R m1 m2 -> (forall a b, R a b -> wsim (k1 a) (k2 b)) ->
  wsim (bind m1 k1) (bind m2 k2).
Proof.
  intros Hm Hk w n1 n2. destruct (Hm w n1 n2) as (Hr & Hf & _).
  rewrite !result_bind.
  destruct (result (m1 (w, n1))) as [a| | |], (result (m2 (w, n2))) as [b| | |];
    simpl in Hr; try done; try congruence.
  destruct (final (m1 (w, n1))) as [w1 n1'], (final (m2 (w, n2))) as [w2 n2'].
  simpl in Hf. subst w2. by apply Hk.
Qed.

Lemma sim_try_except {A} (m1 h1 : M (W * D1) A) (m2 h2 : M (W * D2) A) :
  sim eq m1 m2 -> sim eq h1 h2 -> sim eq (try_except m1 h1) (try_except m2 h2).
Proof.
  intros Hm Hh w n1 n2. destruct (Hm w n1 n2) as (Hr & Hf & Ht).
  unfold try_except, result, final, trace, lifecycle_trace in *.
  destruct (m1 (w, n1)) as [[r1 [w1 n1']] t1], (m2 (w, n2)) as [[r2 [w2 n2']] t2].
  simpl in *. subst w2.
  destruct r1 as [a| | |], r2 as [b| | |]; simpl in Hr; try done.
  all: destruct (Hh w1 n1' n2') as (Hr' & Hf' & Ht');
    unfold result, final, trace, lifecycle_trace in *;
    destruct (h1 (w1, n1')) as [[r1' s1'] t1'], (h2 (w1, n2')) as [[r2' s2'] t2'];
    simpl in *; rewrite !List.filter_app, Ht, Ht'; by repeat split.
Qed.

Lemma sim_in_world {A} (f : W -> A * W) ev :
  (forall a, notification_event (ev a) = false) ->
  sim (W:=W) (D1:=D1) (D2:=D2) eq (in_world f ev) (in_world f ev).
Proof.
  intros Hev w n1 n2. unfold in_world, result, final, trace. simpl.
  destruct (f w) as [a w']. by repeat split.
Qed.

Lemma sim_read_world {A} (f : W -> A * W) : sim (W:=W) (D1:=D1) (D2:=D2) eq (read_world f) (read_world f).
Proof.
  intros w n1 n2. unfold read_world, result, final, trace. simpl.
  destruct (f w) as [a w']. by repeat split.
Qed.

End Simulation.

Ltac sim_step :=
  subst;
  lazymatch goal with
  | |- sim _ (bind _ _) (bind _ _) => eapply sim_bind; [| intros ? ? ?]
  | |- sim _ (ret _) (ret _) => apply sim_ret; try done
  | |- sim _ (raise _) (raise _) => apply sim_raise
  | |- sim _ diverge diverge => apply sim_diverge
  | |- sim _ (lift _) (lift _) => apply sim_lift
  | |- sim _ (print _) (print _) => apply sim_print
  | |- sim _ (try_except _ _) (try_except _ _) => apply sim_try_except
  | |- sim _ (in_world _ _) (in_world _ _) => apply sim_in_world; intros ?; reflexivity
  | |- sim _ (read_world _) (read_world _) => apply sim_read_world
  | |- sim _ (if ?b then _ else _) (if ?b then _ else _) => destruct b
  | |- sim _ (match ?x with _ => _ end) (match ?x with _ => _ end) => destruct x
  end.

Lemma startswith_app p s : startswith p (p ++ s) = true.
Proof. induction p as [|c p IH]; simpl; [done|]. by rewrite N.eqb_refl. Qed.

Lemma webhook_key_ne_token : u "DISCORD_BACKUP_WEBHOOK" <> u "CLOUDFLARE_API_TOKEN".
Proof. vm_compute. discriminate. Qed.

Lemma webhook_key_ne_github : u "DISCORD_BACKUP_WEBHOOK" <> u "GITHUB_TOKEN".
Proof. vm_compute. discriminate. Qed.

Lemma reconfigure_other (o : option str) (ENV : gmap str str) (k : str) :
  u "DISCORD_BACKUP_WEBHOOK" <> k -> reconfigure o ENV !! k = ENV !! k.
Proof.
  intros Hk. destruct o; simpl; [by rewrite lookup_insert_ne | by rewrite lookup_delete_ne].
Qed.

Section Notification.
Context {W D1 D2 : Type} (H : host W D1).
Variable post : str -> json -> D2 -> (exn + Z) * D2.
Variable ENV : gmap str str.

(** A notification always returns, leaves the world alone, and leaves nothing
    in the lifecycle trace. *)
Lemma discord_notify_quiet {D} (H0 : host W D) ENV0 msg url s :
  (exists b, result (discord_notify H0 ENV0 msg url s) = Ret b) /\
  (final (discord_notify H0 ENV0 msg url s)).1 = s.1 /\
  lifecycle_trace (trace (discord_notify H0 ENV0 msg url s)) = [].
Proof.
  unfold discord_notify.
  destruct (if truthy_opt url then url else ENV0 !! u "DISCORD_BACKUP_WEBHOOK") as [w|];
    [destruct (truthy_str w)|].
  2,3: split; [by eexists | split; [done|]]; vm_compute; reflexivity.
  unfold try_except_Exception, in_sink, bind, lift, result, final, trace, lifecycle_trace.
  cbn [fst snd]. destruct (webhook_post H0 w _ s.2) as [[e|status] n'];
    cbn [fst snd raise ret print emit app List.filter notification_event negb].
  - split; [by eexists | split; [done|]].
    rewrite startswith_app. reflexivity.
  - by split; [eexists | split].
Qed.

Lemma sim_discord_notify ENV' msg url msg' url' :
  sim (fun _ _ => True) (discord_notify H ENV msg url)
    (discord_notify (with_sink H post) ENV' msg' url').
Proof.
  intros w n1 n2.
  destruct (discord_notify_quiet H ENV msg url (w, n1)) as ([b1 Hb1] & Hf1 & Ht1).
  destruct (discord_notify_quiet (with_sink H post) ENV' msg' url' (w, n2))
    as ([b2 Hb2] & Hf2 & Ht2).
  rewrite Hb1, Hb2, Hf1, Hf2, Ht1, Ht2. by repeat split.
Qed.

Lemma sim_sleep secs : sim eq (sleep H secs) (sleep (with_sink H post) secs).
Proof. intros w n1 n2. by repeat split. Qed.

Lemma sim_run_provider_cmd p cmd args :
  sim eq (run_provider_cmd H p cmd args) (run_provider_cmd (with_sink H post) p cmd args).
Proof. unfold run_provider_cmd. cbn [with_sink provider_proc]. sim_step. Qed.

Lemma sim_get_vm_ip p name :
  sim eq (get_vm_ip H p name) (get_vm_ip (with_sink H post) p name).
Proof.
  unfold get_vm_ip. eapply sim_bind; [apply sim_run_provider_cmd|].
  intros [[stdout stderr] code] ? <-. by apply sim_ret.
Qed.

Lemma sim_poll_ip n last p name :
  sim eq (poll_ip H n last p name) (poll_ip (with_sink H post) n last p name).
Proof.
  revert last. induction n as [|n IH]; intros last; cbn [poll_ip].
  - by apply sim_ret.
  - eapply sim_bind; [apply sim_get_vm_ip|]. intros ip ? <-.
    destruct (truthy_opt ip); [by apply sim_ret|].
    eapply sim_bind; [apply sim_sleep|]. intros _ _ _. apply IH.
Qed.

Lemma sim_requests m url token payload :
  sim eq (requests H m url token payload) (requests (with_sink H post) m url token payload).
Proof. unfold requests. cbn [with_sink cloudflare]. repeat sim_step. Qed.

Lemma sim_create_dns name ip :
  sim eq (create_dns H ENV name ip) (create_dns (with_sink H post) ENV name ip).
Proof.
  unfold create_dns.
  repeat (subst; lazymatch goal with
         | |- sim _ (requests _ _ _ _ _) _ => apply sim_requests
         | _ => sim_step
         end).
Qed.

Lemma sim_delete_dns name :
  sim eq (delete_dns H ENV name) (delete_dns (with_sink H post) ENV name).
Proof.
  unfold delete_dns.
  repeat (subst; lazymatch goal with
         | |- sim _ (requests _ _ _ _ _) _ => apply sim_requests
         | _ => sim_step
         end).
Qed.

Lemma sim_wait_for_ssh fuel host timeout :
  sim eq (wait_for_ssh H fuel host timeout) (wait_for_ssh (with_sink H post) fuel host timeout).
Proof.
  unfold wait_for_ssh. cbn [with_sink time_time].
  eapply sim_bind; [apply sim_read_world|]. intros start ? <-.
  induction fuel as [|fuel IH]; cbn [wait_for_ssh_loop with_sink time_time connect_ex].
  - apply sim_diverge.
  - repeat (subst; lazymatch goal with
           | |- sim _ (wait_for_ssh_loop _ _ _ _ _) _ => apply IH
           | |- sim _ (sleep _ _) _ => apply sim_sleep
           | _ => sim_step
           end).
Qed.

Lemma sim_ssh_run host cmd user :
  sim eq (ssh_run H host cmd user) (ssh_run (with_sink H post) host cmd user).
Proof. unfold ssh_run. cbn [with_sink ssh_proc]. sim_step. Qed.

Lemma sim_bootstrap_node name ip p :
  sim eq (bootstrap_node H ENV name ip p) (bootstrap_node (with_sink H post) ENV name ip p).
Proof.
  unfold bootstrap_node, now. cbn [with_sink datetime_now].
  repeat (subst; lazymatch goal with
         | |- sim _ (ssh_run _ _ _ _) _ => apply sim_ssh_run
         | _ => sim_step
         end).
Qed.

End Notification.

Section Reconfigure.
Context {W D : Type} (H : host W D) (ENV : gmap str str) (o : option str).

Lemma create_dns_reconfigure name ip :
  create_dns H (reconfigure o ENV) name ip = create_dns H ENV name ip.
Proof.
  unfold create_dns. by rewrite (reconfigure_other o ENV _ webhook_key_ne_token).
Qed.

Lemma delete_dns_reconfigure name :
  delete_dns H (reconfigure o ENV) name = delete_dns H ENV name.
Proof.
  unfold delete_dns. by rewrite (reconfigure_other o ENV _ webhook_key_ne_token).
Qed.

End Reconfigure.

Ltac sim_spawn :=
  subst;
  lazymatch goal with
  | |- sim _ (poll_ip _ _ _ _ _) _ => apply sim_poll_ip
  | |- sim _ (get_vm_ip _ _ _) _ => apply sim_get_vm_ip
  | |- sim _ (create_dns _ _ _ _) _ => apply sim_create_dns
  | |- sim _ (delete_dns _ _ _) _ => apply sim_delete_dns
  | |- sim _ (wait_for_ssh _ _ _ _) _ => apply sim_wait_for_ssh
  | |- sim _ (bootstrap_node _ _ _ _ _) _ => apply sim_bootstrap_node
  | |- sim _ (discord_notify _ _ _ _) _ => apply sim_discord_notify
  | |- sim _ (run_provider_cmd _ _ _ _) _ => apply sim_run_provider_cmd
  | |- sim _ (sleep _ _) _ => apply sim_sleep
  | |- sim _ (let (_, _) := ?x in _) _ => destruct x
  | _ => sim_step
  end.

Section Outcome.
Context {W D1 D2 : Type} (H : host W D1).
Variable post : str -> json -> D2 -> (exn + Z) * D2.
Variable ENV : gmap str str.

Lemma sim_spawn_node fuel name p :
  sim eq (spawn_node H ENV fuel name p) (spawn_node (with_sink H post) ENV fuel name p).
Proof. unfold spawn_node. repeat sim_spawn. Qed.

Lemma sim_destroy_node o name p :
  sim eq (destroy_node H ENV name p)
    (destroy_node (with_sink H post) (reconfigure o ENV) name p).
Proof.
  unfold destroy_node. rewrite delete_dns_reconfigure. repeat sim_spawn.
Qed.

Lemma wsim_spawn_node o fuel name p :
  wsim (spawn_node H ENV fuel name p)
    (spawn_node (with_sink H post) (reconfigure o ENV) fuel name p).
Proof.
  unfold spawn_node.
  repeat (subst; lazymatch goal with
    | |- wsim (bind (bootstrap_node _ _ _ _ _) _) _ =>
        let w := fresh in let n1 := fresh in let n2 := fresh in
        intros w n1 n2;
        rewrite !result_bind, !bootstrap_node_result; cbn [negb];
        rewrite (result_bind_returns (discord_notify H _ _ _))
          by apply discord_notify_result;
        rewrite (result_bind_returns (discord_notify (with_sink H post) _ _ _))
          by apply discord_notify_result;
        rewrite !result_bind_print; reflexivity
    | |- wsim (bind (create_dns _ _ _ _) _) _ =>
        rewrite create_dns_reconfigure; eapply wsim_bind; [apply sim_create_dns | intros ? ? ?]
    | |- wsim (bind _ _) (bind _ _) => eapply wsim_bind; [repeat sim_spawn | intros ? ? ?]
    | |- wsim (if ?b then _ else _) (if ?b then _ else _) => destruct b
    | |- wsim (match ?x with _ => _ end) (match ?x with _ => _ end) => destruct x
    | |- wsim (let (_, _) := ?x in _) _ => destruct x
    end).
  all: try (intros ? ? ?; reflexivity).
Qed.

End Outcome.

Section Cases.
Context {W D : Type} (H : host W D) (ENV : gmap str str).

(** How a notification can end: not configured, raised, or answered. *)
Lemma discord_notify_cases msg s :
  let r := discord_notify H ENV msg None s in
  exists b, result r = Ret b /\ (final r).1 = s.1 /\
    ((truthy_opt (ENV !! u "DISCORD_BACKUP_WEBHOOK") = false /\ b = false /\
      trace r = [EvPrint (u "⚠️  No Discord webhook configured, skipping notification")])
     \/
     (exists url e, ENV !! u "DISCORD_BACKUP_WEBHOOK" = Some url /\ b = false /\
        trace r = [EvNotify url (JDict [(u "content", JStr msg)]) (inl e);
                   EvPrint (u "⚠️  Discord notification failed: " ++ exn_str e)])
     \/
     (exists url status, ENV !! u "DISCORD_BACKUP_WEBHOOK" = Some url /\
        b = (status =? 204)%Z /\
        trace r = [EvNotify url (JDict [(u "content", JStr msg)]) (inr status)])).
Proof.
  cbv zeta. unfold discord_notify. cbn [truthy_opt].
  destruct (ENV !! u "DISCORD_BACKUP_WEBHOOK") as [url|] eqn:E.
  2:{ exists false. repeat split. left. by repeat split. }
  cbn [truthy_opt]. destruct (truthy_str url) eqn:Hu.
  2:{ exists false. repeat split. left. by repeat split. }
  unfold try_except_Exception, in_sink, bind, lift, result, final, trace.
  cbn [fst snd]. destruct (webhook_post H url _ s.2) as [[e|status] n'];
    cbn [fst snd raise ret print emit app].
  - exists false. repeat split. right; left. by exists url, e.
  - exists (status =? 204)%Z. repeat split. right; right. by exists url, status.
Qed.

(** Claim C3, amended. [main] drops what the lifecycle returns: the process
    exits with 0 whenever [spawn_node] or [destroy_node] returns, be it
    [True] or [False], and with 1 when it raises; [main] does nothing of its
    own. *)
Theorem exit_status_ignores_outcome fuel args s :
  let lifecycle :=
    if arg_destroy args then destroy_node H ENV (arg_name args) (arg_provider args) s
    else spawn_node H ENV fuel (arg_name args) (arg_provider args) s in
  let r := main H ENV fuel args s in
  (forall b, result lifecycle = Ret b -> exit_status (result r) = Some 0%Z) /\
  (forall e, result lifecycle = Raise e -> exit_status (result r) = Some 1%Z) /\
  trace r = trace lifecycle.
Proof.
  cbv zeta. unfold main.
  assert (Hgen : forall (m : M (W * D) bool),
    (forall b, result (m s) = Ret b ->
       exit_status (result (bind m (fun _ => ret tt) s)) = Some 0%Z) /\
    (forall e, result (m s) = Raise e ->
       exit_status (result (bind m (fun _ => ret tt) s)) = Some 1%Z) /\
    trace (bind m (fun _ => ret tt) s) = trace (m s)).
  { intros m. rewrite result_bind, trace_bind. unfold tail_of.
    destruct (result (m s)) as [b|e|c|];
      cbn [exit_status result ret fst trace snd]; rewrite app_nil_r;
      repeat split; intros; (reflexivity || discriminate). }
  destruct (arg_destroy args); apply Hgen.
Qed.

Lemma requests_eq m url token payload (s : W * D) :
  requests H m url token payload s =
  let o := cloudflare H m url token payload s.1 in
  (match o.1 with inl e => Raise e | inr r => Ret r end, (o.2, s.2),
   [EvCloudflare m url token payload o.1]).
Proof.
  unfold requests. rewrite (bind_Ret _ _ _ _ _ _ (in_world_eq _ _ _)). cbv zeta.
  destruct (cloudflare H m url token payload s.1) as [[e|r] w']; reflexivity.
Qed.

End Cases.




Section ScalewayFacts.
Context {C : Type} (K : cloud C) (CREDS : gmap str str) (tok : str).
Hypothesis Htok : CREDS !! u "SCALEWAY_SECRET_KEY" = Some tok.
Hypothesis Htruthy : truthy_str tok = true.

Lemma api_request_eq m endpoint data base_url c :
  m <> PUT ->
  Scaleway.api_request K CREDS m endpoint data base_url c =
  let url := base_of base_url ++ u "/" ++ endpoint in
  let o := http K m url tok (sent m data) c in
  (api_answer o.1, o.2, EvApi m url (sent m data) o.1 :: api_log o.1).
Proof.
  intros Hm. unfold Scaleway.api_request. rewrite Htok, Htruthy. cbv zeta.
  fold (base_of base_url).
  set (url := base_of base_url ++ u "/" ++ endpoint).
  assert (Hreq : Scaleway.request K m url tok (sent m data) c =
                 (match (http K m url tok (sent m data) c).1 with
                  | inl e => Raise e | inr r => Ret r end,
                  (http K m url tok (sent m data) c).2,
                  [EvApi m url (sent m data) (http K m url tok (sent m data) c).1])).
  { unfold Scaleway.request. by destruct (http K m url tok (sent m data) c) as [[e|r] c']. }
  replace (match m with
           | GET => Scaleway.request K GET url tok None
           | POST => Scaleway.request K POST url tok data
           | PUT => raise (ValueError_ (u "Unknown method: " ++ method_name m))
           | DELETE => Scaleway.request K DELETE url tok None
           end) with (Scaleway.request K m url tok (sent m data))
    by (by destruct m).
  unfold bind. rewrite Hreq.
  destruct (http K m url tok (sent m data) c) as [[e|r] c']; cbn [fst snd api_answer api_log].
  - reflexivity.
  - destruct (400 <=? status_code r)%Z; [reflexivity|].
    destruct (truthy_str (text r)); [|reflexivity].
    unfold lift, response_json. by destruct (document r).
Qed.

Lemma trace_api_request m endpoint data base_url c :
  m <> PUT ->
  trace (Scaleway.api_request K CREDS m endpoint data base_url c)
  = EvApi m (base_of base_url ++ u "/" ++ endpoint) (sent m data)
      (http K m (base_of base_url ++ u "/" ++ endpoint) tok (sent m data) c).1
    :: api_log (http K m (base_of base_url ++ u "/" ++ endpoint) tok (sent m data) c).1.
Proof. intros Hm. by rewrite api_request_eq. Qed.





Lemma calls_lift {A} (r : exn + A) c : calls (trace (lift (S:=C) r c)) = [].
Proof. by destruct r. Qed.





















End ScalewayFacts.

Section ProviderEmits.
Context {C : Type} (K : cloud C).
Variable P : event -> Prop.
Hypothesis P_print : forall l, P (EvPrint l).

Lemma emits_probe {A} (f : C -> A * C) (ev : A -> event) :
  (forall a, P (ev a)) ->
  emits P (fun c => let '(b, c') := f c in (Ret b, c', [ev b])).
Proof. intros HP c. unfold trace. destruct (f c). by repeat constructor. Qed.

Lemma emits_scaleway_api_request CREDS m endpoint data base_url :
  (forall url res, P (EvApi m url (sent m data) res)) ->
  emits P (Scaleway.api_request K CREDS m endpoint data base_url).
Proof.
  intros HP. unfold Scaleway.api_request.
  destruct (CREDS !! u "SCALEWAY_SECRET_KEY") as [token|]; [|repeat emits_step; auto].
  destruct (truthy_str token); [|repeat emits_step; auto].
  cbv zeta. apply emits_bind.
  - destruct m; try apply emits_raise; intros c; unfold Scaleway.request, trace;
      destruct (http K _ _ _ _ c) as [[e|r] c']; repeat constructor; apply HP.
  - intros r. repeat emits_step; auto.
Qed.

Lemma emits_hetzner_api_request TOKEN m endpoint data :
  (forall url res, P (EvApi m url (sent m data) res)) ->
  emits P (Hetzner.api_request K TOKEN m endpoint data).
Proof.
  intros HP. unfold Hetzner.api_request.
  destruct TOKEN as [token|]; [|repeat emits_step; auto].
  destruct (truthy_str token); [|repeat emits_step; auto].
  cbv zeta. apply emits_bind.
  - destruct m; try apply emits_raise; intros c; unfold Hetzner.request, trace;
      destruct (http K _ _ _ _ c) as [[e|r] c']; repeat constructor; apply HP.
  - intros r. repeat emits_step; auto.
Qed.

End ProviderEmits.

Ltac emits_provider :=
  lazymatch goal with
  | |- emits _ (Scaleway.api_request _ _ _ _ _ _) => apply emits_scaleway_api_request
  | |- emits _ (Hetzner.api_request _ _ _ _ _) => apply emits_hetzner_api_request
  | |- emits _ (fun _ => _) => apply emits_probe; intros ?
  | _ => emits_step
  end.

Lemma scaleway_create_events {C} (K : cloud C) CREDS name :
  emits (create_event (scaleway_fields CREDS) name) (Scaleway.create_server K CREDS (Some name)).
Proof.
  unfold Scaleway.create_server. cbv zeta.
  set (config := if truthy_opt (CREDS !! u "SCALEWAY_PROJECT_ID") then _ else _).
  assert (Hc : scaleway_fields CREDS config /\
               assoc (u "name") config = Some (JStr (u "gitbackup-node"))).
  { subst config. unfold scaleway_fields.
    destruct (truthy_opt (CREDS !! u "SCALEWAY_PROJECT_ID")); [split; [tauto|reflexivity]|].
    destruct (truthy_opt (CREDS !! u "SCALEWAY_ORGANIZATION_ID")); split; (tauto || reflexivity). }
  clearbody config. destruct Hc as [Hf Hn].
  repeat emits_provider; try done.
  - intros url res. split; [done|]. right. by exists config.
  - intros url res. split; [done|]. by left.
Qed.

Lemma emits_bind_post {S A B} P (Q : A -> Prop) (m : M S A) (k : A -> M S B) :
  emits P m -> (forall s a, result (m s) = Ret a -> Q a) ->
  (forall a, Q a -> emits P (k a)) -> emits P (bind m k).
Proof.
  intros Hm HQ Hk s. rewrite trace_bind. apply Forall_app. split; [apply Hm|].
  unfold tail_of. destruct (result (m s)) eqn:E; try constructor.
  apply Hk. by apply (HQ s).
Qed.

Lemma hetzner_create_events {C} (K : cloud C) TOKEN name :
  emits (create_event hetzner_fields name) (Hetzner.create_server K TOKEN (Some name)).
Proof.
  unfold Hetzner.create_server. cbv zeta.
  apply (emits_bind_post _
           (fun config => hetzner_fields config /\
                          assoc (u "name") config = Some (JStr (u "gitbackup-node")))).
  - repeat emits_provider; done.
  - intros c config.
    destruct (truthy_str name); [|intros [= <-]; split; [by left|reflexivity]].
    cbv beta iota zeta delta [bind lift ret raise result fst snd].
    destruct (path_exists K name c) as [[|] c1];
      [|intros [= <-]; split; [by left|reflexivity]].
    destruct (open_file K name c1) as [[e|[e|data]] c2]; try discriminate.
    intros [= <-]. split; [right; by exists data|reflexivity].
  - intros config [Hf Hn]. repeat emits_provider; try done.
    intros url res. split; [done|]. right. by exists config.
Qed.

Lemma scaleway_main_create {C} (K : cloud C) CREDS script name rest :
  Scaleway.main K CREDS (script :: u "create" :: name :: rest)
  = (Scaleway.create_server K CREDS (Some name) >> ret tt).
Proof. reflexivity. Qed.

Lemma hetzner_main_create {C} (K : cloud C) TOKEN script name rest :
  Hetzner.main K TOKEN (script :: u "create" :: name :: rest)
  = (Hetzner.create_server K TOKEN (Some name) >> ret tt).
Proof. reflexivity. Qed.



(** Claim C10, amended. The address lookup returns [t] exactly when some
    line of the listing contains [name] as a substring and has [t] as its
    first whitespace-separated token with exactly three dots, and no earlier
    line both contains [name] and has such a token; it returns [None] exactly
    when no line does both. *)
Theorem address_lookup stdout name :
  (forall t,
     ip_of_listing stdout name = Some t <->
     exists before line after p1 p2,
       split_on 10 stdout = before ++ line :: after /\
       substring name line /\
       split_ws line = p1 ++ t :: p2 /\ has_dots3 t /\
       Forall (fun p => ~ has_dots3 p) p1 /\
       Forall (fun l => ~ addressed name l) before) /\
  (ip_of_listing stdout name = None <->
   Forall (fun l => ~ addressed name l) (split_on 10 stdout)).
Proof.
  unfold ip_of_listing. split; [|apply scan_lines_None].
  intros t. rewrite scan_lines_Some. split.
  - intros (before & line & after & Hs & Hn & Hf & Hb).
    apply first_ip_part_Some in Hf as (p1 & p2 & Hp & Hd & Hp1).
    by exists before, line, after, p1, p2.
  - intros (before & line & after & p1 & p2 & Hs & Hn & Hp & Hd & Hp1 & Hb).
    exists before, line, after. repeat split; try done.
    apply first_ip_part_Some. by exists p1, p2.
Qed.

(** Counterexample to claim C10: the first line that contains the name has
    no address, and the lookup goes on to the next one. *)
Lemma lookup_passes_unaddressed_line :
  let stdout := u "b1-old stopped N/A
b1 running 1.2.3.4" in
  ip_of_listing_claimed stdout (u "b1") = None /\
  ip_of_listing stdout (u "b1") = Some (u "1.2.3.4").
Proof. vm_compute. split; reflexivity. Qed.

(** Claim C1, amended. [bootstrap_node] looks at no exit code: on every host
    it runs the eighteen commands of the ten steps, in order, and returns
    [True]; and a spawn that has run any remote command returns [True]. *)
Theorem bootstrap_discards_exit_codes {W N} (H : host W N) ENV fuel name ip p s :
  (result (bootstrap_node H ENV name ip p s) = Ret true /\
   exists created today,
     ssh_commands (trace (bootstrap_node H ENV name ip p s))
     = map snd (bootstrap_plan ENV name p created today)) /\
  (ssh_commands (trace (spawn_node H ENV fuel name p s)) <> [] ->
   result (spawn_node H ENV fuel name p s) = Ret true).
Proof.
  split; [split|].
  - apply bootstrap_node_result.
  - apply bootstrap_node_commands.
  - apply spawn_node_after_ssh.
Qed.

(** Counterexample to claim C1: every remote command exits with 255, all
    eighteen are run and the spawn succeeds. *)
Lemma failed_commands_do_not_stop_bootstrap :
  let r := spawn_node (demo_host 0 255 no_records) ∅ 1 (u "b1") scaleway (tt, tt) in
  result r = Ret true /\
  length (ssh_commands (trace r)) = 18%nat /\
  forallb (fun e => match e with
                    | EvSsh _ _ (_, _, code) => (code =? 255)%Z
                    | _ => true
                    end) (trace r) = true.
Proof. vm_compute. repeat split; reflexivity. Qed.

(** Counterexample to claim C2: the provider creates, lists an address and
    the host is reachable, but the DNS request raises and so does the spawn. *)
Lemma spawn_raises_on_dns_error :
  let H := demo_host 0 0 (inl connection_error) in
  (provider_proc H scaleway [u "create"; u "b1"] tt).1.2 = 0%Z /\
  ip_of_listing (provider_proc H scaleway [u "list"] tt).1.1.1 (u "b1") = Some (u "10.0.0.7") /\
  (connect_ex H (u "10.0.0.7") 22 tt).1 = inr 0%Z /\
  result (spawn_node H with_token 1 (u "b1") scaleway (tt, tt)) = Raise connection_error.
Proof. vm_compute. repeat split; reflexivity. Qed.

(** A spawn of [b1] on the example host, where every phase succeeds. *)
Lemma spawn_reaches_ready_witness :
  result (spawn_node (demo_host 0 0 no_records) ∅ 1 (u "b1") scaleway (tt, tt)) = Ret true.
Proof.
  apply (spawn_reaches_ready (demo_host 0 0 no_records) ∅ 0 (u "b1") scaleway (tt, tt)).
  - intros w. reflexivity.
  - intros w. vm_compute. reflexivity.
  - intros ip s'. eexists. reflexivity.
  - intros w. reflexivity.
  - intros host w. reflexivity.
Defined.

(** Counterexample to claim C3: the create fails, the spawn returns [False],
    and the process exits with 0. *)
Lemma exit_zero_after_failed_create :
  let H := demo_host 1 0 no_records in
  result (spawn_node H ∅ 1 (u "b1") scaleway (tt, tt)) = Ret false /\
  exit_status (result (main H ∅ 1 (CliArgs (u "b1") scaleway false) (tt, tt))) = Some 0%Z.
Proof. vm_compute. split; reflexivity. Qed.

(** Claim C8, amended. Two runs from the same world that differ in the
    notification endpoint (what it answers, whether it raises, and its state)
    end alike, leave the same world and do the same things, the notifications
    themselves apart; this holds for a spawn and, also with the webhook set
    to another address or removed, for a destroy. A spawn with the webhook
    set to another address or removed ends alike; the world it leaves is not
    compared, since the bootstrap writes the webhook to the node. A
    notification always returns and leaves the world as it was. *)
Theorem notification_outcome_independent {W D1 D2} (H : host W D1)
    (post : str -> json -> D2 -> (exn + Z) * D2) ENV o fuel name p w n1 n2 :
  let H' := with_sink H post in
  (let a := spawn_node H ENV fuel name p (w, n1) in
   let b := spawn_node H' ENV fuel name p (w, n2) in
   result a = result b /\ (final a).1 = (final b).1 /\
   lifecycle_trace (trace a) = lifecycle_trace (trace b)) /\
  result (spawn_node H ENV fuel name p (w, n1))
  = result (spawn_node H' (reconfigure o ENV) fuel name p (w, n2)) /\
  (let a := destroy_node H ENV name p (w, n1) in
   let b := destroy_node H' (reconfigure o ENV) name p (w, n2) in
   result a = result b /\ (final a).1 = (final b).1 /\
   lifecycle_trace (trace a) = lifecycle_trace (trace b)) /\
  (forall msg s, exists b, result (discord_notify H ENV msg None s) = Ret b /\
                           (final (discord_notify H ENV msg None s)).1 = s.1).
Proof.
  cbv zeta. split; [|split; [|split]].
  - destruct (sim_spawn_node H post ENV fuel name p w n1 n2) as (Hr & Hf & Ht).
    split; [by apply outcome_rel_eq|by split].
  - apply wsim_spawn_node.
  - destruct (sim_destroy_node H post ENV o name p w n1 n2) as (Hr & Hf & Ht).
    split; [by apply outcome_rel_eq|by split].
  - intros msg s. destruct (discord_notify_cases H ENV msg s) as (b & Hb & Hs & _).
    by exists b.
Qed.

Section Dns.
Context {W D : Type} (H : host W D) (ENV : gmap str str).

Lemma lift_eq {S A} (r : exn + A) (s : S) :
  lift r s = (match r with inl e => Raise e | inr a => Ret a end, s, []).
Proof. by destruct r. Qed.

Lemma bind_lift {S A B} (r : exn + A) (k : A -> M S B) (s : S) :
  bind (lift r) k s = match r with inl e => (Raise e, s, []) | inr a => k a s end.
Proof. destruct r; [reflexivity|apply bind_ret]. Qed.

Lemma bind_requests {B} m url token payload (k : response -> M (W * D) B) (s : W * D) :
  bind (requests H m url token payload) k s
  = let o := cloudflare H m url token payload s.1 in
    match o.1 with
    | inl e => (Raise e, (o.2, s.2), [EvCloudflare m url token payload o.1])
    | inr r => (result (k r (o.2, s.2)), final (k r (o.2, s.2)),
                EvCloudflare m url token payload o.1 :: trace (k r (o.2, s.2)))
    end.
Proof.
  cbv zeta. unfold bind at 1. rewrite requests_eq. cbv zeta.
  destruct (cloudflare H m url token payload s.1) as [[e|r] w']; cbn [fst snd]; [reflexivity|].
  unfold result, final, trace. by destruct (k r (w', s.2)) as [[x y] z].
Qed.

(** [create_dns] with a token: one look-up, then an update of the first
    record found or, when none is found, a creation; never both. *)
Theorem create_dns_upserts name ip s :
  truthy_opt (ENV !! u "CLOUDFLARE_API_TOKEN") = true ->
  let r := create_dns H ENV name ip s in
  let token := ENV !! u "CLOUDFLARE_API_TOKEN" in
  exists lookup,
    let asked := EvCloudflare GET (DnsRecordsByName (name ++ u ".giobi.com")) token None lookup in
    match dns_records_of lookup with
    | inl e => trace r = [asked] /\ result r = Raise e
    | inr existing =>
        if truthy existing then
          match first_record_id existing with
          | inl e => trace r = [asked] /\ result r = Raise e
          | inr id =>
              exists res,
                trace r = [asked; EvCloudflare PUT (DnsRecord id) token
                                    (Some (dns_record name ip)) res]
          end
        else
          exists res,
            trace r = [asked; EvCloudflare POST DnsRecords token
                                (Some (dns_record name ip)) res]
    end.
Proof.
  intros Htok. cbv zeta. unfold create_dns. rewrite Htok. cbn [negb].
  rewrite bind_requests. cbv zeta.
  set (o := cloudflare H GET (DnsRecordsByName (name ++ u ".giobi.com"))
              (ENV !! u "CLOUDFLARE_API_TOKEN") None s.1).
  exists o.1. unfold dns_records_of.
  destruct o.1 as [e|r]; [by split|].
  rewrite bind_lift. destruct (response_json r) as [e|j]; [by split|].
  rewrite bind_lift. destruct (py_get j (u "result") (JList [])) as [e|existing]; [by split|].
  unfold first_record_id. destruct (truthy existing).
  - rewrite trace_bind, result_bind. unfold tail_of.
    rewrite bind_lift. destruct (py_index0 existing) as [e|first]; [by split|].
    rewrite bind_lift. destruct (py_getitem first (u "id")) as [e|id]; [by split|].
    rewrite requests_eq. cbv zeta. cbn [result trace final fst snd app].
    set (p := cloudflare H PUT (DnsRecord id) _ _ _).
    exists p.1. destruct p.1 as [e|r']; cbn [app]; [reflexivity|].
    rewrite bind_lift. destruct (response_json r') as [e|j']; [reflexivity|].
    by rewrite lift_eq.
  - rewrite trace_bind, result_bind. unfold tail_of.
    rewrite requests_eq. cbv zeta. cbn [result trace final fst snd app].
    set (p := cloudflare H POST DnsRecords _ _ _).
    exists p.1. destruct p.1 as [e|r']; cbn [app]; [reflexivity|].
    rewrite bind_lift. destruct (response_json r') as [e|j']; [reflexivity|].
    by rewrite lift_eq.
Qed.

Lemma delete_dns_runs name s :
  let r := delete_dns H ENV name s in
  let token := ENV !! u "CLOUDFLARE_API_TOKEN" in
  exists lookup,
    let asked := EvCloudflare GET (DnsRecordsByName (name ++ u ".giobi.com")) token None lookup in
    match dns_records_of lookup with
    | inl e => trace r = [asked] /\ result r = Raise e
    | inr existing =>
        if truthy existing then
          match first_record_id existing with
          | inl e => trace r = [asked] /\ result r = Raise e
          | inr id =>
              exists res,
                trace r = [asked; EvCloudflare DELETE (DnsRecord id) token None res] /\
                result r = match res with inl e => Raise e | inr _ => Ret true end
          end
        else trace r = [asked] /\ result r = Ret false
    end.
Proof.
  cbv zeta. unfold delete_dns.
  rewrite bind_requests. cbv zeta.
  set (o := cloudflare H GET (DnsRecordsByName (name ++ u ".giobi.com"))
              (ENV !! u "CLOUDFLARE_API_TOKEN") None s.1).
  exists o.1. unfold dns_records_of.
  destruct o.1 as [e|r]; [by split|].
  rewrite bind_lift. destruct (response_json r) as [e|j]; [by split|].
  rewrite bind_lift. destruct (py_get j (u "result") (JList [])) as [e|existing]; [by split|].
  unfold first_record_id. destruct (truthy existing); [|by split].
  rewrite bind_lift. destruct (py_index0 existing) as [e|first]; [by split|].
  rewrite bind_lift. destruct (py_getitem first (u "id")) as [e|id]; [by split|].
  rewrite bind_requests. cbv zeta.
  set (p := cloudflare H DELETE (DnsRecord id) _ _ _).
  exists p.1. by destruct p.1 as [e|r'].
Qed.

(** [delete_dns]: one look-up, sent with or without a token, then the
    deletion of the first record found; it returns [True] when that deletion
    was sent and did not raise, [False] when no record was found. *)
Theorem delete_dns_first_record name s :
  let r := delete_dns H ENV name s in
  let token := ENV !! u "CLOUDFLARE_API_TOKEN" in
  exists lookup,
    let asked := EvCloudflare GET (DnsRecordsByName (name ++ u ".giobi.com")) token None lookup in
    match dns_records_of lookup with
    | inl e => trace r = [asked] /\ result r = Raise e
    | inr existing =>
        if truthy existing then
          match first_record_id existing with
          | inl e => trace r = [asked] /\ result r = Raise e
          | inr id =>
              exists res,
                trace r = [asked; EvCloudflare DELETE (DnsRecord id) token None res] /\
                result r = match res with inl e => Raise e | inr _ => Ret true end
          end
        else trace r = [asked] /\ result r = Ret false
    end.
Proof. apply delete_dns_runs. Qed.

(** Claim C4. Every run of [destroy_node] runs the provider's [destroy] and
    prints its output; then, whatever the provider answered or exited with,
    it looks the DNS record of [name].giobi.com up at Cloudflare and sends the
    deletion of the first record found. No Cloudflare call comes earlier. The
    run raises when the look-up or the deletion raises; otherwise, with or
    without a record, it goes on to print, sends the final notification and
    returns [True]. *)
Theorem destroy_attempts_dns name p s :
  let r := destroy_node H ENV name p s in
  let token := ENV !! u "CLOUDFLARE_API_TOKEN" in
  exists pre out lookup was s',
    let asked :=
      EvCloudflare GET (DnsRecordsByName (name ++ u ".giobi.com")) token None lookup in
    let head := pre ++ [EvProvider p [u "destroy"] out; EvPrint out.1.1; asked] in
    let tail :=
      EvPrint (u "   ✅ DNS deleted")
      :: trace (discord_notify H ENV
                  (u "💀 **" ++ name ++ u "** destroyed
• Was at: " ++ was) None s')
      ++ [EvPrint (u "
✅ " ++ (name ++ u ".giobi.com") ++ u " destroyed")] in
    Forall (fun e => is_dns e = false) pre /\
    match dns_records_of lookup with
    | inl e => trace r = head /\ result r = Raise e
    | inr existing =>
        if truthy existing then
          match first_record_id existing with
          | inl e => trace r = head /\ result r = Raise e
          | inr id =>
              exists res,
                let deleted := EvCloudflare DELETE (DnsRecord id) token None res in
                match res with
                | inl e => trace r = head ++ [deleted] /\ result r = Raise e
                | inr _ => trace r = head ++ deleted :: tail /\ result r = Ret true
                end
          end
        else trace r = head ++ tail /\ result r = Ret true
    end.
Proof.
  cbv zeta. destruct s as [w n]. unfold destroy_node.
  rewrite trace_bind_print, result_bind_print.
  rewrite trace_bind_returns, result_bind_returns by apply discord_notify_result.
  set (s1 := final (discord_notify H ENV _ None (w, n))).
  rewrite (trace_bind_Ret _ _ _ _ _ _ (get_vm_ip_eq H _ _ _)).
  rewrite (result_bind_Ret _ _ _ _ _ _ (get_vm_ip_eq H _ _ _)).
  cbv zeta. cbn [fst snd].
  set (ip := ip_of_listing _ name).
  unfold run_provider_cmd.
  rewrite (trace_bind_Ret _ _ _ _ _ _ (in_world_eq _ _ _)).
  rewrite (result_bind_Ret _ _ _ _ _ _ (in_world_eq _ _ _)).
  cbn [fst snd].
  set (o := provider_proc H p [u "destroy"] _).
  destruct o as [[[stdout stderr] code] w2] eqn:Eo. cbn [fst snd].
  rewrite trace_bind_print, result_bind_print.
  rewrite trace_bind, result_bind. unfold tail_of.
  set (t1 := trace (discord_notify H ENV _ None (w, n))).
  set (pre := EvPrint (u "
🗑️  Destroying " ++ (name ++ u ".giobi.com") ++ u "...
") :: t1 ++ [EvProvider p [u "list"] (provider_proc H p [u "list"] s1.1).1]).
  assert (Hpre : Forall (fun e => is_dns e = false) pre).
  { constructor; [reflexivity|]. apply Forall_app. split; [|by repeat constructor].
    apply emits_at. apply emits_discord_notify; done. }
  set (s3 := final (delete_dns H ENV name (w2, s1.2))).
  set (was := match ip with
              | Some a0 => if truthy_str a0 then a0 else u "unknown"
              | None => u "unknown"
              end).
  destruct (delete_dns_runs name (w2, s1.2)) as (lookup & Hruns).
  exists pre, (stdout, stderr, code), lookup, was, s3.
  split; [exact Hpre|]. cbv zeta in Hruns. cbn [fst].
  destruct (dns_records_of lookup) as [e|existing].
  { destruct Hruns as [-> ->]. split; [|done].
    subst pre. cbn [app]. rewrite <- ?app_assoc, ?app_nil_r. cbn [app]. reflexivity. }
  destruct (truthy existing).
  - destruct (first_record_id existing) as [e|id].
    { destruct Hruns as [-> ->]. split; [|done].
      subst pre. cbn [app]. rewrite <- ?app_assoc, ?app_nil_r. cbn [app]. reflexivity. }
    destruct Hruns as (res & Htr & Hres). exists res. rewrite Htr, Hres.
    destruct res as [e|r'].
    { split; [|done].
      subst pre. cbn [app]. rewrite <- ?app_assoc, ?app_nil_r. cbn [app]. reflexivity. }
    rewrite !trace_bind_print, !result_bind_print.
    rewrite trace_bind_returns, result_bind_returns by apply discord_notify_result.
    rewrite !trace_bind_print, !result_bind_print.
    split; [|reflexivity].
    subst pre. cbn [app]. rewrite <- ?app_assoc. cbn [app]. reflexivity.
  - destruct Hruns as [Htr Hres]. rewrite Htr, Hres.
    rewrite !trace_bind_print, !result_bind_print.
    rewrite trace_bind_returns, result_bind_returns by apply discord_notify_result.
    rewrite !trace_bind_print, !result_bind_print.
    split; [|reflexivity].
    subst pre. cbn [app]. rewrite <- ?app_assoc. cbn [app]. reflexivity.
Qed.

(** Without a token [create_dns] asks Cloudflare nothing. *)
Lemma create_dns_quiet name ip :
  truthy_opt (ENV !! u "CLOUDFLARE_API_TOKEN") = false ->
  emits (fun e => is_cloudflare e = false) (create_dns H ENV name ip).
Proof.
  intros Htok. unfold create_dns. rewrite Htok. cbn [negb]. repeat emits_step. done.
Qed.

(** A spawn without a Cloudflare token makes no Cloudflare call at all. *)
Theorem spawn_without_token_skips_dns fuel name p s :
  truthy_opt (ENV !! u "CLOUDFLARE_API_TOKEN") = false ->
  Forall (fun e => is_cloudflare e = false) (trace (spawn_node H ENV fuel name p s)).
Proof.
  intros Htok. apply emits_at. unfold spawn_node.
  repeat lazymatch goal with
         | |- emits _ (create_dns _ _ _ _) => apply create_dns_quiet
         | _ => emits_spawn
         end; done.
Qed.

End Dns.

Section SshWait.
Context {W D : Type} (H : host W D).

Lemma probe_eq host (s : W * D) :
  try_except
    (let* r := in_world (connect_ex H host 22) (EvConnect host 22) in
     let* code := lift r in
     ret (code =? 0)%Z)
    (ret false) s
  = let o := connect_ex H host 22 s.1 in
    (Ret (match o.1 with inr code => (code =? 0)%Z | inl _ => false end),
     (o.2, s.2), [EvConnect host 22 o.1]).
Proof.
  cbv zeta. unfold try_except, bind, in_world, lift. cbn [fst snd].
  destruct (connect_ex H host 22 s.1) as [[e|code] w']; reflexivity.
Qed.

(** How the loop of [wait_for_ssh] ends: after rounds that did not find the
    port open it returns [True] on the first probe answered 0, returns
    [False] when the clock has run out, or is still running when the fuel of
    the model is spent. It never raises. *)
Lemma wait_for_ssh_loop_shape fuel host timeout start s :
  let r := wait_for_ssh_loop H fuel host timeout start s in
  exists answers,
    Forall (fun a => a <> inr 0%Z) answers /\
    (length answers <= fuel)%nat /\
    ((result r = Ret true /\
      trace r = flat_map (failed_probe host) answers ++ [EvConnect host 22 (inr 0%Z)])
     \/ (result r = Ret false /\ trace r = flat_map (failed_probe host) answers)
     \/ (result r = Diverge /\ trace r = flat_map (failed_probe host) answers /\
         length answers = fuel)).
Proof.
  cbv zeta. revert s. induction fuel as [|fuel IH]; intros [w n].
  - exists []. split; [constructor|]. split; [done|]. right; right. by repeat split.
  - cbn [wait_for_ssh_loop].
    rewrite (trace_bind_Ret _ _ _ _ _ _ (read_world_eq _ _)).
    rewrite (result_bind_Ret _ _ _ _ _ _ (read_world_eq _ _)).
    cbn [fst snd app].
    destruct (_ <? _)%Z.
    2:{ exists []. split; [constructor|]. split; [simpl; lia|]. right; left. by split. }
    rewrite (trace_bind_Ret _ _ _ _ _ _ (probe_eq _ _)).
    rewrite (result_bind_Ret _ _ _ _ _ _ (probe_eq _ _)).
    cbn [fst snd].
    set (o := connect_ex H host 22 _).
    destruct o.1 as [e|code] eqn:Eo.
    + rewrite (trace_bind_Ret _ _ _ _ _ _ (sleep_eq H _ _)).
      rewrite (result_bind_Ret _ _ _ _ _ _ (sleep_eq H _ _)).
      cbn [fst snd].
      destruct (IH (time_sleep H 5 o.2, n)) as (answers & Hall & Hlen & Hcase).
      exists (inl e :: answers). split; [by constructor|]. split; [simpl; lia|].
      cbn [flat_map failed_probe app].
      destruct Hcase as [(-> & ->)|[(-> & ->)|(-> & -> & Hl)]]; [left|right; left|right; right];
        repeat split; try done. simpl; lia.
    + destruct (code =? 0)%Z eqn:Ec.
      * apply Z.eqb_eq in Ec. subst code.
        exists []. split; [constructor|]. split; [simpl; lia|]. left. by split.
      * rewrite (trace_bind_Ret _ _ _ _ _ _ (sleep_eq H _ _)).
        rewrite (result_bind_Ret _ _ _ _ _ _ (sleep_eq H _ _)).
        cbn [fst snd].
        destruct (IH (time_sleep H 5 o.2, n)) as (answers & Hall & Hlen & Hcase).
        exists (inr code :: answers).
        split; [constructor; [intros [= ->]; discriminate|done]|]. split; [simpl; lia|].
        cbn [flat_map failed_probe app].
        destruct Hcase as [(-> & ->)|[(-> & ->)|(-> & -> & Hl)]]; [left|right; left|right; right];
          repeat split; try done. simpl; lia.
Qed.

End SshWait.

Section Halting.
Context {S : Type}.

Lemma halts_ret {A} (a : A) : halts (@ret S A a).
Proof. intros s. discriminate. Qed.

Lemma halts_raise {A} e : halts (@raise S A e).
Proof. intros s. discriminate. Qed.

Lemma halts_exit {A} c : halts (@sys_exit S A c).
Proof. intros s. discriminate. Qed.

Lemma halts_lift {A} (r : exn + A) : halts (@lift S A r).
Proof. destruct r; [apply halts_raise | apply halts_ret]. Qed.

Lemma halts_emit e : halts (@emit S e).
Proof. intros s. discriminate. Qed.

Lemma halts_bind {A B} (m : M S A) (k : A -> M S B) :
  halts m -> (forall a, halts (k a)) -> halts (bind m k).
Proof.
  intros Hm Hk s. rewrite result_bind. specialize (Hm s).
  destruct (result (m s)); try done. apply Hk.
Qed.

Lemma halts_try_except {A} (m h : M S A) : halts m -> halts h -> halts (try_except m h).
Proof.
  intros Hm Hh s. specialize (Hm s). unfold try_except, result in *.
  destruct (m s) as [[[a|e|c|] s1] t1]; cbn [fst] in *; try done.
  - specialize (Hh s1). unfold result in Hh. by destruct (h s1) as [[r s2] t2].
  - specialize (Hh s1). unfold result in Hh. by destruct (h s1) as [[r s2] t2].
Qed.

Lemma halts_try_except_Exception {A} (m : M S A) h :
  halts m -> (forall e, halts (h e)) -> halts (try_except_Exception m h).
Proof.
  intros Hm Hh s. specialize (Hm s). unfold try_except_Exception, result in *.
  destruct (m s) as [[[a|e|c|] s1] t1]; cbn [fst] in *; try done.
  specialize (Hh e s1). unfold result in Hh. by destruct (h e s1) as [[r s2] t2].
Qed.

End Halting.

Section HaltingOrchestrator.
Context {W D : Type} (H : host W D).

Lemma halts_in_world {A} (f : W -> A * W) ev : halts (in_world (N:=D) f ev).
Proof. intros s. rewrite in_world_eq. discriminate. Qed.

Lemma halts_read_world {A} (f : W -> A * W) : halts (read_world (N:=D) f).
Proof. intros s. rewrite read_world_eq. discriminate. Qed.

Lemma halts_in_sink {A} (f : D -> A * D) ev : halts (in_sink (W:=W) f ev).
Proof. intros s. unfold in_sink, result. by destruct (f s.2). Qed.

Lemma halts_sleep secs : halts (sleep H secs).
Proof. intros s. discriminate. Qed.

End HaltingOrchestrator.

Ltac halts_step :=
  lazymatch goal with
  | |- halts (bind _ _) => apply halts_bind; [| intros ?]
  | |- halts (ret _) => apply halts_ret
  | |- halts (raise _) => apply halts_raise
  | |- halts (sys_exit _) => apply halts_exit
  | |- halts (lift _) => apply halts_lift
  | |- halts (print _) => apply halts_emit
  | |- halts (emit _) => apply halts_emit
  | |- halts (try_except _ _) => apply halts_try_except
  | |- halts (try_except_Exception _ _) => apply halts_try_except_Exception; [| intros ?]
  | |- halts (in_world _ _) => apply halts_in_world
  | |- halts (read_world _) => apply halts_read_world
  | |- halts (in_sink _ _) => apply halts_in_sink
  | |- halts (sleep _ _) => apply halts_sleep
  | |- halts (now _) => apply halts_read_world
  | |- halts (requests _ _ _ _ _) => unfold requests
  | |- halts (ssh_run _ _ _ _) => unfold ssh_run
  | |- halts (run_provider_cmd _ _ _ _) => unfold run_provider_cmd
  | |- halts (get_vm_ip _ _ _) => unfold get_vm_ip
  | |- halts (if ?b then _ else _) => destruct b
  | |- halts (match ?x with _ => _ end) => destruct x
  | |- halts (let (_, _) := ?x in _) => destruct x
  end.

Section Clock.
Context {W D : Type} (H : host W D) (ENV : gmap str str).
Variable clock : W -> Z.
Hypothesis clock_read :
  forall w, (clock w <= (time_time H w).1 <= clock (time_time H w).2)%Z.
Hypothesis clock_sleep :
  forall secs w, (clock w + secs * 1000000 <= clock (time_sleep H secs w))%Z.
Hypothesis clock_connect :
  forall host port w, (clock w <= clock (connect_ex H host port w).2)%Z.

Lemma wait_for_ssh_loop_bounded (n : nat) fuel host timeout start (i : nat) s :
  (timeout <= 5 * Z.of_nat n)%Z ->
  (start + 5000000 * Z.of_nat i <= clock s.1)%Z ->
  (i <= n)%nat -> (n < i + fuel)%nat ->
  let r := wait_for_ssh_loop H fuel host timeout start s in
  (exists b, result r = Ret b) /\
  (length (List.filter is_connect (trace r)) <= n - i)%nat.
Proof.
  intros Hn. cbv zeta. revert i s. induction fuel as [|fuel IH]; intros i [w d] Hc Hi Hf.
  - lia.
  - cbn [wait_for_ssh_loop fst] in *.
    rewrite (trace_bind_Ret _ _ _ _ _ _ (read_world_eq _ _)).
    rewrite (result_bind_Ret _ _ _ _ _ _ (read_world_eq _ _)).
    cbn [fst snd app].
    pose proof (clock_read w) as [Hr1 Hr2].
    destruct (_ <? _)%Z eqn:Ht.
    2:{ split; [by exists false|]. simpl. lia. }
    apply Z.ltb_lt in Ht.
    rewrite (trace_bind_Ret _ _ _ _ _ _ (probe_eq _ _ _)).
    rewrite (result_bind_Ret _ _ _ _ _ _ (probe_eq _ _ _)).
    cbn [fst snd].
    pose proof (clock_connect host 22 (time_time H w).2) as Hcn.
    set (o := connect_ex H host 22 _) in *.
    assert (Hnext :
      (exists b, result ((sleep H 5 >> wait_for_ssh_loop H fuel host timeout start) (o.2, d)) = Ret b) /\
      (length (List.filter is_connect
                 (trace ((sleep H 5 >> wait_for_ssh_loop H fuel host timeout start) (o.2, d))))
       <= n - S i)%nat).
    { rewrite (trace_bind_Ret _ _ _ _ _ _ (sleep_eq H _ _)).
      rewrite (result_bind_Ret _ _ _ _ _ _ (sleep_eq H _ _)).
      cbn [fst snd app List.filter is_connect].
      pose proof (clock_sleep 5 o.2).
      apply IH; cbn [fst]; lia. }
    destruct (match o.1 with inr code => (code =? 0)%Z | inl _ => false end).
    + split; [by exists true|]. simpl. lia.
    + destruct Hnext as [Hres Hlen]. split; [exact Hres|].
      cbn [app List.filter is_connect length]. lia.
Qed.

Lemma wait_for_ssh_bounded (n : nat) fuel host timeout s :
  (timeout <= 5 * Z.of_nat n)%Z -> (n < fuel)%nat ->
  let r := wait_for_ssh H fuel host timeout s in
  (exists b, result r = Ret b) /\
  (length (List.filter is_connect (trace r)) <= n)%nat.
Proof.
  intros Hn Hf. cbv zeta. destruct s as [w d]. unfold wait_for_ssh.
  rewrite (trace_bind_Ret _ _ _ _ _ _ (read_world_eq _ _)).
  rewrite (result_bind_Ret _ _ _ _ _ _ (read_world_eq _ _)).
  cbn [fst snd app].
  pose proof (clock_read w) as [Hr1 Hr2].
  pose proof (wait_for_ssh_loop_bounded n fuel host timeout (time_time H w).1 0
                ((time_time H w).2, d)) as Hb.
  cbv zeta in Hb. rewrite Nat.sub_0_r in Hb. apply Hb; cbn [fst]; lia.
Qed.

(** With a clock that every sleep advances, [wait_for_ssh] returns, after at
    most one probe per five seconds of its timeout. *)
Theorem wait_for_ssh_terminates (n : nat) fuel host timeout s :
  (timeout <= 5 * Z.of_nat n)%Z -> (n < fuel)%nat ->
  let r := wait_for_ssh H fuel host timeout s in
  (exists b, result r = Ret b) /\
  (length (List.filter is_connect (trace r)) <= n)%nat.
Proof. apply wait_for_ssh_bounded. Qed.

Lemma halts_wait_for_ssh fuel host :
  (24 < fuel)%nat -> halts (wait_for_ssh H fuel host 120).
Proof.
  intros Hf s.
  destruct (wait_for_ssh_bounded 24 fuel host 120 s) as [[b Hb] _]; [lia|lia|].
  cbv zeta in Hb. by rewrite Hb.
Qed.

Lemma halts_poll_ip n last p name : halts (poll_ip H n last p name).
Proof.
  revert last. induction n as [|n IH]; intros last; cbn [poll_ip].
  - apply halts_ret.
  - repeat lazymatch goal with
           | |- halts (poll_ip _ _ _ _ _) => apply IH
           | _ => halts_step
           end.
Qed.

Lemma halts_bootstrap_node name ip p : halts (bootstrap_node H ENV name ip p).
Proof. intros s. by rewrite bootstrap_node_result. Qed.

(** A spawn on a host whose clock every sleep advances comes to an end: 25
    rounds of the SSH wait are enough for its 120 seconds. *)
Theorem spawn_terminates fuel name p s :
  (24 < fuel)%nat -> result (spawn_node H ENV fuel name p s) <> Diverge.
Proof.
  intros Hf. revert s. change (halts (spawn_node H ENV fuel name p)).
  unfold spawn_node.
  repeat lazymatch goal with
         | |- halts (poll_ip _ _ _ _ _) => apply halts_poll_ip
         | |- halts (wait_for_ssh _ _ _ _) => by apply halts_wait_for_ssh
         | |- halts (bootstrap_node _ _ _ _ _) => apply halts_bootstrap_node
         | |- halts (create_dns _ _ _ _) => unfold create_dns
         | |- halts (discord_notify _ _ _ _) => unfold discord_notify
         | _ => halts_step
         end.
Qed.

End Clock.

Lemma split_ws_tokens s :
  Forall (fun t => t <> [] /\ Forall (fun c => isspace c = false) t) (split_ws s).
Proof.
  induction s as [|c s IH]; [constructor|].
  cbn [split_ws]. destruct (isspace c) eqn:Hc; [exact IH|].
  assert (Hone : Forall (fun t => t <> [] /\ Forall (fun c => isspace c = false) t) [[c]]).
  { constructor; [|constructor]. split; [done|]. constructor; [exact Hc|constructor]. }
  destruct s as [|d s']; [exact Hone|].
  destruct (isspace d) eqn:Hd.
  - constructor; [|exact IH]. split; [done|]. constructor; [exact Hc|constructor].
  - destruct (split_ws (d :: s')) as [|w ws]; [exact Hone|].
    inversion IH as [|? ? [Hw1 Hw2] Hws]; subst.
    constructor; [|exact Hws]. split; [done|]. by constructor.
Qed.

(** The address [get_vm_ip] returns is one whitespace-separated token of the
    listing with exactly three dots; nothing else about it is checked. *)
Lemma lookup_returns_token stdout name t :
  ip_of_listing stdout name = Some t -> dotted_token t.
Proof.
  unfold ip_of_listing. intros Hl.
  apply scan_lines_Some in Hl as (before & line & after & _ & _ & Hf & _).
  apply first_ip_part_Some in Hf as (p1 & p2 & Hsplit & Hd & _).
  pose proof (split_ws_tokens line) as Htok. rewrite Hsplit in Htok.
  apply Forall_app in Htok as [_ Htok]. inversion Htok as [|? ? [Hne Hws] _]; subst.
  by split.
Qed.

Section Touches.
Context {W D : Type} (H : host W D) (ENV : gmap str str).
Variable P : event -> Prop.
Hypothesis P_print : forall l, P (EvPrint l).



End Touches.

Section Invariants.
Context {W D : Type} (H : host W D) (ENV : gmap str str).



(** A destroy runs the provider's [list] and [destroy] and nothing else on
    the provider; it runs no remote command, probes no port and does not
    sleep; and whenever it returns, it returns [True], whatever the provider
    answered. *)
Theorem destroy_touches name p s :
  Forall (destroy_event p) (trace (destroy_node H ENV name p s)) /\
  (forall b, result (destroy_node H ENV name p s) = Ret b -> b = true).
Proof.
  split.
  - apply emits_at. unfold destroy_node. repeat emits_spawn; try done; cbn; auto.
  - unfold destroy_node. intros b.
    rewrite result_bind_print.
    rewrite (result_bind_returns (discord_notify H _ _ _)) by apply discord_notify_result.
    rewrite (result_bind_Ret _ _ _ _ _ _ (get_vm_ip_eq H _ _ _)). cbv zeta.
    unfold run_provider_cmd at 1.
    rewrite (result_bind_Ret _ _ _ _ _ _ (in_world_eq _ _ _)).
    destruct (provider_proc H p [u "destroy"] _) as [[[stdout stderr] code] w'].
    cbn [fst snd]. rewrite result_bind_print.
    rewrite result_bind.
    destruct (result (delete_dns H ENV name _)); try discriminate.
    rewrite result_bind_print.
    rewrite (result_bind_returns (discord_notify H _ _ _)) by apply discord_notify_result.
    rewrite result_bind_print. by intros [= <-].
Qed.

End Invariants.

Section Failing.
Context {S : Type}.

Lemma fails_exit {A} c : fails (@sys_exit S A c).
Proof. intros s a. discriminate. Qed.

Lemma fails_raise {A} e : fails (@raise S A e).
Proof. intros s a. discriminate. Qed.

Lemma fails_bind_l {A B} (m : M S A) (k : A -> M S B) : fails m -> fails (bind m k).
Proof.
  intros Hm s b. rewrite result_bind. specialize (Hm s).
  destruct (result (m s)); try discriminate. by destruct (Hm a).
Qed.

Lemma fails_bind_r {A B} (m : M S A) (k : A -> M S B) :
  (forall a, fails (k a)) -> fails (bind m k).
Proof.
  intros Hk s b. rewrite result_bind.
  destruct (result (m s)); try discriminate. apply Hk.
Qed.

End Failing.

Lemma emits_for_each {S A} P (l : list A) (f : A -> M S unit) :
  (forall x, emits P (f x)) -> emits P (for_each l f).
Proof.
  intros Hf. induction l as [|x l IH]; cbn [for_each]; [apply emits_ret|].
  apply emits_bind; [apply Hf|]. intros _. exact IH.
Qed.

Ltac fails_right :=
  lazymatch goal with
  | |- fails (sys_exit _) => apply fails_exit
  | |- fails (raise _) => apply fails_raise
  | |- fails (bind _ _) => apply fails_bind_r; intros ?
  end.

Section ScalewayWithoutKey.
Context {C : Type} (K : cloud C) (CREDS : gmap str str).
Hypothesis Hkey : truthy_opt (CREDS !! u "SCALEWAY_SECRET_KEY") = false.

Lemma scaleway_api_request_without_key m endpoint data base_url c :
  Scaleway.api_request K CREDS m endpoint data base_url c
  = (Exit 1, c, [EvPrint (u "❌ SCALEWAY_SECRET_KEY not found in .env")]).
Proof.
  unfold Scaleway.api_request.
  destruct (CREDS !! u "SCALEWAY_SECRET_KEY") as [token|]; [|reflexivity].
  cbn [truthy_opt] in Hkey. by rewrite Hkey.
Qed.

Lemma scaleway_api_request_quiet m endpoint data base_url :
  emits (fun e => is_api e = false) (Scaleway.api_request K CREDS m endpoint data base_url).
Proof. intros c. rewrite scaleway_api_request_without_key. by repeat constructor. Qed.

Lemma scaleway_api_request_fails m endpoint data base_url :
  fails (Scaleway.api_request K CREDS m endpoint data base_url).
Proof. intros c a. by rewrite scaleway_api_request_without_key. Qed.

Lemma scaleway_wait_stopped_quiet n sid :
  emits (fun e => is_api e = false) (Scaleway.wait_stopped K CREDS n sid).
Proof.
  induction n as [|n IH]; cbn [Scaleway.wait_stopped]; [apply emits_ret|].
  repeat lazymatch goal with
         | |- emits _ (Scaleway.api_request _ _ _ _ _ _) => apply scaleway_api_request_quiet
         | |- emits _ (Scaleway.wait_stopped _ _ _ _) => apply IH
         | |- emits _ (Scaleway.sleep _ _) => intros ?; by repeat constructor
         | _ => emits_step
         end; done.
Qed.

Ltac quiet :=
  repeat lazymatch goal with
         | |- emits _ (Scaleway.api_request _ _ _ _ _ _) => apply scaleway_api_request_quiet
         | |- emits _ (for_each _ _) => apply emits_for_each; intros ?
         | |- emits _ (Scaleway.wait_stopped _ _ _ _) => apply scaleway_wait_stopped_quiet
         | |- emits _ (Scaleway.sleep _ _) => intros ?; by repeat constructor
         | _ => emits_provider
         end; try done.

Ltac failing :=
  repeat lazymatch goal with
         | |- fails (bind (Scaleway.api_request _ _ _ _ _ _) _) =>
             apply fails_bind_l, scaleway_api_request_fails
         | _ => fails_right
         end.

(** Without a secret key no command of the Scaleway script calls the API,
    and none returns: the script exits with 1 (or raises on the cloud-init
    file). *)
Theorem scaleway_without_key argv c :
  let r := Scaleway.main K CREDS argv c in
  Forall (fun e => is_api e = false) (trace r) /\ forall x, result r <> Ret x.
Proof.
  cbv zeta. split.
  - apply emits_at. unfold Scaleway.main.
    destruct argv as [|script [|cmd rest]]; [quiet..|].
    repeat case_bool_decide.
    + unfold Scaleway.list_servers. quiet.
    + unfold Scaleway.create_server. quiet.
    + unfold Scaleway.destroy_server. quiet.
    + unfold Scaleway.create_snapshot. quiet.
    + quiet.
  - revert c. change (fails (Scaleway.main K CREDS argv)). unfold Scaleway.main.
    destruct argv as [|script [|cmd rest]]; [failing..|].
    repeat case_bool_decide.
    + unfold Scaleway.list_servers. failing.
    + apply fails_bind_l. unfold Scaleway.create_server. cbv zeta. failing.
    + unfold Scaleway.destroy_server.
      destruct (truthy (opt_json (argv2 (script :: cmd :: rest)))) eqn:Hid; cbn [negb].
      * intros c' a. rewrite bind_ret. rewrite Hid. cbn [negb andb].
        revert c' a. match goal with |- forall c' a, result (?m c') <> Ret a => change (fails m) end.
        apply fails_bind_l. failing.
      * apply fails_bind_l. failing.
    + unfold Scaleway.create_snapshot.
      destruct (truthy (opt_json (argv2 (script :: cmd :: rest)))) eqn:Hid; cbn [negb].
      * intros c' a. rewrite bind_ret. rewrite Hid. cbn [negb andb].
        revert c' a. match goal with |- forall c' a, result (?m c') <> Ret a => change (fails m) end.
        failing.
      * apply fails_bind_l. failing.
    + failing.
Qed.

End ScalewayWithoutKey.

Section HetznerWithoutToken.
Context {C : Type} (K : cloud C) (TOKEN : option str).
Hypothesis Htoken : truthy_opt TOKEN = false.

Lemma hetzner_api_request_without_token m endpoint data c :
  Hetzner.api_request K TOKEN m endpoint data c
  = (Exit 1, c, [EvPrint (u "❌ HETZNER_API_TOKEN not found in .env")]).
Proof.
  unfold Hetzner.api_request.
  destruct TOKEN as [token|]; [|reflexivity].
  cbn [truthy_opt] in Htoken. by rewrite Htoken.
Qed.

Lemma hetzner_api_request_quiet m endpoint data :
  emits (fun e => is_api e = false) (Hetzner.api_request K TOKEN m endpoint data).
Proof. intros c. rewrite hetzner_api_request_without_token. by repeat constructor. Qed.

Lemma hetzner_api_request_fails m endpoint data :
  fails (Hetzner.api_request K TOKEN m endpoint data).
Proof. intros c a. by rewrite hetzner_api_request_without_token. Qed.

Ltac hquiet :=
  repeat lazymatch goal with
         | |- emits _ (Hetzner.api_request _ _ _ _ _) => apply hetzner_api_request_quiet
         | |- emits _ (for_each _ _) => apply emits_for_each; intros ?
         | _ => emits_provider
         end; try done.

Ltac hfailing :=
  repeat lazymatch goal with
         | |- fails (bind (Hetzner.api_request _ _ _ _ _) _) =>
             apply fails_bind_l, hetzner_api_request_fails
         | _ => fails_right
         end.

(** Without a token no command of the Hetzner script calls the API, and none
    returns: the script exits with 1 (or raises on the cloud-init file). *)
Theorem hetzner_without_token argv c :
  let r := Hetzner.main K TOKEN argv c in
  Forall (fun e => is_api e = false) (trace r) /\ forall x, result r <> Ret x.
Proof.
  cbv zeta. split.
  - apply emits_at. unfold Hetzner.main.
    destruct argv as [|script [|cmd rest]]; [hquiet..|].
    repeat case_bool_decide.
    + unfold Hetzner.list_servers. hquiet.
    + unfold Hetzner.create_server. hquiet.
    + unfold Hetzner.destroy_server. hquiet.
    + unfold Hetzner.create_snapshot. hquiet.
    + hquiet.
  - revert c. change (fails (Hetzner.main K TOKEN argv)). unfold Hetzner.main.
    destruct argv as [|script [|cmd rest]]; [hfailing..|].
    repeat case_bool_decide.
    + unfold Hetzner.list_servers. hfailing.
    + apply fails_bind_l. unfold Hetzner.create_server. cbv zeta. hfailing.
    + unfold Hetzner.destroy_server.
      destruct (truthy (opt_json (argv2 (script :: cmd :: rest)))) eqn:Hid; cbn [negb].
      * intros c' a. rewrite bind_ret. rewrite Hid. cbn [negb andb].
        revert c' a. match goal with |- forall c' a, result (?m c') <> Ret a => change (fails m) end.
        hfailing.
      * apply fails_bind_l. hfailing.
    + unfold Hetzner.create_snapshot.
      destruct (truthy (opt_json (argv2 (script :: cmd :: rest)))) eqn:Hid; cbn [negb].
      * intros c' a. rewrite bind_ret. rewrite Hid. cbn [negb andb].
        revert c' a. match goal with |- forall c' a, result (?m c') <> Ret a => change (fails m) end.
        hfailing.
      * apply fails_bind_l. hfailing.
    + hfailing.
Qed.

End HetznerWithoutToken.

(** Taking a snapshot changes nothing else: the Scaleway and the Hetzner
    [create_snapshot] only look up ([GET]) and [POST] snapshots of volumes or
    of the server; they delete nothing and power nothing off. *)
Theorem snapshot_only_adds {C} (K : cloud C) CREDS TOKEN sid c :
  Forall snapshot_event (trace (Scaleway.create_snapshot K CREDS sid c)) /\
  Forall snapshot_event (trace (Hetzner.create_snapshot K TOKEN sid c)).
Proof.
  split; apply emits_at.
  - unfold Scaleway.create_snapshot.
    repeat lazymatch goal with
           | |- emits _ (for_each _ _) => apply emits_for_each; intros ?
           | _ => emits_provider
           end; try done.
    all: intros url res; cbn [snapshot_event sent]; auto.
    all: right; split; [done|]; eexists; split; [reflexivity|]; left.
    all: destruct (truthy_opt _); vm_compute; done.
  - unfold Hetzner.create_snapshot. repeat emits_provider; try done.
    all: intros url res; cbn [snapshot_event sent]; auto.
    right. split; [done|]. eexists. split; [reflexivity|]. by right.
Qed.

Lemma hetzner_api_request_eq {C} (K : cloud C) tok m endpoint data c :
  truthy_str tok = true -> m <> PUT ->
  Hetzner.api_request K (Some tok) m endpoint data c =
  let url := Hetzner.BASE_URL ++ u "/" ++ endpoint in
  let o := http K m url tok (sent m data) c in
  (api_answer o.1, o.2, EvApi m url (sent m data) o.1 :: api_log o.1).
Proof.
  intros Htruthy Hm. unfold Hetzner.api_request. rewrite Htruthy. cbv zeta.
  set (url := Hetzner.BASE_URL ++ u "/" ++ endpoint).
  assert (Hreq : Hetzner.request K m url tok (sent m data) c =
                 (match (http K m url tok (sent m data) c).1 with
                  | inl e => Raise e | inr r => Ret r end,
                  (http K m url tok (sent m data) c).2,
                  [EvApi m url (sent m data) (http K m url tok (sent m data) c).1])).
  { unfold Hetzner.request. by destruct (http K m url tok (sent m data) c) as [[e|r] c']. }
  replace (match m with
           | GET => Hetzner.request K GET url tok None
           | POST => Hetzner.request K POST url tok data
           | PUT => raise (ValueError_ (u "Unknown method: " ++ method_name m))
           | DELETE => Hetzner.request K DELETE url tok None
           end) with (Hetzner.request K m url tok (sent m data))
    by (by destruct m).
  unfold bind. rewrite Hreq.
  destruct (http K m url tok (sent m data) c) as [[e|r] c']; cbn [fst snd api_answer api_log].
  - reflexivity.
  - destruct (400 <=? status_code r)%Z; [reflexivity|].
    destruct (truthy_str (text r)); [|reflexivity].
    unfold lift, response_json. by destruct (document r).
Qed.

(** With credentials, [api_request] of either script makes exactly one HTTP
    call, with the token, and with the data only for a [POST]. An exception
    of the call propagates; a status of 400 or more is printed and the script
    exits with 1; an empty body counts as the empty dictionary; a body that is
    not JSON raises. *)
Theorem api_request_outcome {C} (K : cloud C) CREDS tok m endpoint data base_url c :
  CREDS !! u "SCALEWAY_SECRET_KEY" = Some tok -> truthy_str tok = true -> m <> PUT ->
  (let url := base_of base_url ++ u "/" ++ endpoint in
   let res := (http K m url tok (sent m data) c).1 in
   let r := Scaleway.api_request K CREDS m endpoint data base_url c in
   trace r = EvApi m url (sent m data) res :: api_log res /\ result r = api_answer res) /\
  (let url := Hetzner.BASE_URL ++ u "/" ++ endpoint in
   let res := (http K m url tok (sent m data) c).1 in
   let r := Hetzner.api_request K (Some tok) m endpoint data c in
   trace r = EvApi m url (sent m data) res :: api_log res /\ result r = api_answer res).
Proof.
  intros Htok Htruthy Hm. cbv zeta. split.
  - by rewrite (api_request_eq K CREDS tok Htok Htruthy m endpoint data base_url c Hm).
  - by rewrite (hetzner_api_request_eq K tok m endpoint data c Htruthy Hm).
Qed.

(** The server [destroy] and [snapshot] settle on when they are given no id:
    the id of the first server of the listing called [name]. The id given
    stays when no server is called so; a server without a name, or the one
    found without an id, raises. *)
Theorem find_server_first_match name servers sid id :
  find_server name servers sid = inr id <->
  (Forall (fun s => exists n, py_getitem s (u "name") = inr n /\ py_eq_str n name = false)
     servers /\ id = sid)
  \/
  exists before s after n,
    servers = before ++ s :: after /\
    Forall (fun s => exists n, py_getitem s (u "name") = inr n /\ py_eq_str n name = false)
      before /\
    py_getitem s (u "name") = inr n /\ py_eq_str n name = true /\
    py_getitem s (u "id") = inr id.
Proof.
  induction servers as [|s servers IH]; cbn [find_server].
  - split.
    + intros [= ->]. left. by split.
    + intros [[_ ->]|(before & s & after & n & Hs & _)]; [done|]. by destruct before.
  - destruct (py_getitem s (u "name")) as [e|n] eqn:En.
    + split; [done|].
      intros [[Hall _]|(before & s' & after & n & Hs & Hb & Hn & _)].
      * inversion Hall as [|? ? (n & Hn & _) _]; subst. congruence.
      * destruct before as [|b before]; simplify_eq/=; [congruence|].
        inversion Hb as [|? ? (n' & Hn' & _) _]; subst. congruence.
    + destruct (py_eq_str n name) eqn:Eq.
      * split.
        -- intros Hid. right. exists [], s, servers, n. by repeat split.
        -- intros [[Hall _]|(before & s' & after & n' & Hs & Hb & Hn & Heq & Hid)].
           ++ inversion Hall as [|? ? (n' & Hn' & Hne) _]; subst. congruence.
           ++ destruct before as [|b before]; simplify_eq/=; [done|].
              inversion Hb as [|? ? (n'' & Hn'' & Hne) _]; subst. congruence.
      * rewrite IH. split.
        -- intros [[Hall ->]|(before & s' & after & n' & -> & Hb & Hn & Heq & Hid)].
           ++ left. split; [|done]. constructor; [by exists n|done].
           ++ right. exists (s :: before), s', after, n'.
              repeat split; try done. constructor; [by exists n|done].
        -- intros [[Hall ->]|(before & s' & after & n' & Hs & Hb & Hn & Heq & Hid)].
           ++ left. split; [|done]. by inversion Hall.
           ++ destruct before as [|b before]; simplify_eq/=; [congruence|].
              right. exists before, s', after, n'. repeat split; try done.
              by inversion Hb.
Qed.

(** Without a command, or with one that is not [list], [create], [destroy]
    or [snapshot], either script prints its usage or the command and exits
    with 1; it touches neither the API nor a file. *)
Theorem main_rejects {C} (K : cloud C) CREDS TOKEN argv c :
  (forall script cmd rest, argv = script :: cmd :: rest ->
     cmd <> u "list" /\ cmd <> u "create" /\ cmd <> u "destroy" /\ cmd <> u "snapshot") ->
  let rs := Scaleway.main K CREDS argv c in
  let rh := Hetzner.main K TOKEN argv c in
  result rs = Exit 1 /\ final rs = c /\ Forall (fun e => exists l, e = EvPrint l) (trace rs) /\
  result rh = Exit 1 /\ final rh = c /\ Forall (fun e => exists l, e = EvPrint l) (trace rh).
Proof.
  intros Hcmd. cbv zeta. unfold Scaleway.main, Hetzner.main.
  destruct argv as [|script [|cmd rest]].
  1-2: repeat split; repeat constructor; by eexists.
  destruct (Hcmd script cmd rest eq_refl) as (H1 & H2 & H3 & H4).
  rewrite !bool_decide_eq_false_2 by done.
  repeat split; repeat constructor; by eexists.
Qed.

Lemma lstrip_by_keep f c s : f c = false -> lstrip_by f (c :: s) = c :: s.
Proof. intros Hc. cbn [lstrip_by]. by rewrite Hc. Qed.

Lemma lstrip_by_drop f ws s :
  Forall (fun c => f c = true) ws -> lstrip_by f (ws ++ s) = lstrip_by f s.
Proof. induction 1 as [|c ws Hc _ IH]; [done|]. cbn [app lstrip_by]. by rewrite Hc. Qed.

Lemma rstrip_by_keep f s c : f c = false -> rstrip_by f (s ++ [c]) = s ++ [c].
Proof.
  intros Hc. unfold rstrip_by. rewrite rev_app_distr. cbn [rev app].
  rewrite lstrip_by_keep by done. cbn [rev]. by rewrite rev_involutive.
Qed.

Lemma rstrip_by_drop f s ws :
  Forall (fun c => f c = true) ws -> rstrip_by f (s ++ ws) = rstrip_by f s.
Proof.
  intros Hws. unfold rstrip_by. rewrite rev_app_distr.
  rewrite lstrip_by_drop; [done|]. by apply Forall_rev.
Qed.

Lemma rstrip_by_nil f : rstrip_by f [] = [].
Proof. reflexivity. Qed.

Lemma split1_first sep k rest :
  ~ In sep k -> split1 sep (k ++ sep :: rest) = [k; rest].
Proof.
  induction k as [|c k IH]; intros Hk; cbn [app split1].
  - by rewrite N.eqb_refl.
  - destruct (N.eqb_spec c sep) as [->|Hne]; [exfalso; apply Hk; by left|].
    rewrite IH; [done|]. intros Hin. apply Hk. by right.
Qed.

Lemma split1_two sep s :
  contains [sep] s = true -> exists k v, split1 sep s = [k; v].
Proof.
  induction s as [|c s IH]; cbn [contains startswith split1].
  - discriminate.
  - rewrite (N.eqb_sym sep c). destruct (c =? sep); [by eexists _, _|].
    cbn [andb orb]. intros Hc. destruct (IH Hc) as (k & v & ->). by eexists _, _.
Qed.

Lemma split1_starts sep k s :
  ~ In sep k -> startswith (k ++ [sep]) s = true -> exists v, split1 sep s = [k; v].
Proof.
  intros Hk Hs. apply startswith_spec in Hs as [post ->].
  rewrite <- app_assoc. cbn [app]. rewrite split1_first by done. by eexists.
Qed.

Lemma last_char {A} (v : list A) : v = [] \/ exists v' c, v = v' ++ [c].
Proof.
  destruct v as [|a v] using rev_ind; [by left|]. right. by eexists _, _.
Qed.

Lemma strip_by_clean f q1 v q2 :
  (forall c v', v = c :: v' -> f c = false) ->
  (forall v' c, v = v' ++ [c] -> f c = false) ->
  Forall (fun c => f c = true) q1 -> Forall (fun c => f c = true) q2 ->
  strip_by f (q1 ++ v ++ q2) = v.
Proof.
  intros Hfirst Hlast Hq1 Hq2. unfold strip_by. rewrite lstrip_by_drop by done.
  destruct v as [|c v'].
  - cbn [app]. rewrite <- (app_nil_r q2), lstrip_by_drop by done. reflexivity.
  - cbn [app]. rewrite lstrip_by_keep by (by eapply Hfirst).
    change (c :: v' ++ q2) with ((c :: v') ++ q2). rewrite rstrip_by_drop by done.
    destruct (last_char (c :: v')) as [|(v'' & c' & E)]; [done|].
    rewrite E. apply rstrip_by_keep. by eapply Hlast.
Qed.

Lemma is_quote c :
  existsb (N.eqb c) quotes = (c =? 34) || (c =? 39).
Proof. unfold quotes, dq, lit. cbn [app existsb]. by rewrite orb_false_r. Qed.

Lemma quote_mark_quotes q :
  quote_mark q -> Forall (fun c => existsb (N.eqb c) quotes = true) q.
Proof. intros [E|[E|E]]; subst q; repeat constructor. Qed.

Lemma plain_end_quote c : plain_end c -> existsb (N.eqb c) quotes = false.
Proof.
  intros (_ & H1 & H2). rewrite is_quote.
  apply orb_false_iff. split; by apply N.eqb_neq.
Qed.

(** The value is read back whole: the quotes around it are stripped. *)
Lemma strip_quoted q v :
  quote_mark q -> clean_value v -> strip_chars quotes (q ++ v ++ q) = v.
Proof.
  intros Hq [Hfirst Hlast]. unfold strip_chars.
  apply strip_by_clean; try by apply quote_mark_quotes.
  - intros c v' E. by apply plain_end_quote, (Hfirst c v').
  - intros v' c E. by apply plain_end_quote, (Hlast v' c).
Qed.

(** A line [k=v] with its line break is stripped to [k=v]. *)
Lemma strip_assignment k q v :
  (exists c k', k = c :: k' /\ isspace c = false) ->
  quote_mark q -> clean_value v ->
  strip (k ++ u "=" ++ q ++ v ++ q ++ nl) = k ++ u "=" ++ q ++ v ++ q.
Proof.
  intros (c & k' & -> & Hc) Hq [Hfirst Hlast]. unfold strip.
  replace ((c :: k') ++ u "=" ++ q ++ v ++ q ++ nl)
    with ([] ++ ((c :: k') ++ u "=" ++ q ++ v ++ q) ++ nl)
    by (cbn [app]; by rewrite <- !app_assoc).
  apply strip_by_clean; [| |constructor|by repeat constructor].
  - by intros ? ? [= <- _].
  - intros w d E.
    destruct Hq as [Eq|Hq].
    + subst q. rewrite app_nil_r in E. cbn [app] in E.
      destruct (last_char v) as [->|(v'' & d' & ->)].
      * rewrite app_nil_r in E. change (u "=") with [61] in E.
        change (c :: k' ++ [61]) with ((c :: k') ++ [61]) in E.
        apply app_inj_tail in E as [_ <-]. reflexivity.
      * change (c :: k' ++ u "=" ++ v'' ++ [d'])
          with ((c :: k') ++ u "=" ++ v'' ++ [d']) in E.
        rewrite !app_assoc in E. apply app_inj_tail in E as [_ <-].
        by apply (Hlast v'' d').
    + assert (exists x, q = [x] /\ isspace x = false) as (x & -> & Hx).
      { destruct Hq as [Eq|Eq]; subst q; by eexists. }
      rewrite !app_assoc in E. apply app_inj_tail in E as [_ <-]. exact Hx.
Qed.

Lemma load_line_assignment env k q v :
  clean_key k -> quote_mark q -> clean_value v ->
  load_line env (k ++ u "=" ++ q ++ v ++ q ++ nl) = inr (<[k := v]> env).
Proof.
  intros [Hk (c & k' & Ek & Hc & Hh)] Hq Hv. unfold load_line. cbv zeta.
  rewrite strip_assignment; [|by exists c, k'|done..].
  assert (Htruthy : truthy_str (k ++ u "=" ++ q ++ v ++ q) = true) by (by rewrite Ek).
  assert (Hhash : startswith (u "#") (k ++ u "=" ++ q ++ v ++ q) = false).
  { rewrite Ek. change (u "#") with [35]. cbn [app startswith].
    apply andb_false_iff. left. apply N.eqb_neq. congruence. }
  assert (Heq : contains (u "=") (k ++ u "=" ++ q ++ v ++ q) = true).
  { apply contains_spec. by exists k, (q ++ v ++ q). }
  rewrite Htruthy, Hhash, Heq. cbn [negb andb].
  change (u "=" ++ q ++ v ++ q) with (61 :: q ++ v ++ q).
  rewrite split1_first by done. by rewrite strip_quoted.
Qed.

(** A line that sets a key: [load_env] of [spawn_node.py] reads the key and
    the value back as they were written, with or without quotes around the
    value. *)
Theorem load_line_reads_assignment env k q v :
  clean_key k -> quote_mark q -> clean_value v ->
  load_line env (k ++ u "=" ++ q ++ v ++ q ++ nl) = inr (<[k := v]> env).
Proof. apply load_line_assignment. Qed.

Lemma rstrip_by_prefix f pre c post :
  f c = false -> exists post', rstrip_by f (pre ++ c :: post) = pre ++ c :: post'.
Proof.
  intros Hc. induction post as [|d post IH] using rev_ind.
  - exists []. by apply (rstrip_by_keep f pre c).
  - destruct (f d) eqn:Hd.
    + destruct IH as [post' IH]. exists post'.
      replace (pre ++ c :: post ++ [d]) with ((pre ++ c :: post) ++ [d])
        by (by rewrite <- app_assoc).
      rewrite rstrip_by_drop by (by repeat constructor). exact IH.
    + exists (post ++ [d]).
      replace (pre ++ c :: post ++ [d]) with ((pre ++ c :: post) ++ [d])
        by (by rewrite <- app_assoc).
      by apply rstrip_by_keep.
Qed.

Lemma no_equals_sign k : forallb (fun c => negb (c =? 61)) k = true -> ~ In 61 k.
Proof.
  induction k as [|c k IH]; cbn [forallb In]; [tauto|].
  intros [Hc Hk]%andb_true_iff [E|Hin]; [subst c; discriminate|by apply IH].
Qed.

(** A line that starts with [key=] has a value: indexing the split line
    cannot fail. *)
Lemma split1_strip_assignment key line :
  ~ In 61 key -> (exists c k', key = c :: k' /\ isspace c = false) ->
  startswith (key ++ u "=") line = true ->
  exists v, split1 61 (strip line) = [key; v].
Proof.
  intros Hk (c & k' & -> & Hc) Hs. apply startswith_spec in Hs as [post ->].
  unfold strip, strip_by. rewrite <- app_assoc. cbn [app].
  rewrite lstrip_by_keep by done.
  change (c :: k' ++ u "=" ++ post) with ((c :: k') ++ 61 :: post).
  destruct (rstrip_by_prefix isspace (c :: k') 61 post eq_refl) as [post' ->].
  rewrite split1_first by done. by eexists.
Qed.

Lemma spawn_load_line_total env line : exists env', load_line env line = inr env'.
Proof.
  unfold load_line. cbv zeta.
  destruct (truthy_str (strip line) && negb (startswith (u "#") (strip line))) ; cbn [andb];
    [|by eexists].
  destruct (contains (u "=") (strip line)) eqn:Hc; [|by eexists].
  destruct (split1_two 61 (strip line) Hc) as (k & v & ->). by eexists.
Qed.

Lemma spawn_load_lines_total env lines : exists env', load_lines env lines = inr env'.
Proof.
  revert env. induction lines as [|line lines IH]; intros env; cbn [load_lines]; [by eexists|].
  destruct (spawn_load_line_total env line) as [env' ->]. apply IH.
Qed.

Lemma scaleway_load_keys_total ks creds line :
  Forall (fun key => ~ In 61 key /\ exists c k', key = c :: k' /\ isspace c = false) ks ->
  exists creds', Scaleway.load_keys ks creds line = inr creds'.
Proof.
  intros Hks. revert creds. induction Hks as [|key ks [Hk Hc] _ IH]; intros creds;
    cbn [Scaleway.load_keys]; [by eexists|].
  destruct (startswith (key ++ u "=") line) eqn:Hs; [|apply IH].
  unfold Scaleway.line_value.
  destruct (split1_strip_assignment key line Hk Hc Hs) as [v ->]. apply IH.
Qed.

Lemma scaleway_keys_clean :
  Forall (fun key => ~ In 61 key /\ exists c k', key = c :: k' /\ isspace c = false)
    Scaleway.keys.
Proof.
  unfold Scaleway.keys.
  repeat constructor; try (apply no_equals_sign; reflexivity); by eexists _, _.
Qed.

Lemma scaleway_load_lines_total creds lines :
  exists creds', Scaleway.load_lines creds lines = inr creds'.
Proof.
  revert creds. induction lines as [|line lines IH]; intros creds;
    cbn [Scaleway.load_lines]; [by eexists|].
  destruct (scaleway_load_keys_total Scaleway.keys creds line scaleway_keys_clean)
    as [creds' ->].
  apply IH.
Qed.

Lemma hetzner_first_token_total lines : exists t, Hetzner.first_token lines = inr t.
Proof.
  induction lines as [|line lines IH]; cbn [Hetzner.first_token]; [by eexists|].
  destruct (startswith (u "HETZNER_API_TOKEN=") line) eqn:Hs; [|exact IH].
  destruct (split1_strip_assignment (u "HETZNER_API_TOKEN") line) as [v ->].
  - apply no_equals_sign. reflexivity.
  - by eexists _, _.
  - exact Hs.
  - by eexists.
Qed.

Lemma spawn_load_files_raise (fs : str -> file) locs env e :
  load_files fs locs env = inl e -> exists loc, In loc locs /\ refuses (fs loc) e.
Proof.
  revert env. induction locs as [|loc locs IH]; intros env; cbn [load_files]; [done|].
  destruct (fs loc) as [|e'|ls|ls e'] eqn:Ef.
  - intros Hl. destruct (IH _ Hl) as (l & Hin & Hu). exists l. split; [by right|done].
  - intros [= ->]. exists loc. split; [by left|]. rewrite Ef. by left.
  - destruct (spawn_load_lines_total env ls) as [env' ->].
    intros Hl. destruct (IH _ Hl) as (l & Hin & Hu). exists l. split; [by right|done].
  - destruct (spawn_load_lines_total env ls) as [env' ->].
    intros [= ->]. exists loc. split; [by left|]. rewrite Ef. right. by exists ls.
Qed.

Lemma scaleway_load_files_raise (fs : str -> file) locs creds e :
  Scaleway.load_files fs locs creds = inl e ->
  exists loc, In loc locs /\ refuses (fs loc) e.
Proof.
  revert creds. induction locs as [|loc locs IH]; intros creds;
    cbn [Scaleway.load_files]; [done|].
  destruct (fs loc) as [|e'|ls|ls e'] eqn:Ef.
  - intros Hl. destruct (IH _ Hl) as (l & Hin & Hu). exists l. split; [by right|done].
  - intros [= ->]. exists loc. split; [by left|]. rewrite Ef. by left.
  - destruct (scaleway_load_lines_total creds ls) as [creds' ->].
    intros Hl. destruct (IH _ Hl) as (l & Hin & Hu). exists l. split; [by right|done].
  - destruct (scaleway_load_lines_total creds ls) as [creds' ->].
    intros [= ->]. exists loc. split; [by left|]. rewrite Ef. right. by exists ls.
Qed.

Lemma hetzner_load_files_raise (fs : str -> file) locs e :
  Hetzner.load_files fs locs = inl e -> exists loc, In loc locs /\ refuses (fs loc) e.
Proof.
  induction locs as [|loc locs IH]; cbn [Hetzner.load_files]; [done|].
  destruct (fs loc) as [|e'|ls|ls e'] eqn:Ef.
  - intros Hl. destruct (IH Hl) as (l & Hin & Hu). exists l. split; [by right|done].
  - intros [= ->]. exists loc. split; [by left|]. rewrite Ef. by left.
  - destruct (hetzner_first_token_total ls) as [[t|] ->]; [done|].
    intros Hl. destruct (IH Hl) as (l & Hin & Hu). exists l. split; [by right|done].
  - destruct (hetzner_first_token_total ls) as [[t|] ->]; [done|].
    intros [= ->]. exists loc. split; [by left|]. rewrite Ef. right. by exists ls.
Qed.

(** No line that a file yields makes [load_env] fail, in any of the three
    scripts: unpacking and indexing the split line cannot raise. An exception
    of [load_env] is therefore one that a location raised when it was examined
    or opened, or one that reading a file raised. *)
Theorem load_env_raises_only_from_files (fs : str -> file) here repo home environ e :
  (load_env fs here = inl e ->
   exists loc, In loc [here; u "/home/claude/brain/.env"] /\ refuses (fs loc) e) /\
  (Scaleway.load_env fs repo home environ = inl e ->
   exists loc, In loc [repo; u "/home/claude/brain/.env"; home] /\ refuses (fs loc) e) /\
  (Hetzner.load_env fs repo home environ = inl e ->
   exists loc, In loc [repo; u "/home/claude/brain/.env"; home] /\ refuses (fs loc) e).
Proof.
  split; [|split].
  - apply spawn_load_files_raise.
  - unfold Scaleway.load_env.
    destruct (Scaleway.load_files fs _ ∅) as [e'|creds] eqn:El; [|done].
    intros [= ->]. by apply scaleway_load_files_raise in El.
  - unfold Hetzner.load_env.
    destruct (Hetzner.load_files fs _) as [e'|[t|]] eqn:El; [|done..].
    intros [= ->]. by apply hetzner_load_files_raise in El.
Qed.

Lemma spawn_load_lines_app env l1 l2 :
  load_lines env (l1 ++ l2)
  = match load_lines env l1 with
    | inl e => inl e
    | inr env' => load_lines env' l2
    end.
Proof.
  revert env. induction l1 as [|l l1 IH]; intros env; cbn [app load_lines]; [done|].
  destruct (load_line env l); [done|apply IH].
Qed.

Lemma load_env_as_one (fs : str -> file) here :
  readable (fs here) -> readable (fs (u "/home/claude/brain/.env")) ->
  load_env fs here
  = load_lines ∅ (lines_of (fs here) ++ lines_of (fs (u "/home/claude/brain/.env"))).
Proof.
  intros H1 H2. unfold load_env. cbn [load_files].
  rewrite spawn_load_lines_app.
  destruct (fs here) as [|e|l1|l1 e]; [|done| |done]; cbn [lines_of load_lines].
  - destruct (fs (u "/home/claude/brain/.env")) as [|e|l2|l2 e]; [done|done| |done].
    cbn [lines_of]. by destruct (load_lines ∅ l2).
  - destruct (load_lines ∅ l1) as [e|env]; [done|].
    destruct (fs (u "/home/claude/brain/.env")) as [|e|l2|l2 e]; [done|done| |done].
    cbn [lines_of]. by destruct (load_lines env l2).
Qed.

(** [load_env] of [spawn_node.py] reads its two files as one: a missing file
    counts as an empty one, and the lines of the brain file come after those
    of the local file. *)
Theorem load_env_concatenates (fs : str -> file) here :
  readable (fs here) -> readable (fs (u "/home/claude/brain/.env")) ->
  load_env fs here
  = load_lines ∅ (lines_of (fs here) ++ lines_of (fs (u "/home/claude/brain/.env"))).
Proof. apply load_env_as_one. Qed.

(** The last assignment of a key decides: when the brain file ends
    with a line that sets [k], [load_env] of [spawn_node.py] gives [k] that
    value, whatever else the two files hold. *)
Theorem load_env_last_assignment_wins (fs : str -> file) here before k q v :
  readable (fs here) ->
  fs (u "/home/claude/brain/.env") = Lines (before ++ [k ++ u "=" ++ q ++ v ++ q ++ nl]) ->
  clean_key k -> quote_mark q -> clean_value v ->
  exists env, load_env fs here = inr env /\ env !! k = Some v.
Proof.
  intros Hhere Hbrain Hk Hq Hv.
  rewrite load_env_as_one; [|done|by rewrite Hbrain].
  rewrite Hbrain. cbn [lines_of]. rewrite app_assoc, spawn_load_lines_app.
  destruct (spawn_load_lines_total ∅ (lines_of (fs here) ++ before)) as [env ->].
  cbn [load_lines]. rewrite load_line_assignment by done.
  eexists. split; [reflexivity|]. apply lookup_insert_eq.
Qed.










Lemma split_on_line sep line rest :
  ~ In sep line -> split_on sep (line ++ sep :: rest) = line :: split_on sep rest.
Proof.
  induction line as [|c line IH]; intros Hl; cbn [app split_on].
  - by rewrite N.eqb_refl.
  - destruct (N.eqb_spec c sep) as [->|Hne]; [exfalso; apply Hl; by left|].
    rewrite IH; [done|]. intros Hin. apply Hl. by right.
Qed.

Lemma split_on_rows rows :
  Forall (fun row => ~ In 10 row) rows ->
  split_on 10 (flat_map (fun row => row ++ nl) rows) = rows ++ [[]].
Proof.
  induction 1 as [|row rows Hrow _ IH]; [done|].
  cbn [flat_map app]. rewrite <- app_assoc. change (nl ++ ?x) with (10 :: x).
  by rewrite split_on_line, IH.
Qed.

Lemma scan_lines_app name l1 l2 :
  scan_lines name (l1 ++ l2)
  = match scan_lines name l1 with
    | Some t => Some t
    | None => scan_lines name l2
    end.
Proof.
  induction l1 as [|l l1 IH]; cbn [app scan_lines]; [done|].
  destruct (contains name l); [|exact IH].
  by destruct (first_ip_part (split_ws l)).
Qed.

Lemma scan_lines_blank name : scan_lines name [[]] = None.
Proof. cbn [scan_lines]. by destruct (contains name []). Qed.

Lemma stdout_of_app t1 t2 : stdout_of (t1 ++ t2) = stdout_of t1 ++ stdout_of t2.
Proof. apply flat_map_app. Qed.

Lemma stdout_of_prints rows :
  stdout_of (map EvPrint rows) = flat_map (fun row => row ++ nl) rows.
Proof.
  induction rows as [|r rows IH]; [done|].
  change (stdout_of (map EvPrint (r :: rows)))
    with ((r ++ nl) ++ stdout_of (map EvPrint rows)).
  by rewrite IH.
Qed.

Section ScalewayListing.
Context {C : Type} (K : cloud C) (CREDS : gmap str str) (tok : str).
Hypothesis Htok : CREDS !! u "SCALEWAY_SECRET_KEY" = Some tok.
Hypothesis Htruthy : truthy_str tok = true.

(** One round of the loop of [list_servers]. *)
Lemma scaleway_print_row s row (c : C) :
  scaleway_listed s row -> scaleway_print_server s c = (Ret tt, c, [EvPrint row]).
Proof.
  intros (name & state & ip & ty & Hn & Hs & Ha & Ht & -> & _).
  unfold scaleway_print_server. unfold scaleway_address in Ha.
  rewrite bind_lift.
  destruct (py_get s (u "public_ip") JNull) as [e|pub]; [done|].
  assert (Hip :
    (if truthy pub
     then let* d := lift (py_get s (u "public_ip") (JDict [])) in
          lift (py_get d (u "address") (JStr (u "N/A")))
     else ret (JStr (u "N/A"))) c = (Ret (JStr ip), c, [])).
  { destruct (truthy pub).
    - rewrite bind_lift.
      destruct (py_get s (u "public_ip") (JDict [])) as [e|d]; [done|].
      by rewrite Ha.
    - by injection Ha as <-. }
  rewrite (bind_Ret _ _ _ _ _ _ Hip). rewrite bind_lift, Hn. cbn [py_format_left].
  rewrite bind_lift, bind_lift, Hs. cbn [py_format_left].
  rewrite bind_lift, bind_lift, bind_lift, Ht. cbn [py_format_left]. rewrite bind_lift.
  reflexivity.
Qed.

Lemma scaleway_print_rows servers rows (c : C) :
  Forall2 scaleway_listed servers rows ->
  for_each servers scaleway_print_server c = (Ret tt, c, map EvPrint rows).
Proof.
  induction 1 as [|s row servers rows Hrow _ IH]; [done|].
  cbn [for_each]. rewrite (bind_Ret _ _ _ _ _ _ (scaleway_print_row s row c Hrow)).
  rewrite IH. reflexivity.
Qed.

Lemma api_answer_quiet res d : api_answer res = Ret d -> api_log res = [].
Proof.
  destruct res as [e|r]; [done|]. cbn [api_answer api_log].
  by destruct (400 <=? status_code r)%Z.
Qed.

Lemma scan_lines_skip name line rest :
  first_ip_part (split_ws line) = None ->
  scan_lines name (line :: rest) = scan_lines name rest.
Proof. intros Hf. cbn [scan_lines]. rewrite Hf. by destruct (contains name line). Qed.

Lemma no_line_break s : forallb (fun c => negb (c =? 10)) s = true -> ~ In 10 s.
Proof.
  induction s as [|c s IH]; cbn [forallb In]; [tauto|].
  intros [Hc Hs]%andb_true_iff [E|Hin]; [subst c; discriminate|by apply IH].
Qed.

(** The listing [list_servers] prints, read by [get_vm_ip]: the lookup goes
    through the rows of the servers in the order of the API's answer; the
    blank line, the header and the rule above them never give an address. *)
Theorem scaleway_listing_lookup doc servers rows c :
  api_answer (http K GET servers_url tok None c).1 = Ret doc ->
  py_get doc (u "servers") (JList []) = inr (JList servers) ->
  servers <> [] ->
  Forall2 scaleway_listed servers rows ->
  let r := Scaleway.list_servers K CREDS c in
  result r = Ret tt /\
  stdout_of (trace r)
  = nl ++ scaleway_header ++ nl ++ scaleway_rule ++ nl ++ flat_map (fun row => row ++ nl) rows /\
  forall name, ip_of_listing (stdout_of (trace r)) name = scan_lines name rows.
Proof.
  intros Hdoc Hservers Hne Hrows. cbv zeta.
  assert (Hrun : Scaleway.list_servers K CREDS c
                 = (Ret tt, (http K GET servers_url tok None c).2,
                    EvApi GET servers_url None (http K GET servers_url tok None c).1
                    :: EvPrint (nl ++ scaleway_header) :: EvPrint scaleway_rule
                    :: map EvPrint rows)).
  { unfold Scaleway.list_servers.
    pose proof (api_request_eq K CREDS tok Htok Htruthy GET (u "servers") None None c
                  ltac:(discriminate)) as E.
    cbv zeta in E. cbn [sent base_of] in E. fold servers_url in E.
    rewrite Hdoc, (api_answer_quiet _ _ Hdoc) in E.
    rewrite (bind_Ret _ _ _ _ _ _ E). rewrite bind_lift, Hservers.
    destruct servers as [|s0 servers0]; [done|]. cbn [truthy negb].
    rewrite !bind_print. cbn [result final trace].
    rewrite bind_lift. cbn [py_iter].
    change (for_each (s0 :: servers0) _) with (for_each (S:=C) (s0 :: servers0) scaleway_print_server).
    rewrite (scaleway_print_rows _ _ _ Hrows). reflexivity. }
  rewrite Hrun. cbn [result trace fst snd].
  assert (Hout : stdout_of (EvApi GET servers_url None (http K GET servers_url tok None c).1
                            :: EvPrint (nl ++ scaleway_header) :: EvPrint scaleway_rule
                            :: map EvPrint rows)
                 = nl ++ scaleway_header ++ nl ++ scaleway_rule ++ nl
                   ++ flat_map (fun row => row ++ nl) rows).
  { change (stdout_of (?e :: EvPrint ?a :: EvPrint ?b :: ?t))
      with ((a ++ nl) ++ (b ++ nl) ++ stdout_of t).
    rewrite stdout_of_prints. by rewrite <- !app_assoc. }
  split; [done|]. split; [exact Hout|].
  intros name. rewrite Hout. unfold ip_of_listing.
  set (body := flat_map _ rows).
  change (split_on 10 (nl ++ scaleway_header ++ nl ++ scaleway_rule ++ nl ++ body))
    with (split_on 10 ([] ++ 10 :: scaleway_header ++ 10 :: scaleway_rule ++ 10 :: body)).
  subst body. rewrite split_on_line by (by intros []).
  rewrite split_on_line by (apply no_line_break; reflexivity).
  rewrite split_on_line by (apply no_line_break; reflexivity).
  rewrite split_on_rows.
  2:{ clear -Hrows. induction Hrows as [|s row ss rs (?&?&?&?&?&?&?&?&?&Hrow) _ IH];
        constructor; done. }
  rewrite scan_lines_skip by reflexivity.
  rewrite scan_lines_skip by (vm_compute; reflexivity).
  rewrite scan_lines_skip by (vm_compute; reflexivity).
  rewrite scan_lines_app, scan_lines_blank. by destruct (scan_lines name rows).
Qed.

End ScalewayListing.

Lemma split_ws_spaces ws s :
  Forall (fun c => isspace c = true) ws -> split_ws (ws ++ s) = split_ws s.
Proof. induction 1 as [|c ws Hc _ IH]; [done|]. cbn [app split_ws]. by rewrite Hc. Qed.

Lemma split_ws_step c d s :
  split_ws (c :: d :: s)
  = if isspace c then split_ws (d :: s)
    else if isspace d then [c] :: split_ws (d :: s)
         else match split_ws (d :: s) with
              | w :: ws => (c :: w) :: ws
              | [] => [[c]]
              end.
Proof. reflexivity. Qed.

Lemma split_ws_token t rest :
  token t -> (rest = [] \/ exists w r, rest = w :: r /\ isspace w = true) ->
  split_ws (t ++ rest) = t :: split_ws rest.
Proof.
  intros [Hne Hall] Hrest. induction Hall as [|c t Hc Hall IH]; [done|].
  destruct t as [|d t].
  - cbn [app]. destruct Hrest as [->|(w & r & -> & Hw)].
    + cbn [split_ws]. by rewrite Hc.
    + cbn [split_ws]. rewrite Hc, Hw. reflexivity.
  - inversion Hall as [|? ? Hd _]; subst.
    change ((c :: d :: t) ++ rest) with (c :: d :: (t ++ rest)).
    rewrite split_ws_step, Hc, Hd.
    change (d :: t ++ rest) with ((d :: t) ++ rest) in *.
    rewrite IH by done. reflexivity.
Qed.

Lemma repeat_spaces n : Forall (fun c => isspace c = true) (repeat 32 n).
Proof. induction n; by constructor. Qed.

Lemma split_ws_column w t rest :
  token t -> split_ws (ljust w t ++ u " " ++ rest) = t :: split_ws rest.
Proof.
  intros Ht. unfold ljust. rewrite <- app_assoc.
  rewrite split_ws_token; [|done|].
  - f_equal. rewrite app_assoc. apply split_ws_spaces.
    apply Forall_app. split; [apply repeat_spaces|by repeat constructor].
  - right. destruct (w - length t)%nat; cbn [repeat app]; by eexists _, _.
Qed.

(** A row of the Scaleway listing splits back into its four fields when
    each is one token; so the lookup of a name that occurs in the row, in
    whatever column, gives the address column when that is the first field
    with exactly three dots, and a name that does not occur in the row
    gives nothing. *)
Theorem scaleway_row_lookup lookup name state ip type :
  token name -> token state -> token ip -> token type ->
  count dot name <> 3%nat -> count dot state <> 3%nat -> count dot ip = 3%nat ->
  split_ws (scaleway_row name state ip type) = [name; state; ip; type] /\
  scan_lines lookup [scaleway_row name state ip type]
  = if contains lookup (scaleway_row name state ip type) then Some ip else None.
Proof.
  intros Hn Hs Hi Ht Dn Ds Di.
  assert (Hsplit : split_ws (scaleway_row name state ip type) = [name; state; ip; type]).
  { unfold scaleway_row. rewrite !split_ws_column by done.
    unfold ljust. rewrite split_ws_token; [|done|].
    - by rewrite <- (app_nil_r (repeat _ _)), split_ws_spaces by apply repeat_spaces.
    - destruct (15 - length type)%nat; [by left|right; by eexists _, _]. }
  split; [exact Hsplit|].
  cbn [scan_lines]. rewrite Hsplit. cbn [first_ip_part].
  apply Nat.eqb_neq in Dn, Ds. rewrite Dn, Ds, Di. reflexivity.
Qed.

(** A notification never raises and leaves the world as it was. Without a
    webhook it sends nothing and returns [False]; an exception of the request
    is printed and gives [False]; otherwise it returns whether the status
    was 204. *)
Theorem notify_outcomes {W D} (H : host W D) ENV msg s :
  let r := discord_notify H ENV msg None s in
  exists b, result r = Ret b /\ (final r).1 = s.1 /\
    ((truthy_opt (ENV !! u "DISCORD_BACKUP_WEBHOOK") = false /\ b = false /\
      trace r = [EvPrint (u "⚠️  No Discord webhook configured, skipping notification")])
     \/
     (exists url e, ENV !! u "DISCORD_BACKUP_WEBHOOK" = Some url /\ b = false /\
        trace r = [EvNotify url (JDict [(u "content", JStr msg)]) (inl e);
                   EvPrint (u "⚠️  Discord notification failed: " ++ exn_str e)])
     \/
     (exists url status, ENV !! u "DISCORD_BACKUP_WEBHOOK" = Some url /\
        b = (status =? 204)%Z /\
        trace r = [EvNotify url (JDict [(u "content", JStr msg)]) (inr status)])).
Proof. apply discord_notify_cases. Qed.

(** How [wait_for_ssh] ends: after rounds of a probe that was refused or
    raised, each followed by a sleep of five seconds, it returns [True] on
    the first probe answered 0, or [False] when the clock has run out; it
    never raises. (The third case is a run longer than the fuel of the model.) *)
Theorem wait_for_ssh_outcome {W D} (H : host W D) fuel host timeout s :
  let r := wait_for_ssh H fuel host timeout s in
  exists answers,
    Forall (fun a => a <> inr 0%Z) answers /\
    ((result r = Ret true /\
      trace r = flat_map (failed_probe host) answers ++ [EvConnect host 22 (inr 0%Z)])
     \/ (result r = Ret false /\ trace r = flat_map (failed_probe host) answers)
     \/ (result r = Diverge /\ length answers = fuel)).
Proof.
  cbv zeta. destruct s as [w d]. unfold wait_for_ssh.
  rewrite (trace_bind_Ret _ _ _ _ _ _ (read_world_eq _ _)).
  rewrite (result_bind_Ret _ _ _ _ _ _ (read_world_eq _ _)).
  cbn [fst snd app].
  destruct (wait_for_ssh_loop_shape H fuel host timeout (time_time H w).1
              ((time_time H w).2, d)) as (answers & Hall & _ & Hcase).
  exists answers. split; [done|].
  destruct Hcase as [?|[?|(? & _ & ?)]]; auto.
Qed.

(** The address [get_vm_ip] returns is one whitespace-separated token of the
    listing with exactly three dots; nothing else about it is checked. *)
Theorem address_is_token stdout name t :
  ip_of_listing stdout name = Some t -> dotted_token t.
Proof. apply lookup_returns_token. Qed.


(** Instances of the theorems above that have hypotheses. *)

Lemma create_dns_upserts_witness :
  let H := demo_host 0 0 no_records in
  let ENV := with_token in
  let name := u "b1" in
  let ip := u "10.0.0.7" in
  let r := create_dns H ENV name ip (tt, tt) in
  let token := ENV !! u "CLOUDFLARE_API_TOKEN" in
  exists lookup,
    let asked := EvCloudflare GET (DnsRecordsByName (name ++ u ".giobi.com")) token None lookup in
    match dns_records_of lookup with
    | inl e => trace r = [asked] /\ result r = Raise e
    | inr existing =>
        if truthy existing then
          match first_record_id existing with
          | inl e => trace r = [asked] /\ result r = Raise e
          | inr id =>
              exists res,
                trace r = [asked; EvCloudflare PUT (DnsRecord id) token
                                    (Some (dns_record name ip)) res]
          end
        else
          exists res,
            trace r = [asked; EvCloudflare POST DnsRecords token
                                (Some (dns_record name ip)) res]
    end.
Proof.
  intros H ENV name ip. apply (create_dns_upserts H ENV name ip (tt, tt)). reflexivity.
Defined.

Lemma spawn_without_token_skips_dns_witness :
  Forall (fun e => is_cloudflare e = false)
    (trace (spawn_node (demo_host 0 0 no_records) ∅ 1 (u "b1") scaleway (tt, tt))).
Proof.
  apply (spawn_without_token_skips_dns (demo_host 0 0 no_records) ∅ 1 (u "b1") scaleway (tt, tt)).
  reflexivity.
Defined.

Lemma wait_for_ssh_terminates_witness :
  let r := wait_for_ssh ticking_host 25 (u "10.0.0.7") 120 (0%Z, tt) in
  (exists b, result r = Ret b) /\
  (length (List.filter is_connect (trace r)) <= 24)%nat.
Proof.
  apply (wait_for_ssh_terminates ticking_host (fun w => w)); cbn; intros; lia.
Defined.

Lemma spawn_terminates_witness :
  result (spawn_node ticking_host ∅ 25 (u "b1") scaleway (0%Z, tt)) <> Diverge.
Proof.
  apply (spawn_terminates ticking_host ∅ (fun w => w)); cbn; intros; lia.
Defined.

Lemma address_is_token_witness : dotted_token (u "10.0.0.7").
Proof.
  apply (address_is_token (u "b1 running 10.0.0.7") (u "b1")). vm_compute. reflexivity.
Defined.

Lemma scaleway_without_key_witness :
  let r := Scaleway.main demo_vendor ∅ [u "scaleway.py"; u "list"] tt in
  Forall (fun e => is_api e = false) (trace r) /\ forall x, result r <> Ret x.
Proof. apply (scaleway_without_key demo_vendor ∅). reflexivity. Defined.

Lemma hetzner_without_token_witness :
  let r := Hetzner.main demo_vendor None [u "hetzner.py"; u "destroy"] tt in
  Forall (fun e => is_api e = false) (trace r) /\ forall x, result r <> Ret x.
Proof. apply (hetzner_without_token demo_vendor None). reflexivity. Defined.

Lemma api_request_outcome_witness :
  let K := demo_vendor in
  let tok := u "secret" in
  let m := GET in
  let endpoint := u "servers" in
  let data := @None json in
  (let url := base_of None ++ u "/" ++ endpoint in
   let res := (http K m url tok (sent m data) tt).1 in
   let r := Scaleway.api_request K demo_creds m endpoint data None tt in
   trace r = EvApi m url (sent m data) res :: api_log res /\ result r = api_answer res) /\
  (let url := Hetzner.BASE_URL ++ u "/" ++ endpoint in
   let res := (http K m url tok (sent m data) tt).1 in
   let r := Hetzner.api_request K (Some tok) m endpoint data tt in
   trace r = EvApi m url (sent m data) res :: api_log res /\ result r = api_answer res).
Proof.
  intros K tok m endpoint data.
  apply (api_request_outcome K demo_creds tok m endpoint data None tt);
    [reflexivity|reflexivity|discriminate].
Defined.

Lemma main_rejects_witness :
  let argv := [u "scaleway.py"; u "reboot"] in
  let rs := Scaleway.main demo_vendor demo_creds argv tt in
  let rh := Hetzner.main demo_vendor (Some (u "token")) argv tt in
  result rs = Exit 1 /\ final rs = tt /\ Forall (fun e => exists l, e = EvPrint l) (trace rs) /\
  result rh = Exit 1 /\ final rh = tt /\ Forall (fun e => exists l, e = EvPrint l) (trace rh).
Proof.
  intros argv.
  apply (main_rejects demo_vendor demo_creds (Some (u "token")) argv tt).
  intros script cmd rest [= <- <- <-]. repeat split; discriminate.
Defined.

Lemma load_line_reads_assignment_witness :
  load_line ∅ (u "GITHUB_TOKEN" ++ u "=" ++ dq ++ u "abc" ++ dq ++ nl)
  = inr (<[u "GITHUB_TOKEN" := u "abc"]> ∅).
Proof.
  apply (load_line_reads_assignment ∅ (u "GITHUB_TOKEN") dq (u "abc")).
  - split; [apply no_equals_sign; reflexivity|]. eexists _, _. by repeat split.
  - right. by left.
  - split.
    + intros c v' [= <- _]. by repeat split.
    + intros v' c E. change (u "abc") with ([97; 98] ++ [99]) in E.
      apply app_inj_tail in E as [_ <-]. by repeat split.
Defined.

Lemma load_env_concatenates_witness :
  load_env one_env_file (u "/opt/gitbackup/.env")
  = load_lines ∅ (lines_of (one_env_file (u "/opt/gitbackup/.env"))
                  ++ lines_of (one_env_file (u "/home/claude/brain/.env"))).
Proof.
  apply (load_env_concatenates one_env_file (u "/opt/gitbackup/.env")); exact I.
Defined.

Lemma load_env_last_assignment_wins_witness :
  exists env, load_env brain_env_file (u "/opt/gitbackup/.env") = inr env /\
              env !! u "GITHUB_TOKEN" = Some (u "abc").
Proof.
  apply (load_env_last_assignment_wins brain_env_file (u "/opt/gitbackup/.env")
           [u "# tokens
"] (u "GITHUB_TOKEN") [] (u "abc")).
  - exact I.
  - reflexivity.
  - split; [apply no_equals_sign; reflexivity|]. eexists _, _. by repeat split.
  - by left.
  - split.
    + intros c v' [= <- _]. by repeat split.
    + intros v' c E. change (u "abc") with ([97; 98] ++ [99]) in E.
      apply app_inj_tail in E as [_ <-]. by repeat split.
Defined.

Lemma load_env_raises_only_from_files_witness :
  let here := u "/opt/gitbackup/.env" in
  let home := u "/root/.env" in
  (exists loc, In loc [here; u "/home/claude/brain/.env"] /\
               refuses (broken_env_file loc) decode_error) /\
  (exists loc, In loc [here; u "/home/claude/brain/.env"; home] /\
               refuses (broken_env_file loc) decode_error) /\
  (exists loc, In loc [here; u "/home/claude/brain/.env"; home] /\
               refuses (broken_env_file loc) decode_error).
Proof.
  intros here home.
  destruct (load_env_raises_only_from_files broken_env_file here here home ∅ decode_error)
    as (H1 & H2 & H3).
  split; [apply H1; reflexivity|]. split; [apply H2; reflexivity|apply H3; reflexivity].
Defined.


Lemma scaleway_listing_lookup_witness :
  let rows := [scaleway_row (u "gitbackup-node") (u "running") (u "51.15.0.9") (u "STARDUST1-S")] in
  let r := Scaleway.list_servers listing_vendor demo_creds tt in
  result r = Ret tt /\
  stdout_of (trace r)
  = nl ++ scaleway_header ++ nl ++ scaleway_rule ++ nl ++ flat_map (fun row => row ++ nl) rows /\
  forall name, ip_of_listing (stdout_of (trace r)) name = scan_lines name rows.
Proof.
  intros rows.
  eapply (scaleway_listing_lookup listing_vendor demo_creds (u "secret")); try reflexivity.
  - discriminate.
  - constructor; [|constructor].
    eexists _, _, _, _. repeat split; try reflexivity.
    apply no_line_break. reflexivity.
Defined.

Lemma scaleway_row_lookup_witness :
  let name := u "gitbackup-node" in
  let state := u "running" in
  let ip := u "51.15.0.9" in
  let type := u "STARDUST1-S" in
  split_ws (scaleway_row name state ip type) = [name; state; ip; type] /\
  scan_lines (u "b1") [scaleway_row name state ip type]
  = if contains (u "b1") (scaleway_row name state ip type) then Some ip else None.
Proof.
  intros name state ip type.
  apply (scaleway_row_lookup (u "b1") name state ip type);
    try (split; [discriminate|repeat constructor]);
    vm_compute; congruence.
Defined.

Lemma no_line_from_E_app b a s :
  no_line_from_E b (a ++ s)
  = match no_line_from_E b a with
    | None => None
    | Some b' => no_line_from_E b' s
    end.
Proof.
  revert b. induction a as [|c a IH]; intros b; cbn [app no_line_from_E]; [done|].
  destruct (b && (c =? 69)); [done|apply IH].
Qed.

Lemma no_line_from_E_inside s :
  Forall (fun c => c <> 10) s -> no_line_from_E false s = Some false.
Proof.
  induction 1 as [|c s H10 Hs IH]; [done|].
  cbn [no_line_from_E andb]. apply N.eqb_neq in H10. by rewrite H10.
Qed.

Lemma hexdigit_safe n : hexdigit n <> 10.
Proof. unfold hexdigit. destruct (n <? 10); lia. Qed.

Lemma uescape_safe c : Forall (fun d => d <> 10) (uescape c).
Proof.
  unfold uescape. apply Forall_app. split; [by repeat constructor|].
  repeat (apply List.Forall_cons; [apply hexdigit_safe|]). apply List.Forall_nil.
Qed.

Lemma escape_char_safe c : Forall (fun d => d <> 10) (escape_char c).
Proof.
  unfold escape_char.
  destruct (c =? 34); [by repeat constructor|].
  destruct (c =? 92); [by repeat constructor|].
  destruct (N.eqb_spec c 10); [by repeat constructor|].
  destruct (c =? 13); [by repeat constructor|].
  destruct (c =? 9); [by repeat constructor|].
  destruct (c =? 8); [by repeat constructor|].
  destruct (c =? 12); [by repeat constructor|].
  destruct ((32 <=? c) && (c <=? 126)); [by repeat constructor|].
  destruct (c <? 65536); [apply uescape_safe|].
  apply Forall_app. split; apply uescape_safe.
Qed.

(** A string as [json.dumps] writes it holds no line break, and so begins
    no line. *)
Lemma encode_string_one_line b s : no_line_from_E b (encode_string s) = Some false.
Proof.
  unfold encode_string. change dq with [34].
  cbn [app no_line_from_E]. rewrite andb_false_r. cbn [N.eqb Pos.eqb].
  apply no_line_from_E_inside. apply Forall_app. split; [|by repeat constructor].
  induction s as [|c s IH]; [constructor|].
  cbn [flat_map]. apply Forall_app. split; [apply escape_char_safe|exact IH].
Qed.

Lemma no_line_from_E_lines b s b' :
  no_line_from_E b s = Some b' ->
  Forall (fun l => forall l', l <> 69 :: l')
    (if b then split_on 10 s else tl (split_on 10 s)).
Proof.
  revert b. induction s as [|c s IH]; intros b.
  - intros _. destruct b; repeat constructor. by intros l'.
  - cbn [no_line_from_E split_on].
    destruct (N.eqb_spec c 10) as [->|Hc].
    + rewrite andb_false_r. intros Hs. specialize (IH true Hs). cbn [tl] in *.
      destruct b; [constructor; [by intros l'|exact IH]|exact IH].
    + destruct (b && (c =? 69)) eqn:Hb; [done|]. intros Hs. specialize (IH false Hs).
      destruct (split_on 10 s) as [|l0 ls]; cbn [tl] in *.
      * destruct b; [|constructor]. constructor; [|constructor].
        intros l' [= -> _]. by rewrite andb_true_r in Hb.
      * destruct b; [|exact IH]. constructor; [|exact IH].
        intros l' [= -> _]. by rewrite andb_true_r in Hb.
Qed.

Lemma no_EOF_line s b' : no_line_from_E true s = Some b' -> ~ In (u "EOF") (split_on 10 s).
Proof.
  intros Hs Hin. apply no_line_from_E_lines in Hs.
  apply (proj1 (List.Forall_forall _ _) Hs _ Hin [79; 70]). reflexivity.
Qed.

Ltac scan_document :=
  repeat first
    [ rewrite encode_string_one_line
    | rewrite no_line_from_E_app, encode_string_one_line
    | progress cbn [no_line_from_E andb N.eqb Pos.eqb app] ].

(** Whatever the node name and the token, the two JSON documents the
    bootstrap writes through a here-document have no line that begins with
    [E], so none that is the terminator [EOF]: [json.dumps] escapes every
    line break inside a string. *)
Theorem json_heredocs_keep_their_terminator name hostname p created github_token :
  ~ In (u "EOF") (split_on 10 (dumps (Some 2%nat) (env_dict name hostname p created))) /\
  ~ In (u "EOF") (split_on 10 (dumps None (gitbackup_dict github_token))).
Proof.
  split.
  - eapply no_EOF_line.
    unfold dumps, env_dict. destruct p.
    all: cbn [dumps_at newline_indent item_separator repeat Nat.mul Nat.add
              PROVIDERS provider_name zone type_ cost].
    all: unfold nl, lit; rewrite <- ?app_assoc; cbn [app].
    all: scan_document; reflexivity.
  - eapply no_EOF_line.
    unfold dumps, gitbackup_dict.
    cbn [dumps_at newline_indent item_separator repeat Nat.mul Nat.add].
    unfold nl, lit; rewrite <- ?app_assoc; cbn [app].
    scan_document; reflexivity.
Qed.

Section HetznerDestroy.
Context {C : Type} (K : cloud C) (tok : str).
Hypothesis Htruthy : truthy_str tok = true.




End HetznerDestroy.



Lemma trace_then_ret {S A} (m : M S A) s : trace ((m >> ret tt) s) = trace (m s).
Proof.
  rewrite trace_bind. unfold tail_of.
  destruct (result (m s)); by rewrite app_nil_r.
Qed.

Lemma result_then_ret {S A} (m : M S A) s e :
  result (m s) = Raise e -> result ((m >> ret tt) s) = Raise e.
Proof. intros E. by rewrite result_bind, E. Qed.

Section CreateRuns.
Context {C : Type} (K : cloud C).

Lemma scaleway_create_runs CREDS key name c :
  CREDS !! u "SCALEWAY_SECRET_KEY" = Some key -> truthy_str key = true ->
  let r := Scaleway.create_server K CREDS (Some name) c in
  exists probe got,
    cloud_init name probe got /\
    match got with
    | inl e => trace r = probe /\ result r = Raise e
    | inr _ =>
        exists fields res rest,
          scaleway_fields CREDS fields /\
          assoc (u "name") fields = Some (JStr (u "gitbackup-node")) /\
          trace r = probe
                    ++ EvPrint (u "🚀 Creating server: gitbackup-node (STARDUST1-S)")
                    :: EvApi POST servers_url (Some (JDict fields)) res :: rest
    end.
Proof.
  intros Hkey Htr. cbv zeta. unfold Scaleway.create_server. cbv beta iota zeta.
  set (config := if truthy_opt (CREDS !! u "SCALEWAY_PROJECT_ID") then _ else _).
  assert (Hc : scaleway_fields CREDS config /\
               assoc (u "name") config = Some (JStr (u "gitbackup-node")) /\
               assoc (u "commercial_type") config = Some (JStr (u "STARDUST1-S"))).
  { subst config. unfold scaleway_fields.
    destruct (truthy_opt (CREDS !! u "SCALEWAY_PROJECT_ID"));
      [split; [tauto|split; reflexivity]|].
    destruct (truthy_opt (CREDS !! u "SCALEWAY_ORGANIZATION_ID"));
      (split; [tauto|split; reflexivity]). }
  clearbody config. destruct Hc as (Hf & Hn & Hty).
  set (PROBE := if truthy_str name then _ else _).
  assert (Hprobe : exists probe got c',
            cloud_init name probe got /\
            PROBE c = (match got with inl e => Raise e | inr _ => Ret tt end, c', probe)).
  { subst PROBE. destruct (truthy_str name) eqn:Hname.
    - unfold bind, lift, ret, raise.
      destruct (path_exists K name c) as [[|] c1].
      + destruct (open_file K name c1) as [[e|r] c2].
        * exists [EvExists name true; EvOpen name (inl e)], (inl e), c2.
          split; [by constructor|reflexivity].
        * exists [EvExists name true; EvOpen name (inr r)], (inr (Some r)), c2.
          split; [by constructor|reflexivity].
      + exists [EvExists name false], (inr None), c1. split; [by constructor|reflexivity].
    - exists [], (inr None), c. split; [by constructor|reflexivity]. }
  destruct Hprobe as (probe & got & c' & Hci & Hp).
  exists probe, got. split; [done|].
  rewrite trace_bind, result_bind. unfold tail_of. rewrite Hp.
  cbn [trace result final fst snd].
  destruct got as [e|found]; [by rewrite app_nil_r|].
  unfold py_getitem. rewrite bind_lift, Hn. rewrite bind_lift, Hty.
  rewrite trace_bind_print, trace_bind.
  rewrite (trace_api_request K CREDS key Hkey Htr) by discriminate.
  cbn [sent base_of].
  eexists config, _, _. split; [done|]. split; [done|]. reflexivity.
Qed.

Lemma hetzner_create_runs tok name c :
  truthy_str tok = true ->
  let r := Hetzner.create_server K (Some tok) (Some name) c in
  exists probe got,
    cloud_init name probe got /\
    let posted fields :=
      exists res rest,
        trace r = probe
                  ++ EvPrint (u "🚀 Creating server: gitbackup-node (cx22)")
                  :: EvApi POST hetzner_servers_url (Some (JDict fields)) res :: rest in
    match got with
    | inl e | inr (Some (inl e)) => trace r = probe /\ result r = Raise e
    | inr (Some (inr data)) =>
        posted (dict_set (u "user_data") (JStr data) Hetzner.VM_CONFIG)
    | inr None => posted Hetzner.VM_CONFIG
    end.
Proof.
  intros Htr. cbv zeta. unfold Hetzner.create_server. cbv beta iota zeta.
  set (PROBE := if truthy_str name then _ else _).
  assert (Hprobe : exists probe got c',
            cloud_init name probe got /\
            PROBE c = (match got with
                       | inl e | inr (Some (inl e)) => Raise e
                       | inr (Some (inr data)) =>
                           Ret (dict_set (u "user_data") (JStr data) Hetzner.VM_CONFIG)
                       | inr None => Ret Hetzner.VM_CONFIG
                       end, c', probe)).
  { subst PROBE. destruct (truthy_str name) eqn:Hname.
    - unfold bind, lift, ret, raise.
      destruct (path_exists K name c) as [[|] c1].
      + destruct (open_file K name c1) as [[e|[e|data]] c2].
        * exists [EvExists name true; EvOpen name (inl e)], (inl e), c2.
          split; [by constructor|reflexivity].
        * exists [EvExists name true; EvOpen name (inr (inl e))], (inr (Some (inl e))), c2.
          split; [by constructor|reflexivity].
        * exists [EvExists name true; EvOpen name (inr (inr data))],
            (inr (Some (inr data))), c2.
          split; [by constructor|reflexivity].
      + exists [EvExists name false], (inr None), c1. split; [by constructor|reflexivity].
    - exists [], (inr None), c. split; [by constructor|reflexivity]. }
  destruct Hprobe as (probe & got & c' & Hci & Hp).
  exists probe, got. split; [done|].
  rewrite trace_bind, result_bind. unfold tail_of. rewrite Hp.
  cbn [trace result final fst snd].
  destruct got as [e|[[e|data]|]]; [by rewrite app_nil_r|by rewrite app_nil_r|..].
  - rewrite bind_lift.
    change (py_getitem (JDict (dict_set (u "user_data") (JStr data) Hetzner.VM_CONFIG))
              (u "name")) with (@inr exn json (JStr (u "gitbackup-node"))).
    cbv beta iota. rewrite bind_lift.
    change (py_getitem (JDict (dict_set (u "user_data") (JStr data) Hetzner.VM_CONFIG))
              (u "server_type")) with (@inr exn json (JStr (u "cx22"))).
    cbv beta iota. rewrite trace_bind_print, trace_bind.
    rewrite hetzner_api_request_eq by (done || discriminate).
    cbv zeta. cbn [sent trace fst snd]. eexists _, _. reflexivity.
  - rewrite bind_lift.
    change (py_getitem (JDict Hetzner.VM_CONFIG) (u "name"))
      with (@inr exn json (JStr (u "gitbackup-node"))).
    cbv beta iota. rewrite bind_lift.
    change (py_getitem (JDict Hetzner.VM_CONFIG) (u "server_type"))
      with (@inr exn json (JStr (u "cx22"))).
    cbv beta iota. rewrite trace_bind_print, trace_bind.
    rewrite hetzner_api_request_eq by (done || discriminate).
    cbv zeta. cbn [sent trace fst snd]. eexists _, _. reflexivity.
Qed.

End CreateRuns.

Lemma spawn_creates_first {W N} (H : host W N) ENV fuel name p s :
  exists out rest,
    trace (spawn_node H ENV fuel name p s)
    = EvPrint (u "
🚀 Spawning " ++ name ++ u " on " ++ provider_name p ++ u "...
")
      :: EvPrint (u "1️⃣  Creating VM...")
      :: EvProvider p [u "create"; name] out :: rest /\
    Forall (fun e => is_create e = false) rest.
Proof.
  unfold spawn_node. rewrite !trace_bind_print, trace_bind.
  unfold run_provider_cmd at 1. rewrite in_world_eq. cbn [trace snd app].
  eexists _, _. split; [reflexivity|].
  apply tail_of_emits. intros [[stdout stderr] code].
  pose proof (list_is_not_create p).
  repeat emits_spawn; try done.
Qed.

(** Claim C9. A spawn of [name] begins by running [<script> create name], and
    runs no other [create]. Given these arguments and credentials, each
    provider script takes [name] for the path of a cloud-init file: it looks
    for a file of that name and opens it, and an exception of [open] (or, for
    Hetzner, of reading) ends the run. Otherwise it announces and [POST]s a
    server called [gitbackup-node]: for Scaleway the fixed configuration with
    the project or organization of the credentials, for Hetzner the fixed
    configuration, with the contents of that file as [user_data] when there
    is one. Nothing else the scripts do then mentions another server name:
    they print, look for that file, and [POST] that server or a power-on. *)
Theorem create_ignores_node_name {C} (K : cloud C) CREDS key token name script c :
  CREDS !! u "SCALEWAY_SECRET_KEY" = Some key -> truthy_str key = true ->
  truthy_str token = true ->
  (forall W N (H : host W N) ENV fuel p s,
     exists out rest,
       trace (spawn_node H ENV fuel name p s)
       = EvPrint (u "
🚀 Spawning " ++ name ++ u " on " ++ provider_name p ++ u "...
")
         :: EvPrint (u "1️⃣  Creating VM...")
         :: EvProvider p [u "create"; name] out :: rest /\
       Forall (fun e => is_create e = false) rest) /\
  (let r := Scaleway.main K CREDS [script; u "create"; name] c in
   Forall (create_event (scaleway_fields CREDS) name) (trace r) /\
   exists probe got,
     cloud_init name probe got /\
     match got with
     | inl e => trace r = probe /\ result r = Raise e
     | inr _ =>
         exists fields res rest,
           scaleway_fields CREDS fields /\
           assoc (u "name") fields = Some (JStr (u "gitbackup-node")) /\
           trace r = probe
                     ++ EvPrint (u "🚀 Creating server: gitbackup-node (STARDUST1-S)")
                     :: EvApi POST servers_url (Some (JDict fields)) res :: rest
     end) /\
  (let r := Hetzner.main K (Some token) [script; u "create"; name] c in
   Forall (create_event hetzner_fields name) (trace r) /\
   exists probe got,
     cloud_init name probe got /\
     let posted fields :=
       exists res rest,
         trace r = probe
                   ++ EvPrint (u "🚀 Creating server: gitbackup-node (cx22)")
                   :: EvApi POST hetzner_servers_url (Some (JDict fields)) res :: rest in
     match got with
     | inl e | inr (Some (inl e)) => trace r = probe /\ result r = Raise e
     | inr (Some (inr data)) =>
         posted (dict_set (u "user_data") (JStr data) Hetzner.VM_CONFIG)
     | inr None => posted Hetzner.VM_CONFIG
     end).
Proof.
  intros Hkey Hk Ht. split; [|split].
  - intros W N H ENV fuel p s. apply spawn_creates_first.
  - cbv zeta. rewrite scaleway_main_create. split.
    { apply emits_at. apply emits_bind; [apply scaleway_create_events|].
      intros ?. apply emits_ret. }
    rewrite trace_then_ret.
    destruct (scaleway_create_runs K CREDS key name c Hkey Hk) as (probe & got & Hci & Hr).
    exists probe, got. split; [done|].
    destruct got as [e|found]; [|done].
    destruct Hr as [Htr Hres]. split; [done|]. by apply result_then_ret.
  - cbv zeta. rewrite hetzner_main_create. split.
    { apply emits_at. apply emits_bind; [apply hetzner_create_events|].
      intros ?. apply emits_ret. }
    rewrite trace_then_ret.
    destruct (hetzner_create_runs K token name c Ht) as (probe & got & Hci & Hr).
    exists probe, got. split; [done|]. cbv zeta in Hr.
    destruct got as [e|[[e|data]|]]; try done.
    + destruct Hr as [Htr Hres]. split; [done|]. by apply result_then_ret.
    + destruct Hr as [Htr Hres]. split; [done|]. by apply result_then_ret.
Qed.

(** The create of a spawn of [b1] on the example vendor, where no file is
    called [b1]. *)
Lemma create_ignores_node_name_witness :
  (forall W N (H : host W N) ENV fuel p s,
     exists out rest,
       trace (spawn_node H ENV fuel (u "b1") p s)
       = EvPrint (u "
🚀 Spawning " ++ u "b1" ++ u " on " ++ provider_name p ++ u "...
")
         :: EvPrint (u "1️⃣  Creating VM...")
         :: EvProvider p [u "create"; u "b1"] out :: rest /\
       Forall (fun e => is_create e = false) rest) /\
  (let r := Scaleway.main demo_vendor demo_creds [u "scaleway.py"; u "create"; u "b1"] tt in
   Forall (create_event (scaleway_fields demo_creds) (u "b1")) (trace r) /\
   exists probe got,
     cloud_init (u "b1") probe got /\
     match got with
     | inl e => trace r = probe /\ result r = Raise e
     | inr _ =>
         exists fields res rest,
           scaleway_fields demo_creds fields /\
           assoc (u "name") fields = Some (JStr (u "gitbackup-node")) /\
           trace r = probe
                     ++ EvPrint (u "🚀 Creating server: gitbackup-node (STARDUST1-S)")
                     :: EvApi POST servers_url (Some (JDict fields)) res :: rest
     end) /\
  (let r := Hetzner.main demo_vendor (Some (u "token"))
              [u "scaleway.py"; u "create"; u "b1"] tt in
   Forall (create_event hetzner_fields (u "b1")) (trace r) /\
   exists probe got,
     cloud_init (u "b1") probe got /\
     let posted fields :=
       exists res rest,
         trace r = probe
                   ++ EvPrint (u "🚀 Creating server: gitbackup-node (cx22)")
                   :: EvApi POST hetzner_servers_url (Some (JDict fields)) res :: rest in
     match got with
     | inl e | inr (Some (inl e)) => trace r = probe /\ result r = Raise e
     | inr (Some (inr data)) =>
         posted (dict_set (u "user_data") (JStr data) Hetzner.VM_CONFIG)
     | inr None => posted Hetzner.VM_CONFIG
     end).
Proof.
  apply (create_ignores_node_name demo_vendor demo_creds (u "secret") (u "token")
           (u "b1") (u "scaleway.py") tt); reflexivity.
Defined.

(** Counterexample to claim C8: two spawns that differ only in the webhook
    configuration. Without a webhook the notification is skipped, with one it
    is delivered; both spawns return [True], but they leave the node in
    different states, because the bootstrap writes the webhook into the
    node's [/home/giobi/.env]. *)
Lemma webhook_reaches_the_node :
  let a := spawn_node logging_host ∅ 1 (u "b1") scaleway ([], tt) in
  let b := spawn_node logging_host with_webhook 1 (u "b1") scaleway ([], tt) in
  result a = Ret true /\ result b = Ret true /\ (final a).1 <> (final b).1.
Proof.
  cbv zeta. split; [by vm_compute|]. split; [by vm_compute|].
  match goal with
  | |- ?x <> ?y => assert (Hd : bool_decide (x = y) = false) by (vm_compute; reflexivity)
  end.
  by apply bool_decide_eq_false in Hd.
Qed.

